(** * Kirkgate Market events to ICS: a shallow embedding of [src/main.py]

    The program is a linear batch pipeline: fetch a web page, cut the events
    table out of it, ask a completion service for the month and for the
    events, render the events as an iCalendar text and store it.  Every
    function of [main.py] is embedded below under its own name, together with
    the parts of the Python libraries it calls.

    Conventions.
    - A Python [str] is a Rocq [string]; a character above U+007F is held as
      its UTF-8 bytes.  A file holds the UTF-8 encoding of its text, so the
      same [string] stands for the bytes on disk; files that are not UTF-8
      are outside the model.  A lone surrogate, which [json.loads] reads from
      an escape and UTF-8 cannot encode, is held as the three bytes it would
      have (ED, then a byte from A0 on): [write_text] refuses a text with
      one.
    - Python integers are [Z]; floats are kept as the literals they are read
      from.
    - Effects (network, clock, random source, file system, log) are threaded
      through a state-and-exception monad [M]: an exception leaves the world
      as it was when it was raised.
    - Whatever the outside answers (web server, completion service, clock,
      random bytes) and the library behaviours that are not modelled in full
      (the HTML tree builder and serializer of BeautifulSoup, [int] on
      Unicode digits and on floats, the lax coercions of pydantic) are fields
      of the record [Env]; every theorem quantifies over it.
    - The operating system is POSIX and the locale is the C locale, as for a
      scheduled job on Linux.  The process may look up every path ([exists],
      [is_dir] never fail); where the entries of the file system would let a
      directory be made or a file be opened for writing, the operating system
      may still refuse (permission denied, read-only file system), and once a
      file is open, and so empty, the writing may fail and leave it with a
      part of the data: these answers are fields of [Env] too. *)

From Stdlib Require Import ZArith NArith Ascii List Bool Lia.
From Stdlib Require String.
From stdpp Require Import base option list gmap strings.

Set Warnings "-register-all".

Open Scope Z_scope.

(** ** Characters and strings *)

Definition chr (n : nat) : ascii := ascii_of_nat n.
Definition ord (c : ascii) : Z := Z.of_nat (nat_of_ascii c).

Definition LF : ascii := chr 10.
Definition CR : ascii := chr 13.
Definition CRLF : string := String CR (String LF "").

Definition is_char (c d : ascii) : bool := Ascii.eqb c d.

(** [sep.join(parts)] *)
Fixpoint join (sep : string) (parts : list string) : string :=
  match parts with
  | [] => ""
  | [p] => p
  | p :: rest => p +:+ sep +:+ join sep rest
  end.

(** [s.replace(c, by)] for a one-character pattern [c]. *)
Fixpoint replace_char (c : ascii) (by_ : string) (s : string) : string :=
  match s with
  | "" => ""
  | String d s' =>
      if is_char d c then by_ +:+ replace_char c by_ s'
      else String d (replace_char c by_ s')
  end.

Definition starts_with_char (c : ascii) (s : string) : bool :=
  match s with
  | String d _ => is_char d c
  | "" => false
  end.

(** Does the two-character sequence CR LF occur in [s]? *)
Fixpoint has_crlf (s : string) : bool :=
  match s with
  | "" => false
  | String c s' => (is_char c CR && starts_with_char LF s') || has_crlf s'
  end.

Fixpoint has_char (c : ascii) (s : string) : bool :=
  match s with
  | "" => false
  | String d s' => is_char d c || has_char c s'
  end.

(** The content lines of a text whose line terminator is CR LF: the text is cut
    at every CR LF, scanning from the left; a lone CR or a lone LF is an
    ordinary character of its line. *)
Fixpoint split_crlf (s : string) : list string :=
  match s with
  | "" => [""]
  | String c s' =>
      match s' with
      | String d s'' =>
          if is_char c CR && is_char d LF then "" :: split_crlf s''
          else match split_crlf s' with
               | l :: ls => String c l :: ls
               | [] => [String c ""]
               end
      | "" => [String c ""]
      end
  end.

Definition string_eqb (a b : string) : bool := String.eqb a b.

Fixpoint count_lines (l : string) (ls : list string) : nat :=
  match ls with
  | [] => O
  | x :: ls' => (if string_eqb x l then 1 else 0)%nat + count_lines l ls'
  end.

(** Decimal digits. *)
Definition digit (d : Z) : ascii := chr (48 + Z.to_nat (d mod 10)).

Definition pad2 (n : Z) : string :=
  String (digit (n / 10)) (String (digit n) "").

Definition pad4 (n : Z) : string :=
  String (digit (n / 1000)) (String (digit (n / 100)) (pad2 n)).

(** A year of [1, 9999] without leading zeros. *)
Definition unpadded4 (n : Z) : string :=
  if n <? 10 then String (digit n) ""
  else if n <? 100 then pad2 n
  else if n <? 1000 then String (digit (n / 100)) (pad2 n)
  else pad4 n.

Definition hex_digit (d : N) : ascii :=
  let d := (d mod 16)%N in
  if (d <? 10)%N then chr (48 + N.to_nat d) else chr (87 + N.to_nat d).

(** [n] lowercase hexadecimal digits of [v], most significant first
    (['%0nx' % v] for [v < 16^n]). *)
Fixpoint hex_digits (n : nat) (v : N) : string :=
  match n with
  | O => ""
  | S n' => String (hex_digit (N.shiftr v (4 * N.of_nat n'))) (hex_digits n' v)
  end.

(** ** Exceptions and the monad of a run *)

Inductive exn : Type :=
  | HTTPStatusError (status_code : Z) (response_text : string)
  | TransportError
  | JSONDecodeError
  | RecursionError
  | KeyError
  | IndexError
  | TypeError
  | ValueError
  | OverflowError
  | AttributeError
  | ValidationError
  | IllegalMonthError
  | FileExistsError
  | FileNotFoundError
  | IsADirectoryError
  | NotADirectoryError
  | PermissionError
  | OSError
  | UnicodeEncodeError.

Inductive result (A : Type) : Type :=
  | Ok (a : A)
  | Raise (e : exn).
Arguments Ok {A} a.
Arguments Raise {A} e.

(** ** Data model *)

(** A value as [json.loads] builds it: [None], [bool], [int], [float], [str],
    [list], [dict].  A float is kept as the literal it was read from; a dict
    keeps its keys in insertion order. *)
Inductive json : Type :=
  | JNull
  | JBool (b : bool)
  | JInt (n : Z)
  | JFloat (literal : string)
  | JString (s : string)
  | JArray (items : list json)
  | JObject (members : list (string * json)).

Record Date : Type := mkDate { year : Z; month : Z; day : Z }.
Record Time : Type := mkTime { hour : Z; minute : Z; second : Z }.
Record DateTime : Type := mkDateTime { dt_date : Date; dt_time : Time }.

(** [class Event(pydantic.BaseModel)] *)
Record Event : Type := mkEvent {
  date : Date;
  title : string;
  description : option string;
  start_time : Time;
  end_time : Time
}.

(** [class Settings(BaseSettings)]; a [Path] is the list of its parts, an
    absolute one starts with the part ["/"]. *)
Abbreviation Path := (list string).

Record Settings : Type := mkSettings {
  events_page_url : string;
  openrouter_api_key : string;
  openrouter_model : string;
  artifacts_dir : Path;
  ics_file_name : Path;
  html_file_name : Path;
  scraper_user_agent : string;
  log_level : string
}.

(** A document as BeautifulSoup holds it. *)
Inductive PageElement : Type :=
  | Tag (name : string) (attrs : list (string * string))
        (contents : list PageElement)
  | NavigableString (text : string)
  | Comment (text : string).

(** ** The outside world *)

Definition Headers : Type := list (string * string).

Record Response : Type := mkResponse { status_code : Z; text : string }.

Inductive net_reply : Type :=
  | Replied (r : Response)
  | NetFailure.

(** Everything a run does not decide itself.  The [nat] argument of the
    network fields is the number of actions the run has performed so far, so
    that the same request may be answered differently at different moments. *)
Record Env : Type := mkEnv {
  (** the network: what [httpx.get] and [httpx.post] come back with *)
  web_server : nat -> string -> Headers -> net_reply;
  completion_service : nat -> string -> Headers -> json -> net_reply;
  (** the machine: seconds since the epoch, the offset of the local time zone
      from UTC in seconds, the k-th draw of 16 random bytes, and whether the
      C library pads [%Y] to four digits *)
  posix_time : Z;
  utc_offset : Z;
  urandom16 : nat -> N;
  strftime_pads_year : bool;
  (** BeautifulSoup: the tree builder of ["html.parser"] and [str(tag)] *)
  html_parser : string -> list PageElement;
  decode : PageElement -> string;
  (** [int(s)] for a text with a character outside ASCII (Unicode digits and
      spaces), and [int(x)] for a float given by its literal *)
  int_of_unicode : string -> result Z;
  int_of_float : string -> result Z;
  (** pydantic coercions of a date or a time from anything but a text in the
      plain ISO forms YYYY-MM-DD and HH:MM:SS *)
  lax_date : json -> result Date;
  lax_time : json -> result Time;
  (** the operating system, asked at a moment of the run (the number of
      actions so far) about a path whose entries would allow the request: the
      error it answers the making of a directory with, and the opening of a
      file for writing; and, for a file that is open and empty, the error
      the writing of the data ends with and the number of bytes that reached
      the file before *)
  mkdir_error : nat -> Path -> option exn;
  open_error : nat -> Path -> option exn;
  write_error : nat -> Path -> string -> option (exn * nat)
}.

Inductive fs_node : Type :=
  | Dir
  | File (content : string).

Inductive io_event : Type :=
  | HttpGet (url : string) (headers : Headers)
  | HttpPost (url : string) (headers : Headers) (body : json)
  | MkDir (p : Path)
  | ReadText (p : Path)
  | WriteText (p : Path) (data : string)
  | LogInfo (message : string).

(** The part of the world a run changes: the file system, the actions
    performed so far (oldest first) and the number of random draws. *)
Record World : Type := mkWorld {
  fs : gmap (list string) fs_node;
  trace : list io_event;
  draws : nat
}.

Definition M (A : Type) : Type := Env -> World -> result A * World.

Definition ret {A} (a : A) : M A := fun _ w => (Ok a, w).
Definition raise {A} (e : exn) : M A := fun _ w => (Raise e, w).
Definition bind {A B} (m : M A) (k : A -> M B) : M B :=
  fun env w =>
    match m env w with
    | (Ok a, w') => k a env w'
    | (Raise e, w') => (Raise e, w')
    end.
Definition lift {A} (r : result A) : M A := fun _ w => (r, w).
Definition ask : M Env := fun env w => (Ok env, w).

Notation "x <- m ;; k" := (bind m (fun x => k))
  (at level 100, m at next level, right associativity).
Notation "m ;;; k" := (bind m (fun _ => k))
  (at level 100, right associativity).

Definition emit (e : io_event) : M unit :=
  fun _ w => (Ok tt, mkWorld (fs w) (trace w ++ [e]) (draws w)).

(** The number of actions performed so far. *)
Definition clock_tick : M nat := fun _ w => (Ok (length (trace w)), w).

(** [for x in xs: acc = body(acc, x)] *)
Fixpoint for_each {A B} (body : B -> A -> M B) (acc : B) (xs : list A) : M B :=
  match xs with
  | [] => ret acc
  | x :: xs' => acc' <- body acc x ;; for_each body acc' xs'
  end.

(** [[f(x) for x in xs]] *)
Fixpoint map_result {A B} (f : A -> result B) (xs : list A) : result (list B) :=
  match xs with
  | [] => Ok []
  | x :: xs' =>
      match f x with
      | Ok y => match map_result f xs' with
                | Ok ys => Ok (y :: ys)
                | Raise e => Raise e
                end
      | Raise e => Raise e
      end
  end.

(** ** [datetime]: the proleptic Gregorian calendar, as in CPython *)

Definition isleap (y : Z) : bool :=
  (y mod 4 =? 0) && (negb (y mod 100 =? 0) || (y mod 400 =? 0)).

(** [mdays[month]], index 0 unused. *)
Definition mdays (m : Z) : Z :=
  nth (Z.to_nat m) [0; 31; 28; 31; 30; 31; 30; 31; 31; 30; 31; 30; 31] 0.

Definition days_before_month_table (m : Z) : Z :=
  nth (Z.to_nat m) [0; 0; 31; 59; 90; 120; 151; 181; 212; 243; 273; 304; 334] 0.

Definition b2z (b : bool) : Z := if b then 1 else 0.

Definition days_before_year (y : Z) : Z :=
  let y := y - 1 in y * 365 + y / 4 - y / 100 + y / 400.

Definition days_before_month (y m : Z) : Z :=
  days_before_month_table m + b2z ((2 <? m) && isleap y).

Definition ymd2ord (y m d : Z) : Z :=
  days_before_year y + days_before_month y m + d.

(** [date(y, m, d).weekday()]: Monday is 0. *)
Definition weekday (y m d : Z) : Z := (ymd2ord y m d + 6) mod 7.

(** [_ord2ymd]: day number 1 is 0001-01-01. *)
Definition ord2ymd (n : Z) : Date :=
  let n := n - 1 in
  let n400 := n / 146097 in
  let n := n mod 146097 in
  let y := n400 * 400 + 1 in
  let n100 := n / 36524 in
  let n := n mod 36524 in
  let n4 := n / 1461 in
  let n := n mod 1461 in
  let n1 := n / 365 in
  let n := n mod 365 in
  let y := y + n100 * 100 + n4 * 4 + n1 in
  if (n1 =? 4) || (n100 =? 4) then mkDate (y - 1) 12 31
  else
    let leapyear := (n1 =? 3) && (negb (n4 =? 24) || (n100 =? 3)) in
    let m := Z.shiftr (n + 50) 5 in
    let preceding := days_before_month_table m + b2z ((2 <? m) && leapyear) in
    if n <? preceding then
      let m := m - 1 in
      let preceding := preceding - (mdays m + b2z ((m =? 2) && leapyear)) in
      mkDate y m (n - preceding + 1)
    else mkDate y m (n - preceding + 1).

(** The calendar date and wall-clock time [secs] seconds after
    1970-01-01T00:00:00; [None] when the year leaves [1, 9999]. *)
Definition civil_of_seconds (secs : Z) : option DateTime :=
  let d := ord2ymd (719163 + secs / 86400) in
  let r := secs mod 86400 in
  if (1 <=? year d) && (year d <=? 9999)
  then Some (mkDateTime d (mkTime (r / 3600) (r / 60 mod 60) (r mod 60)))
  else None.

(** [datetime.now()]: the naive LOCAL date and time. *)
Definition datetime_now : M DateTime :=
  env <- ask ;;
  match civil_of_seconds (posix_time env + utc_offset env) with
  | Some dt => ret dt
  | None => raise ValueError
  end.

(** [datetime.now(timezone.utc)], for comparison: the date and time in UTC. *)
Definition datetime_utcnow : M DateTime :=
  env <- ask ;;
  match civil_of_seconds (posix_time env) with
  | Some dt => ret dt
  | None => raise ValueError
  end.

(** [datetime.combine(date, time)] *)
Definition datetime_combine (d : Date) (t : Time) : DateTime := mkDateTime d t.

Definition strftime_Y (pads : bool) (y : Z) : string :=
  if pads then pad4 y else unpadded4 y.

(** [dt.strftime('%Y%m%dT%H%M%S')] *)
Definition strftime_basic (pads : bool) (dt : DateTime) : string :=
  strftime_Y pads (year (dt_date dt)) +:+ pad2 (month (dt_date dt))
  +:+ pad2 (day (dt_date dt)) +:+ "T" +:+ pad2 (hour (dt_time dt))
  +:+ pad2 (minute (dt_time dt)) +:+ pad2 (second (dt_time dt)).

(** [dt.strftime('%Y%m%dT%H%M%SZ')]: the letter Z is part of the format, it
    is appended whatever the time zone of [dt]. *)
Definition strftime_basic_Z (pads : bool) (dt : DateTime) : string :=
  strftime_basic pads dt +:+ "Z".

(** ** [uuid] *)

(** [UUID(bytes=..., version=4).int]: variant and version bits forced. *)
Definition uuid4_int (random : N) : N :=
  let i := (random mod 2 ^ 128)%N in
  let i := N.ldiff i (N.shiftl 0xc000 48) in
  let i := N.lor i (N.shiftl 0x8000 48) in
  let i := N.ldiff i (N.shiftl 0xf000 64) in
  N.lor i (N.shiftl 4 76).

(** [str(uuid)] *)
Definition uuid_str (i : N) : string :=
  let hex := hex_digits 32 i in
  String.substring 0 8 hex +:+ "-" +:+ String.substring 8 4 hex +:+ "-"
  +:+ String.substring 12 4 hex +:+ "-" +:+ String.substring 16 4 hex +:+ "-"
  +:+ String.substring 20 12 hex.

(** [str(uuid.uuid4())]: one draw from the random source. *)
Definition uuid4 : M string :=
  fun env w =>
    (Ok (uuid_str (uuid4_int (urandom16 env (draws w)))),
     mkWorld (fs w) (trace w) (S (draws w))).

(** ** Calendar Serializer *)

Definition ics_header : list string :=
  [ "BEGIN:VCALENDAR";
    "VERSION:2.0";
    "PRODID:-//MyPythonScript//EN";
    "CALSCALE:GREGORIAN" ].

Definition ics_footer : list string := [ "END:VCALENDAR" ].

(** [(event.description or "").replace("\n", "\\n")] *)
Definition escape_description (d : option string) : string :=
  replace_char LF "\n" (default "" d).

(** The VEVENT block of one event. *)
Definition event_entry (pads : bool) (uid creation_timestamp : string)
    (event : Event) : list string :=
  let start_datetime := datetime_combine (date event) (start_time event) in
  let end_datetime := datetime_combine (date event) (end_time event) in
  let description := escape_description (description event) in
  [ "BEGIN:VEVENT";
    "UID:" +:+ uid;
    "DTSTAMP:" +:+ creation_timestamp;
    "DTSTART:" +:+ strftime_basic pads start_datetime;
    "DTEND:" +:+ strftime_basic pads end_datetime;
    "SUMMARY:" +:+ title event;
    "DESCRIPTION:" +:+ description;
    "LOCATION:Leeds Kirkgate Market, Kirkgate, Leeds LS2 7HY, UK";
    "END:VEVENT" ].

Definition create_ics_from_events (events : list Event) : M string :=
  env <- ask ;;
  now <- datetime_now ;;
  let creation_timestamp := strftime_basic_Z (strftime_pads_year env) now in
  event_entries <-
    for_each
      (fun event_entries event =>
         uid <- uuid4 ;;
         ret (event_entries ++
              event_entry (strftime_pads_year env) uid creation_timestamp event))
      [] events ;;
  let full_ics_list := ics_header ++ event_entries ++ ics_footer in
  ret (join CRLF full_ics_list).

(** ** [calendar.TextCalendar] *)

Definition NL : string := String LF "".
Definition DQUOTE : ascii := chr 34.

(** [repr(n)] of an integer. *)
Fixpoint decimal_go (fuel : nat) (n : Z) (acc : string) : string :=
  match fuel with
  | O => acc
  | S fuel' =>
      let acc' := String (digit n) acc in
      if n <? 10 then acc' else decimal_go fuel' (n / 10) acc'
  end.

Definition decimal (n : Z) : string :=
  if n <? 0 then "-" +:+ decimal_go (S (Z.to_nat (Z.log2 (- n)))) (- n) ""
  else decimal_go (S (Z.to_nat (Z.log2 n))) n "".

Fixpoint spaces (n : nat) : string :=
  match n with
  | O => ""
  | S n' => String " " (spaces n')
  end.

(** [s.center(width)], CPython's rounding of an odd margin included. *)
Definition center (width : nat) (s : string) : string :=
  let len := String.length s in
  if (width <=? len)%nat then s
  else
    let marg := (width - len)%nat in
    let left :=
      (marg / 2 + (if Nat.odd marg && Nat.odd width then 1 else 0))%nat in
    spaces left +:+ s +:+ spaces (marg - left).

(** White space for [str.strip] and [int], within ASCII. *)
Definition is_space (c : ascii) : bool :=
  let n := ord c in ((9 <=? n) && (n <=? 13)) || (n =? 32).

(** [s.rstrip()] *)
Fixpoint rstrip (s : string) : string :=
  match s with
  | "" => ""
  | String c s' =>
      match rstrip s' with
      | "" => if is_space c || ((28 <=? ord c) && (ord c <=? 31)) then ""
              else String c ""
      | r => String c r
      end
  end.

(** [calendar.month_name] and [calendar.day_abbr] in the C locale. *)
Definition month_name (m : Z) : string :=
  nth (Z.to_nat m)
    [ ""; "January"; "February"; "March"; "April"; "May"; "June"; "July";
      "August"; "September"; "October"; "November"; "December" ] "".

Definition day_abbr (i : Z) : string :=
  nth (Z.to_nat i) [ "Mon"; "Tue"; "Wed"; "Thu"; "Fri"; "Sat"; "Sun" ] "".

(** [calendar.monthrange], for a month of [1, 12]. *)
Definition monthrange (theyear themonth : Z) : Z * Z :=
  (weekday theyear themonth 1,
   mdays themonth + b2z ((themonth =? 2) && isleap theyear)).

Definition zrange (lo n : Z) : list Z :=
  map (fun i => lo + Z.of_nat i) (seq 0 (Z.to_nat n)).

(** [Calendar.itermonthdays2], first week day Monday: the days of the month
    with their week days, padded with zeros to whole weeks. *)
Definition itermonthdays2 (theyear themonth : Z) : list (Z * Z) :=
  let '(day1, ndays) := monthrange theyear themonth in
  let days_before := day1 mod 7 in
  let days_after := (0 - day1 - ndays) mod 7 in
  let days := repeat 0 (Z.to_nat days_before) ++ zrange 1 ndays
              ++ repeat 0 (Z.to_nat days_after) in
  map (fun '(i, d) => (d, Z.of_nat i mod 7)) (combine (seq 0 (length days)) days).

(** [[days[i:i+7] for i in range(0, len(days), 7)]] *)
Fixpoint weeks_of {A} (fuel : nat) (days : list A) : list (list A) :=
  match fuel, days with
  | S fuel', _ :: _ => take 7 days :: weeks_of fuel' (drop 7 days)
  | _, _ => []
  end.

Definition monthdays2calendar (theyear themonth : Z) : list (list (Z * Z)) :=
  let days := itermonthdays2 theyear themonth in
  weeks_of (length days) days.

(** [TextCalendar.formatday]; ['%2i' % day] right-aligns in two columns. *)
Definition formatday (d : Z) (width : nat) : string :=
  let s := if d =? 0 then ""
           else if d <? 10 then " " +:+ decimal d else decimal d in
  center width s.

Definition formatweek (theweek : list (Z * Z)) (width : nat) : string :=
  join " " (map (fun '(d, wd) => formatday d width) theweek).

Definition formatweekday (i : Z) (width : nat) : string :=
  center width (String.substring 0 width (day_abbr i)).

Definition formatweekheader (width : nat) : string :=
  join " " (map (fun i => formatweekday i width) (zrange 0 7)).

Definition formatmonthname (theyear themonth : Z) (width : nat) : string :=
  center width (month_name themonth +:+ " " +:+ decimal theyear).

(** [TextCalendar().formatmonth(theyear, themonth)], with the defaults
    [w = 0] and [l = 0], that is columns of width 2 and single line breaks.
    An index beyond the table of month names raises [IndexError], any other
    month outside [1, 12] raises [IllegalMonthError]. *)
Definition formatmonth (theyear themonth : Z) : result string :=
  if (13 <=? themonth) || (themonth <? -13) then Raise IndexError
  else if negb ((1 <=? themonth) && (themonth <=? 12)) then Raise IllegalMonthError
  else
    let w := 2%nat in
    let s := rstrip (formatmonthname theyear themonth (7 * (w + 1) - 1)) in
    let s := s +:+ NL in
    let s := s +:+ rstrip (formatweekheader w) in
    let s := s +:+ NL in
    Ok (fold_left (fun s week => s +:+ rstrip (formatweek week w) +:+ NL)
          (monthdays2calendar theyear themonth) s).

(** ** [json.loads] *)

Definition is_digit (c : ascii) : bool := (48 <=? ord c) && (ord c <=? 57).
Definition digit_val (c : ascii) : Z := ord c - 48.

Definition hex_val (c : ascii) : option Z :=
  let n := ord c in
  if (48 <=? n) && (n <=? 57) then Some (n - 48)
  else if (97 <=? n) && (n <=? 102) then Some (n - 87)
  else if (65 <=? n) && (n <=? 70) then Some (n - 55)
  else None.

Definition byte (n : Z) : ascii := chr (Z.to_nat n).

(** The UTF-8 bytes of a code point (a lone surrogate is written the same
    way, in three bytes). *)
Definition utf8_encode (cp : Z) : string :=
  if cp <? 0x80 then String (byte cp) ""
  else if cp <? 0x800 then
    String (byte (0xC0 + cp / 64)) (String (byte (0x80 + cp mod 64)) "")
  else if cp <? 0x10000 then
    String (byte (0xE0 + cp / 4096))
      (String (byte (0x80 + cp / 64 mod 64))
         (String (byte (0x80 + cp mod 64)) ""))
  else
    String (byte (0xF0 + cp / 262144))
      (String (byte (0x80 + cp / 4096 mod 64))
         (String (byte (0x80 + cp / 64 mod 64))
            (String (byte (0x80 + cp mod 64)) ""))).

Definition is_json_ws (c : ascii) : bool :=
  let n := ord c in (n =? 32) || (n =? 9) || (n =? 10) || (n =? 13).

Fixpoint skip_ws (s : string) : string :=
  match s with
  | String c s' => if is_json_ws c then skip_ws s' else s
  | "" => ""
  end.

(** [s.startswith(p)], giving what follows the prefix. *)
Fixpoint strip_prefix (p s : string) : option string :=
  match p, s with
  | "", _ => Some s
  | String a p', String b s' => if is_char a b then strip_prefix p' s' else None
  | _, "" => None
  end.

(** Four hexadecimal digits. *)
Definition hex4 (s : string) : option (Z * string) :=
  match s with
  | String a (String b (String c (String d rest))) =>
      match hex_val a, hex_val b, hex_val c, hex_val d with
      | Some x, Some y, Some z, Some t =>
          Some (((x * 16 + y) * 16 + z) * 16 + t, rest)
      | _, _, _, _ => None
      end
  | _ => None
  end.

(** One escape sequence, the backslash already read. *)
Definition scan_escape (s : string) : result (string * string) :=
  match s with
  | "" => Raise JSONDecodeError
  | String c rest =>
      let n := ord c in
      if n =? 117 (* u *) then
        match hex4 rest with
        | None => Raise JSONDecodeError
        | Some (hi, rest') =>
            let lone := Ok (utf8_encode hi, rest') in
            if (0xD800 <=? hi) && (hi <=? 0xDBFF) then
              match strip_prefix "\u" rest' with
              | Some rest'' =>
                  match hex4 rest'' with
                  | Some (lo, rest3) =>
                      if (0xDC00 <=? lo) && (lo <=? 0xDFFF)
                      then Ok (utf8_encode (0x10000 + (hi - 0xD800) * 1024
                                            + (lo - 0xDC00)), rest3)
                      else lone
                  | None => lone
                  end
              | None => lone
              end
            else lone
        end
      else if n =? 34 then Ok (String c "", rest)
      else if n =? 92 then Ok (String c "", rest)
      else if n =? 47 then Ok (String c "", rest)
      else if n =? 98 then Ok (String (chr 8) "", rest)
      else if n =? 102 then Ok (String (chr 12) "", rest)
      else if n =? 110 then Ok (String (chr 10) "", rest)
      else if n =? 114 then Ok (String (chr 13) "", rest)
      else if n =? 116 then Ok (String (chr 9) "", rest)
      else Raise JSONDecodeError
  end.

(** The body of a string, the opening quote already read (strict mode: a
    control character inside a string is an error). *)
Fixpoint scanstring (fuel : nat) (s : string) : result (string * string) :=
  match fuel with
  | O => Raise RecursionError
  | S fuel' =>
      match s with
      | "" => Raise JSONDecodeError
      | String c rest =>
          if ord c =? 34 then Ok ("", rest)
          else if ord c =? 92 then
            match scan_escape rest with
            | Ok (chunk, rest') =>
                match scanstring fuel' rest' with
                | Ok (tail, rest'') => Ok (chunk +:+ tail, rest'')
                | Raise e => Raise e
                end
            | Raise e => Raise e
            end
          else if ord c <? 32 then Raise JSONDecodeError
          else
            match scanstring fuel' rest with
            | Ok (tail, rest') => Ok (String c tail, rest')
            | Raise e => Raise e
            end
      end
  end.

Fixpoint take_digits (s : string) : string * string :=
  match s with
  | String c s' =>
      if is_digit c then let '(ds, rest) := take_digits s' in (String c ds, rest)
      else ("", s)
  | "" => ("", "")
  end.

Fixpoint digits_value (acc : Z) (ds : string) : Z :=
  match ds with
  | "" => acc
  | String c ds' => digits_value (acc * 10 + digit_val c) ds'
  end.

(** [sys.get_int_max_str_digits()] *)
Definition int_max_str_digits : nat := 4300.

(** A number at the head of [s], the longest match of: an optional minus
    sign; a zero, or a digit from 1 to 9 followed by digits; optionally a dot
    and one digit or more; optionally e or E, an optional sign and one digit
    or more.  [None] when nothing matches.  Without fraction and exponent the
    number is an [int], otherwise a [float]. *)
Definition scan_number (s : string) : option (result json * string) :=
  let '(sign, s1) := match strip_prefix "-" s with
                     | Some r => ("-", r)
                     | None => ("", s)
                     end in
  let '(int_part, s2) :=
    match s1 with
    | String c r => if ord c =? 48 then (String c "", r) else take_digits s1
    | "" => ("", "")
    end in
  if String.eqb int_part "" then None
  else
    let '(frac, s3) :=
      match strip_prefix "." s2 with
      | Some r => let '(ds, r') := take_digits r in
                  if String.eqb ds "" then ("", s2) else ("." +:+ ds, r')
      | None => ("", s2)
      end in
    let '(expo, s4) :=
      match s3 with
      | String e r =>
          if (ord e =? 101) || (ord e =? 69) then
            let '(sg, r1) := match r with
                             | String g r' =>
                                 if (ord g =? 43) || (ord g =? 45)
                                 then (String g "", r') else ("", r)
                             | "" => ("", r)
                             end in
            let '(ds, r2) := take_digits r1 in
            if String.eqb ds "" then ("", s3) else (String e (sg +:+ ds), r2)
          else ("", s3)
      | "" => ("", s3)
      end in
    if String.eqb frac "" && String.eqb expo "" then
      if (int_max_str_digits <? String.length int_part)%nat
      then Some (Raise ValueError, s4)
      else
        let v := digits_value 0 int_part in
        Some (Ok (JInt (if String.eqb sign "" then v else - v)), s4)
    else Some (Ok (JFloat (sign +:+ int_part +:+ frac +:+ expo)), s4).

Fixpoint dict_get (k : string) (members : list (string * json)) : option json :=
  match members with
  | [] => None
  | (k', v) :: rest => if String.eqb k' k then Some v else dict_get k rest
  end.

(** [d[k] = v]: a key already present keeps its place. *)
Fixpoint dict_set (k : string) (v : json) (members : list (string * json))
    : list (string * json) :=
  match members with
  | [] => [(k, v)]
  | (k', v') :: rest =>
      if String.eqb k' k then (k, v) :: rest else (k', v') :: dict_set k v rest
  end.

(** The scanner.  [fuel] bounds the number of values, array items and object
    members that are read; each of them consumes at least one character. *)
Fixpoint scan_once (fuel : nat) (s : string) : result (json * string) :=
  match fuel with
  | O => Raise RecursionError
  | S fuel' =>
      match s with
      | "" => Raise JSONDecodeError
      | String c rest =>
          let n := ord c in
          if n =? 34 then
            match scanstring (String.length s) rest with
            | Ok (str, rest') => Ok (JString str, rest')
            | Raise e => Raise e
            end
          else if n =? 123 (* { *) then
            match skip_ws rest with
            | String d rest' =>
                if ord d =? 125 then Ok (JObject [], rest')
                else scan_members fuel' [] (skip_ws rest)
            | "" => Raise JSONDecodeError
            end
          else if n =? 91 (* [ *) then
            match skip_ws rest with
            | String d rest' =>
                if ord d =? 93 then Ok (JArray [], rest')
                else scan_items fuel' [] (skip_ws rest)
            | "" => Raise JSONDecodeError
            end
          else
            match strip_prefix "null" s, strip_prefix "true" s,
                  strip_prefix "false" s with
            | Some r, _, _ => Ok (JNull, r)
            | _, Some r, _ => Ok (JBool true, r)
            | _, _, Some r => Ok (JBool false, r)
            | _, _, _ =>
                match strip_prefix "NaN" s, strip_prefix "Infinity" s,
                      strip_prefix "-Infinity" s with
                | Some r, _, _ => Ok (JFloat "NaN", r)
                | _, Some r, _ => Ok (JFloat "Infinity", r)
                | _, _, Some r => Ok (JFloat "-Infinity", r)
                | _, _, _ =>
                    match scan_number s with
                    | Some (Ok v, r) => Ok (v, r)
                    | Some (Raise e, _) => Raise e
                    | None => Raise JSONDecodeError
                    end
                end
            end
      end
  end

(** Array items, [s] at the first character of the next item; [acc] holds the
    items read so far, newest first. *)
with scan_items (fuel : nat) (acc : list json) (s : string)
    : result (json * string) :=
  match fuel with
  | O => Raise RecursionError
  | S fuel' =>
      match scan_once fuel' s with
      | Raise e => Raise e
      | Ok (v, rest) =>
          match skip_ws rest with
          | String d rest' =>
              if ord d =? 93 then Ok (JArray (rev (v :: acc)), rest')
              else if ord d =? 44 then scan_items fuel' (v :: acc) (skip_ws rest')
              else Raise JSONDecodeError
          | "" => Raise JSONDecodeError
          end
      end
  end

(** Object members, [s] at the opening quote of the next key. *)
with scan_members (fuel : nat) (acc : list (string * json)) (s : string)
    : result (json * string) :=
  match fuel with
  | O => Raise RecursionError
  | S fuel' =>
      match s with
      | String q after_quote =>
          if ord q =? 34 then
            match scanstring (String.length s) after_quote with
            | Raise e => Raise e
            | Ok (key, rest) =>
                match skip_ws rest with
                | String colon rest1 =>
                    if ord colon =? 58 then
                      match scan_once fuel' (skip_ws rest1) with
                      | Raise e => Raise e
                      | Ok (v, rest2) =>
                          let acc' := dict_set key v acc in
                          match skip_ws rest2 with
                          | String d rest3 =>
                              if ord d =? 125 then Ok (JObject acc', rest3)
                              else if ord d =? 44
                              then scan_members fuel' acc' (skip_ws rest3)
                              else Raise JSONDecodeError
                          | "" => Raise JSONDecodeError
                          end
                      end
                    else Raise JSONDecodeError
                | "" => Raise JSONDecodeError
                end
            end
          else Raise JSONDecodeError
      | "" => Raise JSONDecodeError
      end
  end.

(** The byte order mark U+FEFF in UTF-8. *)
Definition BOM : string := String (chr 239) (String (chr 187) (String (chr 191) "")).

(** [json.loads(s)] for a [str]. *)
Definition json_loads (s : string) : result json :=
  match strip_prefix BOM s with
  | Some _ => Raise JSONDecodeError
  | None =>
      match scan_once (S (String.length s)) (skip_ws s) with
      | Raise e => Raise e
      | Ok (v, rest) =>
          match skip_ws rest with
          | "" => Ok v
          | _ => Raise JSONDecodeError
          end
      end
  end.

(** [json.loads(x)] for [x] any value: only a text can be decoded. *)
Definition json_loads_value (x : json) : result json :=
  match x with
  | JString s => json_loads s
  | _ => Raise TypeError
  end.

(** Test data is written with an apostrophe for the double quote. *)
Definition quoted (s : string) : string :=
  replace_char "'" (String DQUOTE "") s.

(** ** [int] *)

Fixpoint lstrip (s : string) : string :=
  match s with
  | String c s' => if is_space c then lstrip s' else s
  | "" => ""
  end.

(** [rstrip] restricted to the white space [int] accepts. *)
Fixpoint rstrip_space (s : string) : string :=
  match s with
  | "" => ""
  | String c s' =>
      match rstrip_space s' with
      | "" => if is_space c then "" else String c ""
      | r => String c r
      end
  end.

Fixpoint is_ascii_text (s : string) : bool :=
  match s with
  | "" => true
  | String c s' => (ord c <? 128) && is_ascii_text s'
  end.

(** Digits with single underscores between them: the value and the number
    of digits.  [prev] tells whether the previous character was a digit. *)
Fixpoint int_digits (s : string) (prev : bool) (acc : Z) (count : nat)
    : option (Z * nat) :=
  match s with
  | "" => if prev then Some (acc, count) else None
  | String c s' =>
      if is_digit c then int_digits s' true (acc * 10 + digit_val c) (S count)
      else if (ord c =? 95) && prev then int_digits s' false acc count
      else None
  end.

(** [int(s)] for a text [s], base 10. *)
Definition int_of_str (env : Env) (s : string) : result Z :=
  if negb (is_ascii_text s) then int_of_unicode env s
  else
    let s := rstrip_space (lstrip s) in
    let '(negative, body) :=
      match s with
      | String c s' =>
          if ord c =? 45 then (true, s')
          else if ord c =? 43 then (false, s')
          else (false, s)
      | "" => (false, "")
      end in
    match int_digits body false 0 0 with
    | None => Raise ValueError
    | Some (v, count) =>
        if (int_max_str_digits <? count)%nat then Raise ValueError
        else Ok (if negative then - v else v)
    end.

(** [int(x)] for any value [x]. *)
Definition py_int (env : Env) (x : json) : result Z :=
  match x with
  | JString s => int_of_str env s
  | JInt n => Ok n
  | JBool b => Ok (b2z b)
  | JFloat literal => int_of_float env literal
  | JNull | JArray _ | JObject _ => Raise TypeError
  end.

(** ** [Event.model_validate] *)

Definition two_digits (a b : ascii) : option Z :=
  if is_digit a && is_digit b then Some (digit_val a * 10 + digit_val b)
  else None.

(** A text of the exact form YYYY-MM-DD naming a day that exists. *)
Definition parse_iso_date (s : string) : option Date :=
  match s with
  | String y1 (String y2 (String y3 (String y4 (String h1
      (String m1 (String m2 (String h2 (String d1 (String d2 ""))))))))) =>
      match two_digits y1 y2, two_digits y3 y4, two_digits m1 m2,
            two_digits d1 d2 with
      | Some yh, Some yl, Some m, Some d =>
          let y := yh * 100 + yl in
          if (ord h1 =? 45) && (ord h2 =? 45) && (1 <=? y)
             && (1 <=? m) && (m <=? 12) && (1 <=? d)
             && (d <=? mdays m + b2z ((m =? 2) && isleap y))
          then Some (mkDate y m d) else None
      | _, _, _, _ => None
      end
  | _ => None
  end.

(** A text of the exact form HH:MM:SS naming a time of day. *)
Definition parse_iso_time (s : string) : option Time :=
  match s with
  | String h1 (String h2 (String c1 (String m1 (String m2 (String c2
      (String s1 (String s2 ""))))))) =>
      match two_digits h1 h2, two_digits m1 m2, two_digits s1 s2 with
      | Some h, Some m, Some sec =>
          if (ord c1 =? 58) && (ord c2 =? 58) && (h <? 24) && (m <? 60)
             && (sec <? 60)
          then Some (mkTime h m sec) else None
      | _, _, _ => None
      end
  | _ => None
  end.

Definition validate_date (env : Env) (v : json) : result Date :=
  match v with
  | JString s =>
      match parse_iso_date s with
      | Some d => Ok d
      | None => lax_date env v
      end
  | JInt _ | JFloat _ => lax_date env v
  | JNull | JBool _ | JArray _ | JObject _ => Raise ValidationError
  end.

Definition validate_time (env : Env) (v : json) : result Time :=
  match v with
  | JString s =>
      match parse_iso_time s with
      | Some t => Ok t
      | None => lax_time env v
      end
  | JInt _ | JFloat _ => lax_time env v
  | JNull | JBool _ | JArray _ | JObject _ => Raise ValidationError
  end.

Definition validate_str (v : json) : result string :=
  match v with
  | JString s => Ok s
  | _ => Raise ValidationError
  end.

(** A required field. *)
Definition required {A} (validate : json -> result A) (field : string)
    (members : list (string * json)) : result A :=
  match dict_get field members with
  | Some v => match validate v with
              | Ok a => Ok a
              | Raise _ => Raise ValidationError
              end
  | None => Raise ValidationError
  end.

(** [Event.model_validate(obj)]: the input has to be a dict; keys that are no
    field are ignored; [description] may be missing or [None]. *)
Definition model_validate (env : Env) (obj : json) : result Event :=
  match obj with
  | JObject members =>
      match required (validate_date env) "date" members,
            required validate_str "title" members,
            match dict_get "description" members with
            | None | Some JNull => Ok None
            | Some (JString s) => Ok (Some s)
            | Some _ => Raise ValidationError
            end,
            required (validate_time env) "start_time" members,
            required (validate_time env) "end_time" members with
      | Ok d, Ok t, Ok descr, Ok st, Ok en => Ok (mkEvent d t descr st en)
      | _, _, _, _, _ => Raise ValidationError
      end
  | _ => Raise ValidationError
  end.

(** [for x in v]: the items of a list, the keys of a dict, the characters of
    a text; nothing else can be iterated. *)
Definition py_iter (v : json) : result (list json) :=
  match v with
  | JArray items => Ok items
  | JObject members => Ok (map (fun kv => JString (fst kv)) members)
  | JString s =>
      Ok (map (fun c => JString (String c "")) (String.list_ascii_of_string s))
  | JNull | JBool _ | JInt _ | JFloat _ => Raise TypeError
  end.

(** ** Table Extractor *)

(** The first tag called [name] in document order, among [e] and all that
    is below it. *)
Fixpoint find_in (name : string) (e : PageElement) : option PageElement :=
  match e with
  | Tag n _ contents =>
      if String.eqb n name then Some e
      else
        (fix first (es : list PageElement) : option PageElement :=
           match es with
           | [] => None
           | e' :: es' =>
               match find_in name e' with
               | Some r => Some r
               | None => first es'
               end
           end) contents
  | NavigableString _ | Comment _ => None
  end.

(** [tag.find(name)]: the first tag called [name] below [tag]. *)
Fixpoint find (name : string) (contents : list PageElement)
    : option PageElement :=
  match contents with
  | [] => None
  | e :: es =>
      match find_in name e with
      | Some r => Some r
      | None => find name es
      end
  end.

(** [str(x)] for the result of a [find]: [str(None)] is the text ["None"]. *)
Definition py_str (env : Env) (x : option PageElement) : string :=
  match x with
  | Some e => decode env e
  | None => "None"
  end.

Definition find_html_events_table (html : string) : M string :=
  env <- ask ;;
  let soup := html_parser env html in
  match find "main" soup with
  | Some (Tag _ _ contents) => ret (py_str env (find "table" contents))
  | _ => raise AttributeError
  end.

(** ** Fetcher and Completion Client *)

(** [httpx.get(url, headers=headers)] *)
Definition httpx_get (url : string) (headers : Headers) : M Response :=
  env <- ask ;;
  tick <- clock_tick ;;
  emit (HttpGet url headers) ;;;
  match web_server env tick url headers with
  | Replied r => ret r
  | NetFailure => raise TransportError
  end.

(** [httpx.post(url=url, headers=headers, json=body)] *)
Definition httpx_post (url : string) (headers : Headers) (body : json)
    : M Response :=
  env <- ask ;;
  tick <- clock_tick ;;
  emit (HttpPost url headers body) ;;;
  match completion_service env tick url headers body with
  | Replied r => ret r
  | NetFailure => raise TransportError
  end.

(** [response.raise_for_status()] with the [except] clause that follows it in
    both callers: a status outside 2xx becomes the repository's
    [HTTPStatusError]. *)
Definition raise_for_status (response : Response) : M unit :=
  if (200 <=? status_code response) && (status_code response <=? 299)
  then ret tt
  else raise (HTTPStatusError (status_code response) (text response)).

Definition get_page_html (url : string) (user_agent : option string)
    : M string :=
  let headers :=
    match user_agent with
    | Some (String _ _ as ua) => [("User-Agent", ua)]
    | Some "" | None => []
    end in
  response <- httpx_get url headers ;;
  raise_for_status response ;;;
  ret (text response).

(** [response.json()]: the body is decoded as UTF-8, a byte order mark is
    skipped. *)
Definition response_json (response : Response) : result json :=
  match strip_prefix BOM (text response) with
  | Some rest => json_loads rest
  | None => json_loads (text response)
  end.

(** [x[key]] for a text key. *)
Definition getitem (x : json) (key : string) : result json :=
  match x with
  | JObject members =>
      match dict_get key members with
      | Some v => Ok v
      | None => Raise KeyError
      end
  | _ => Raise TypeError
  end.

(** [x[0]] *)
Definition getitem0 (x : json) : result json :=
  match x with
  | JArray (v :: _) => Ok v
  | JArray [] => Raise IndexError
  | JObject _ => Raise KeyError
  | JString (String c _) => Ok (JString (String c ""))
  | JString "" => Raise IndexError
  | JNull | JBool _ | JInt _ | JFloat _ => Raise TypeError
  end.

Definition OPENROUTER_URL : string :=
  "https://openrouter.ai/api/v1/chat/completions".

(** The value returned is whatever the reply holds at
    [choices[0].message.content]; the service is expected to put a text
    there. *)
Definition get_openrouter_response (prompt model api_key : string) : M json :=
  let headers :=
    [ ("Authorization", "Bearer " +:+ api_key);
      ("Content-Type", "application/json") ] in
  let body :=
    JObject
      [ ("model", JString model);
        ("messages",
         JArray [ JObject [ ("role", JString "user");
                            ("content", JString prompt) ] ]) ] in
  response <- httpx_post OPENROUTER_URL headers body ;;
  raise_for_status response ;;;
  parsed <- lift (response_json response) ;;
  choices <- lift (getitem parsed "choices") ;;
  choice <- lift (getitem0 choices) ;;
  message <- lift (getitem choice "message") ;;
  lift (getitem message "content").

(** ** Month Resolver *)

Definition unlines (ls : list string) : string := join NL ls.

(** [prompt.format(events_table_html=html)] *)
Definition month_prompt (html : string) : string :=
  unlines
    [ "    Can you tell me which month the events in this HTML calendar are for? I want you to";
      "    reply with the number of a month in the year, from 1-12, where 1 is January, 2 is";
      "    February, and so on.";
      "";
      "    Reply only with a number, no commentary or anything else.";
      "";
      "    Here is the HTML to parse:";
      "";
      "    ```html";
      "    " +:+ html;
      "    ```";
      "    " ].

Definition get_events_month (html openrouter_api_key model : string) : M Z :=
  env <- ask ;;
  let formatted_prompt := month_prompt html in
  ai_response <- get_openrouter_response formatted_prompt model openrouter_api_key ;;
  lift (py_int env ai_response).

(** ** Event Extractor *)

(** [prompt.format(month_cal=month_cal, events_table_html=html)] *)
Definition events_prompt (month_cal html : string) : string :=
  unlines
    [ "    Can you please format the following HTML into a JSON array? DO NOT include any";
      "    commentary, only the JSON response.";
      "";
      "    The returned object should be as follows:";
      "";
      "    Use the following schemas:";
      "";
      "    - date: ISO date";
      "    - title (from Event field in table): string";
      "    - description (from Event field in table): string OR null";
      "    - start_time (half of Time field in table): ISO time";
      "    - end_time (half of Time field in table): ISO time";
      "";
      "    If the event is on weekly throughout the month (e.g. "
        +:+ String DQUOTE "every Thursday" +:+ String DQUOTE "), please create a";
      "    JSON object for every applicable date. Here's a calendar for the month for you to";
      "    reference:";
      "";
      "    " +:+ month_cal;
      "";
      "    Here is the HTML to format:";
      "";
      "    ```html";
      "    " +:+ html;
      "    ```";
      "    " ].

Definition create_events_from_html (html : string) (month : Z)
    (openrouter_api_key model : string) : M (list Event) :=
  env <- ask ;;
  month_cal <- lift (formatmonth 2025 month) ;;
  let formatted_prompt := events_prompt month_cal html in
  ai_response <- get_openrouter_response formatted_prompt model openrouter_api_key ;;
  parsed_ai_response <- lift (json_loads_value ai_response) ;;
  event_details <- lift (py_iter parsed_ai_response) ;;
  lift (map_result (model_validate env) event_details).

(** ** Change Detector and the file system *)

(** [path / other] *)
Definition joinpath (p other : Path) : Path :=
  match other with
  | "/" :: _ => other
  | _ => p ++ other
  end.

Definition parent (p : Path) : Path := removelast p.

(** [str(path)] *)
Definition path_str (p : Path) : string :=
  match p with
  | [] => "."
  | "/" :: rest => "/" +:+ join "/" rest
  | _ => join "/" p
  end.

(** The working directory (no part) and the root. *)
Definition is_anchor (p : Path) : bool :=
  match p with
  | [] => true
  | [a] => String.eqb a "/"
  | _ => false
  end.

(** What is at [p]: the working directory and the root always exist. *)
Definition stat (w : World) (p : Path) : option fs_node :=
  if is_anchor p then Some Dir else fs w !! p.

Definition set_fs (f : gmap (list string) fs_node) : M unit :=
  fun _ w => (Ok tt, mkWorld f (trace w) (draws w)).

Definition get_world : M World := fun _ w => (Ok w, w).

(** [path.exists()] *)
Definition path_exists (p : Path) : M bool :=
  w <- get_world ;;
  ret (match stat w p with Some _ => true | None => false end).

(** Reading in text mode with [newline=None]: every CR LF and every lone CR
    comes back as LF. *)
Fixpoint universal_newlines (s : string) : string :=
  match s with
  | "" => ""
  | String c s' =>
      if is_char c CR then
        match s' with
        | String d s'' =>
            if is_char d LF then String LF (universal_newlines s'')
            else String LF (universal_newlines s')
        | "" => String LF ""
        end
      else String c (universal_newlines s')
  end.

(** [path.read_text(encoding="utf-8")] *)
Definition read_text (p : Path) : M string :=
  w <- get_world ;;
  emit (ReadText p) ;;;
  match stat w p with
  | Some (File content) => ret (universal_newlines content)
  | Some Dir => raise IsADirectoryError
  | None => raise FileNotFoundError
  end.

(** A surrogate code point in a text: in the UTF-8 form of the model, the
    byte ED followed by a byte from A0 on.  [str.encode("utf-8")] refuses
    such a text. *)
Fixpoint has_surrogate (s : string) : bool :=
  match s with
  | "" => false
  | String c s' =>
      ((ord c =? 0xED)
       && match s' with
          | String d _ => 0xA0 <=? ord d
          | "" => false
          end)
      || has_surrogate s'
  end.

(** [path.write_text(data, encoding="utf-8")] on a POSIX system, where
    writing in text mode leaves every character as it is.  The file is
    opened with mode w, which empties it, before the data is encoded and
    written: a failure of the opening leaves the file as it was, a failure
    after it ([UnicodeEncodeError] for a text that cannot be encoded, an error
    of the operating system while the bytes are written) leaves it empty or
    with the bytes written so far. *)
Definition write_text (p : Path) (data : string) : M unit :=
  env <- ask ;;
  w <- get_world ;;
  emit (WriteText p data) ;;;
  match stat w p, stat w (parent p) with
  | Some Dir, _ => raise IsADirectoryError
  | _, None => raise FileNotFoundError
  | _, Some (File _) => raise NotADirectoryError
  | _, Some Dir =>
      match open_error env (length (trace w)) p with
      | Some e => raise e
      | None =>
          if has_surrogate data then
            set_fs (<[p := File ""]> (fs w)) ;;; raise UnicodeEncodeError
          else
            match write_error env (length (trace w)) p data with
            | Some (e, written) =>
                set_fs (<[p := File (String.substring 0 written data)]> (fs w)) ;;;
                raise e
            | None => set_fs (<[p := File data]> (fs w))
            end
      end
  end.

(** [os.mkdir(p)].  What is at the path and at its parent decides first;
    where a directory could be made, the operating system may still refuse
    ([PermissionError], say), and then nothing is made. *)
Definition os_mkdir (p : Path) : M unit :=
  env <- ask ;;
  w <- get_world ;;
  match stat w p, stat w (parent p) with
  | Some _, _ => raise FileExistsError
  | None, None => raise FileNotFoundError
  | None, Some (File _) => raise NotADirectoryError
  | None, Some Dir =>
      match mkdir_error env (length (trace w)) p with
      | Some e => raise e
      | None => set_fs (<[p := Dir]> (fs w))
      end
  end.

Definition is_dir (p : Path) : M bool :=
  w <- get_world ;;
  ret (match stat w p with Some Dir => true | _ => false end).

(** [try: m except: handler(e)] *)
Definition try_except {A} (m : M A) (handler : exn -> M A) : M A :=
  fun env w =>
    match m env w with
    | (Ok a, w') => (Ok a, w')
    | (Raise e, w') => handler e env w'
    end.

(** [path.mkdir(parents=True, exist_ok=True)]; [fuel] bounds the climb to the
    parents and is the number of parts of the path. *)
Fixpoint mkdir_parents (fuel : nat) (p : Path) : M unit :=
  try_except (os_mkdir p)
    (fun e =>
       match e with
       | FileNotFoundError =>
           match fuel with
           | O => raise e
           | S fuel' =>
               mkdir_parents fuel' (parent p) ;;;
               try_except (os_mkdir p)
                 (fun e' => d <- is_dir p ;; if d then ret tt else raise e')
           end
       | _ => d <- is_dir p ;; if (d : bool) then ret tt else raise e
       end).

Definition mkdir (p : Path) : M unit :=
  emit (MkDir p) ;;; mkdir_parents (length p) p.

Definition file_content_matches_existing (file_path : Path) (content : string)
    : M bool :=
  present <- path_exists file_path ;;
  if negb present then ret false
  else
    existing_content <- read_text file_path ;;
    ret (String.eqb existing_content content).

(** ** Orchestrator *)

Definition logger_info (message : string) : M unit := emit (LogInfo message).

Definition EVENTS_PAGE : string := "https://markets.leeds.gov.uk/whats-kirkgate".

Definition main (settings : Settings) : M unit :=
  mkdir (artifacts_dir settings) ;;;
  html <- get_page_html EVENTS_PAGE None ;;
  events_table_html <- find_html_events_table html ;;
  let events_html_file_path :=
    joinpath (artifacts_dir settings) (html_file_name settings) in
  unchanged <- file_content_matches_existing events_html_file_path events_table_html ;;
  if (unchanged : bool) then
    logger_info "No changes detected in events HTML. Exiting."
  else
    write_text events_html_file_path events_table_html ;;;
    let openrouter_api_key := openrouter_api_key settings in
    let model := openrouter_model settings in
    month_number <- get_events_month events_table_html openrouter_api_key model ;;
    events <- create_events_from_html events_table_html month_number
                openrouter_api_key model ;;
    ics_content <- create_ics_from_events events ;;
    let ics_file_path :=
      joinpath (artifacts_dir settings) (ics_file_name settings) in
    write_text ics_file_path ics_content ;;;
    logger_info ("ICS file written to path: " +:+ path_str ics_file_path).

(** ** Vocabulary of the statements *)

(** The identifier the k-th draw of a run yields. *)
Definition uid_of (env : Env) (k : nat) : string :=
  uuid_str (uuid4_int (urandom16 env k)).

(** The VEVENT blocks of a list of events, in order, the first one with the
    identifier of draw [k]. *)
Fixpoint event_blocks (env : Env) (creation_timestamp : string) (k : nat)
    (events : list Event) : list string :=
  match events with
  | [] => []
  | event :: rest =>
      event_entry (strftime_pads_year env) (uid_of env k) creation_timestamp event
      ++ event_blocks env creation_timestamp (S k) rest
  end.

(** The local wall-clock time of a run, stamped the way the serializer does. *)
Definition local_stamp (env : Env) (now : DateTime) : string :=
  strftime_basic_Z (strftime_pads_year env) now.

(** The actions a run added to the trace of the world it started in. *)
Definition new_actions (w w' : World) : list io_event :=
  drop (length (trace w)) (trace w').

Definition is_write (e : io_event) : bool :=
  match e with WriteText _ _ => true | _ => false end.

Definition is_completion_call (e : io_event) : bool :=
  match e with HttpPost _ _ _ => true | _ => false end.

Definition is_page_fetch (e : io_event) : bool :=
  match e with HttpGet _ _ => true | _ => false end.

Definition no_crlf (l : string) : Prop := has_crlf l = false.

(** The world after [n] more random draws. *)
Definition add_draws (w : World) (n : nat) : World :=
  mkWorld (fs w) (trace w) (draws w + n).

(** The first half of [main]: make the artifacts directory, fetch the page,
    cut the table out and compare it with the snapshot.  [None] when the
    snapshot is unchanged (the run logs this and ends), otherwise the new
    table, once it is stored as the new snapshot. *)
Definition change_detection (settings : Settings) : M (option string) :=
  mkdir (artifacts_dir settings) ;;;
  html <- get_page_html EVENTS_PAGE None ;;
  events_table_html <- find_html_events_table html ;;
  let events_html_file_path :=
    joinpath (artifacts_dir settings) (html_file_name settings) in
  unchanged <- file_content_matches_existing events_html_file_path events_table_html ;;
  if (unchanged : bool) then
    logger_info "No changes detected in events HTML. Exiting." ;;; ret None
  else
    write_text events_html_file_path events_table_html ;;;
    ret (Some events_table_html).

(** The second half of [main]: from the new table to the calendar file. *)
Definition regenerate (settings : Settings) (events_table_html : string)
    : M unit :=
  let openrouter_api_key := openrouter_api_key settings in
  let model := openrouter_model settings in
  month_number <- get_events_month events_table_html openrouter_api_key model ;;
  events <- create_events_from_html events_table_html month_number
              openrouter_api_key model ;;
  ics_content <- create_ics_from_events events ;;
  let ics_file_path :=
    joinpath (artifacts_dir settings) (ics_file_name settings) in
  write_text ics_file_path ics_content ;;;
  logger_info ("ICS file written to path: " +:+ path_str ics_file_path).

(** The request a prompt is sent in. *)
Definition completion_request (prompt model api_key : string) : io_event :=
  HttpPost OPENROUTER_URL
    [ ("Authorization", "Bearer " +:+ api_key);
      ("Content-Type", "application/json") ]
    (JObject
       [ ("model", JString model);
         ("messages",
          JArray [ JObject [ ("role", JString "user");
                             ("content", JString prompt) ] ]) ]).

Fixpoint all_digits (s : string) : bool :=
  match s with
  | "" => true
  | String c s' => is_digit c && all_digits s'
  end.

(** ** Sample inputs *)

(** Three pages, with the trees BeautifulSoup builds for them. *)
Definition page_plain : string :=
  "<main><table><tr><td>Market Day 4 March 8am-4pm</td></tr></table></main>".

Definition tree_plain : list PageElement :=
  [ Tag "main" []
      [ Tag "table" []
          [ Tag "tr" [] [ Tag "td" [] [ NavigableString "Market Day 4 March 8am-4pm" ] ] ] ] ].

(** A page served with CR LF line ends, one of them inside a cell of the
    table. *)
Definition page_crlf : string :=
  "<main><table><tr><td>Market Day" +:+ CRLF
  +:+ "4 March 8am-4pm</td></tr></table></main>".

Definition tree_crlf : list PageElement :=
  [ Tag "main" []
      [ Tag "table" []
          [ Tag "tr" []
              [ Tag "td" []
                  [ NavigableString ("Market Day" +:+ CRLF +:+ "4 March 8am-4pm") ] ] ] ] ].

(** A page whose [<main>] holds no table. *)
Definition page_no_table : string := "<main><p>No events this month</p></main>".

Definition tree_no_table : list PageElement :=
  [ Tag "main" [] [ Tag "p" [] [ NavigableString "No events this month" ] ] ].

Definition sample_parser (html : string) : list PageElement :=
  if String.eqb html page_plain then tree_plain
  else if String.eqb html page_crlf then tree_crlf
  else if String.eqb html page_no_table then tree_no_table
  else [ NavigableString html ].

(** The markup of a tree without attributes and without characters that need
    an entity. *)
Fixpoint sample_decode (e : PageElement) : string :=
  match e with
  | Tag n _ contents =>
      "<" +:+ n +:+ ">"
      +:+ (fix all (es : list PageElement) : string :=
             match es with
             | [] => ""
             | e' :: es' => sample_decode e' +:+ all es'
             end) contents
      +:+ "</" +:+ n +:+ ">"
  | NavigableString s => s
  | Comment s => "<!--" +:+ s +:+ "-->"
  end.

(** The reply of the completion service that carries [content] (already
    written as the inside of a JSON string). *)
Definition completion_reply (content : string) : net_reply :=
  Replied (mkResponse 200
    (quoted "{'id':'gen-1','choices':[{'index':0,'message':{'role':'assistant','content':'"
     +:+ content +:+ quoted "'}}]}")).

Definition request_prompt (body : json) : string :=
  match body with
  | JObject [ _; (_, JArray [ JObject [ _; (_, JString prompt) ] ]) ] => prompt
  | _ => ""
  end.

(** A machine on British Summer Time at 2025-07-01T12:00:00Z, a web server
    that serves [page], a completion service that answers the question for
    the month with [month_reply] and any other prompt with [events_reply],
    and an operating system that refuses nothing. *)
Definition sample_env (page month_reply events_reply : string) : Env :=
  {| web_server := fun _ _ _ => Replied (mkResponse 200 page);
     completion_service := fun _ _ _ body =>
       match strip_prefix "    Can you tell me which month" (request_prompt body) with
       | Some _ => completion_reply month_reply
       | None => completion_reply events_reply
       end;
     posix_time := 1751371200;
     utc_offset := 3600;
     urandom16 := fun k => (0x0123456789abcdef0123456789abcdef + N.of_nat k)%N;
     strftime_pads_year := true;
     html_parser := sample_parser;
     decode := sample_decode;
     int_of_unicode := fun _ => Raise ValueError;
     int_of_float := fun _ => Raise ValueError;
     lax_date := fun _ => Raise ValidationError;
     lax_time := fun _ => Raise ValidationError;
     mkdir_error := fun _ _ => None;
     open_error := fun _ _ => None;
     write_error := fun _ _ _ => None |}.

(** The reply of the spec's example, as the inside of a JSON string. *)
Definition market_day_reply : string :=
  quoted "[{\'date\':\'2025-03-04\',\'title\':\'Market Day\',\'description\':null,\'start_time\':\'08:00:00\',\'end_time\':\'16:00:00\'}]".

(** The same reply as the text the completion client hands over. *)
Definition market_day_json : string :=
  quoted "[{'date':'2025-03-04','title':'Market Day','description':null,'start_time':'08:00:00','end_time':'16:00:00'}]".

Definition market_day : Event :=
  {| date := mkDate 2025 3 4;
     title := "Market Day";
     description := None;
     start_time := mkTime 8 0 0;
     end_time := mkTime 16 0 0 |}.

(** An event whose title carries line breaks and calendar lines. *)
Definition injected_event : Event :=
  {| date := mkDate 2025 3 4;
     title := "Stall" +:+ CRLF +:+ "END:VEVENT" +:+ CRLF +:+ "BEGIN:VEVENT"
              +:+ CRLF +:+ "SUMMARY:Ghost";
     description := None;
     start_time := mkTime 8 0 0;
     end_time := mkTime 16 0 0 |}.

Definition empty_world : World := mkWorld ∅ [] 0.

Definition sample_settings : Settings :=
  {| events_page_url := "https://example.org/whats-on";
     openrouter_api_key := "sk-or-sample";
     openrouter_model := "deepseek/deepseek-chat-v3.1:free";
     artifacts_dir := [ "artifacts" ];
     ics_file_name := [ "events.ics" ];
     html_file_name := [ "events.html" ];
     scraper_user_agent := "KirkgateCalendarBot/1.0";
     log_level := "DEBUG" |}.

Definition plain_env : Env := sample_env page_plain "3" market_day_reply.


(** The world once one more action is recorded. *)
Definition log_action (w : World) (e : io_event) : World :=
  mkWorld (fs w) (trace w ++ [e]) (draws w).

(** What the completion client makes of the answer to its request. *)
Definition reply_content (reply : net_reply) : result json :=
  match reply with
  | NetFailure => Raise TransportError
  | Replied response =>
      if (200 <=? status_code response) && (status_code response <=? 299) then
        match response_json response with
        | Raise e => Raise e
        | Ok parsed =>
            match getitem parsed "choices" with
            | Raise e => Raise e
            | Ok choices =>
                match getitem0 choices with
                | Raise e => Raise e
                | Ok choice =>
                    match getitem choice "message" with
                    | Raise e => Raise e
                    | Ok message => getitem message "content"
                    end
                end
            end
        end
      else Raise (HTTPStatusError (status_code response) (text response))
  end.

(** The answer of the completion service to a prompt sent from world [w]. *)
Definition service_answer (env : Env) (w : World) (prompt model api_key : string)
    : net_reply :=
  completion_service env (length (trace w)) OPENROUTER_URL
    [ ("Authorization", "Bearer " +:+ api_key);
      ("Content-Type", "application/json") ]
    (JObject
       [ ("model", JString model);
         ("messages",
          JArray [ JObject [ ("role", JString "user");
                             ("content", JString prompt) ] ]) ]).

(** What the event extractor makes of the reply handed over by the completion
    client: decode the JSON text, walk through it, validate every element. *)
Definition events_of_reply (env : Env) (ai_response : json)
    : result (list Event) :=
  match json_loads_value ai_response with
  | Raise e => Raise e
  | Ok parsed_ai_response =>
      match py_iter parsed_ai_response with
      | Raise e => Raise e
      | Ok event_details => map_result (model_validate env) event_details
      end
  end.

(** The event-extraction prompt up to the calendar, and from the calendar
    on. *)
Definition events_prompt_head : string :=
  unlines
    [ "    Can you please format the following HTML into a JSON array? DO NOT include any";
      "    commentary, only the JSON response.";
      "";
      "    The returned object should be as follows:";
      "";
      "    Use the following schemas:";
      "";
      "    - date: ISO date";
      "    - title (from Event field in table): string";
      "    - description (from Event field in table): string OR null";
      "    - start_time (half of Time field in table): ISO time";
      "    - end_time (half of Time field in table): ISO time";
      "";
      "    If the event is on weekly throughout the month (e.g. "
        +:+ String DQUOTE "every Thursday" +:+ String DQUOTE "), please create a";
      "    JSON object for every applicable date. Here's a calendar for the month for you to";
      "    reference:";
      "";
      "    " ].

Definition events_prompt_tail (html : string) : string :=
  NL +:+
  unlines
    [ "";
      "    Here is the HTML to format:";
      "";
      "    ```html";
      "    " +:+ html;
      "    ```";
      "    " ].

(** The text calendars of 2025 as CPython prints them
    ([calendar.TextCalendar().formatmonth(2025, m)] for m = 1 .. 12), January
    first. *)
Definition calendars_2025 : list string :=
  [ "    January 2025
Mo Tu We Th Fr Sa Su
       1  2  3  4  5
 6  7  8  9 10 11 12
13 14 15 16 17 18 19
20 21 22 23 24 25 26
27 28 29 30 31
";
    "   February 2025
Mo Tu We Th Fr Sa Su
                1  2
 3  4  5  6  7  8  9
10 11 12 13 14 15 16
17 18 19 20 21 22 23
24 25 26 27 28
";
    "     March 2025
Mo Tu We Th Fr Sa Su
                1  2
 3  4  5  6  7  8  9
10 11 12 13 14 15 16
17 18 19 20 21 22 23
24 25 26 27 28 29 30
31
";
    "     April 2025
Mo Tu We Th Fr Sa Su
    1  2  3  4  5  6
 7  8  9 10 11 12 13
14 15 16 17 18 19 20
21 22 23 24 25 26 27
28 29 30
";
    "      May 2025
Mo Tu We Th Fr Sa Su
          1  2  3  4
 5  6  7  8  9 10 11
12 13 14 15 16 17 18
19 20 21 22 23 24 25
26 27 28 29 30 31
";
    "     June 2025
Mo Tu We Th Fr Sa Su
                   1
 2  3  4  5  6  7  8
 9 10 11 12 13 14 15
16 17 18 19 20 21 22
23 24 25 26 27 28 29
30
";
    "     July 2025
Mo Tu We Th Fr Sa Su
    1  2  3  4  5  6
 7  8  9 10 11 12 13
14 15 16 17 18 19 20
21 22 23 24 25 26 27
28 29 30 31
";
    "    August 2025
Mo Tu We Th Fr Sa Su
             1  2  3
 4  5  6  7  8  9 10
11 12 13 14 15 16 17
18 19 20 21 22 23 24
25 26 27 28 29 30 31
";
    "   September 2025
Mo Tu We Th Fr Sa Su
 1  2  3  4  5  6  7
 8  9 10 11 12 13 14
15 16 17 18 19 20 21
22 23 24 25 26 27 28
29 30
";
    "    October 2025
Mo Tu We Th Fr Sa Su
       1  2  3  4  5
 6  7  8  9 10 11 12
13 14 15 16 17 18 19
20 21 22 23 24 25 26
27 28 29 30 31
";
    "   November 2025
Mo Tu We Th Fr Sa Su
                1  2
 3  4  5  6  7  8  9
10 11 12 13 14 15 16
17 18 19 20 21 22 23
24 25 26 27 28 29 30
";
    "   December 2025
Mo Tu We Th Fr Sa Su
 1  2  3  4  5  6  7
 8  9 10 11 12 13 14
15 16 17 18 19 20 21
22 23 24 25 26 27 28
29 30 31
" ].

Definition march_2025 : string := nth 2 calendars_2025 "".

(** The snapshot and calendar paths of [sample_settings]. *)
Definition snapshot_path : Path := [ "artifacts"; "events.html" ].
Definition calendar_path : Path := [ "artifacts"; "events.ics" ].

(** The table of [page_crlf] as BeautifulSoup writes it out. *)
Definition table_crlf : string :=
  "<table><tr><td>Market Day" +:+ CRLF +:+ "4 March 8am-4pm</td></tr></table>".

(** The world a first run leaves behind: the artifacts directory with the
    snapshot [snapshot] and a calendar. *)
Definition world_after_a_run (snapshot : string) : World :=
  {| fs := <[ calendar_path := File "BEGIN:VCALENDAR" ]>
             (<[ snapshot_path := File snapshot ]>
                (<[ [ "artifacts" ] := Dir ]> ∅));
     trace := [];
     draws := 0 |}.

Definition crlf_env : Env := sample_env page_crlf "3" market_day_reply.

(** The regular file at a path, if there is one. *)
Definition file_at (w : World) (p : Path) : option string :=
  match fs w !! p with
  | Some (File content) => Some content
  | _ => None
  end.

(** A computation relates the world it starts in to the world it ends in by
    [R], whatever it returns or raises. *)
Definition preserves (R : World -> World -> Prop) {A} (m : M A) : Prop :=
  forall env w r w', m env w = (r, w') -> R w w'.

(** The actions [main] can perform under given settings. *)
Definition orchestrator_action (settings : Settings) (e : io_event) : Prop :=
  match e with
  | MkDir p => p = artifacts_dir settings
  | HttpGet url headers => url = EVENTS_PAGE /\ headers = []
  | ReadText p => p = joinpath (artifacts_dir settings) (html_file_name settings)
  | WriteText p _ =>
      p = joinpath (artifacts_dir settings) (html_file_name settings)
      \/ p = joinpath (artifacts_dir settings) (ics_file_name settings)
  | HttpPost url _ _ => url = OPENROUTER_URL
  | LogInfo _ => True
  end.

(** [w'] is [w] after more actions, all of them satisfying [P]. *)
Definition extends_by (P : io_event -> Prop) (w w' : World) : Prop :=
  exists l, trace w' = trace w ++ l /\ Forall P l.

(** All regular files are the same in [w] and [w'], except at the paths
    [E]. *)
Definition same_files_but (E : Path -> Prop) (w w' : World) : Prop :=
  forall q, ~ E q -> file_at w' q = file_at w q.

(** More actions, none of them a write or a call of the completion service,
    and all regular files as they were. *)
Definition quiet (w w' : World) : Prop :=
  extends_by (fun e => is_write e = false /\ is_completion_call e = false) w w'
  /\ same_files_but (fun _ => False) w w'.

(** ** Vocabulary of the further properties *)

(** [tag.self_and_descendants]: a page element and all that is below it, in
    document order. *)
Fixpoint self_and_descendants (e : PageElement) : list PageElement :=
  e :: match e with
       | Tag _ _ contents =>
           (fix all (es : list PageElement) : list PageElement :=
              match es with
              | [] => []
              | e' :: es' => self_and_descendants e' ++ all es'
              end) contents
       | NavigableString _ | Comment _ => []
       end.

(** [tag.descendants], for a tag with the given contents. *)
Fixpoint descendants (contents : list PageElement) : list PageElement :=
  match contents with
  | [] => []
  | e :: es => self_and_descendants e ++ descendants es
  end.

Definition is_tag_named (name : string) (e : PageElement) : bool :=
  match e with
  | Tag n _ _ => String.eqb n name
  | NavigableString _ | Comment _ => false
  end.

(** The machine of [sample_env], with a web server that gives [page_reply] to
    every request and a completion service that gives [reply] to every
    request. *)
Definition env_answering (page_reply reply : net_reply) : Env :=
  {| web_server := fun _ _ _ => page_reply;
     completion_service := fun _ _ _ _ => reply;
     posix_time := 1751371200;
     utc_offset := 3600;
     urandom16 := fun k => (0x0123456789abcdef0123456789abcdef + N.of_nat k)%N;
     strftime_pads_year := true;
     html_parser := sample_parser;
     decode := sample_decode;
     int_of_unicode := fun _ => Raise ValueError;
     int_of_float := fun _ => Raise ValueError;
     lax_date := fun _ => Raise ValidationError;
     lax_time := fun _ => Raise ValidationError;
     mkdir_error := fun _ _ => None;
     open_error := fun _ _ => None;
     write_error := fun _ _ _ => None |}.

(** The names of the fields of [Event]. *)
Definition event_fields : list string :=
  [ "date"; "title"; "description"; "start_time"; "end_time" ].

(** The element of the spec's example, decoded. *)
Definition market_day_item : json :=
  JObject [ ("date", JString "2025-03-04");
            ("title", JString "Market Day");
            ("description", JNull);
            ("start_time", JString "08:00:00");
            ("end_time", JString "16:00:00") ].

(** The description field: missing or null is no description, a text is a
    description, anything else is refused. *)
Definition validate_description (members : list (string * json))
    : result (option string) :=
  match dict_get "description" members with
  | None | Some JNull => Ok None
  | Some (JString s) => Ok (Some s)
  | Some _ => Raise ValidationError
  end.

(** [s.replace(c, "")] *)
Definition without_char (c : ascii) (s : string) : string := replace_char c "" s.

(** Every entry of [w] is in [w'] as it was, and what [w'] has more is
    directories: nothing was removed or changed, no regular file was made. *)
Definition only_adds_directories (w w' : World) : Prop :=
  forall q,
    match stat w q with
    | Some node => stat w' q = Some node
    | None => stat w' q = None \/ stat w' q = Some Dir
    end.

(** Nothing on the way to [p], [p] included, is a regular file. *)
Definition no_file_on_the_way (w : World) (p : Path) : Prop :=
  forall q content, q `prefix_of` p -> stat w q <> Some (File content).

(** [find_html_events_table] as a function of the page alone: it reads and
    changes nothing of the world. *)
Definition extracted_table (env : Env) (html : string) : result string :=
  (find_html_events_table html env empty_world).1.

(** The four actions of a run that finds the snapshot unchanged, added to
    [w]. *)
Definition after_an_unchanged_run (settings : Settings) (w : World) : World :=
  log_action
    (log_action
       (log_action
          (log_action w (MkDir (artifacts_dir settings)))
          (HttpGet EVENTS_PAGE []))
       (ReadText (joinpath (artifacts_dir settings) (html_file_name settings))))
    (LogInfo "No changes detected in events HTML. Exiting.").

(** The web server gives the same answer to every fetch of the events
    page. *)
Definition steady_page (env : Env) (page : Response) : Prop :=
  forall tick, web_server env tick EVENTS_PAGE [] = Replied page.

(** A text made of white space only. *)
Fixpoint all_space (s : string) : bool :=
  match s with
  | "" => true
  | String c s' => is_space c && all_space s'
  end.

(** [HTTPStatusError.__init__] of [exceptions.py]: the message handed to
    [Exception], that is [str(e)].  A response text that is [None] or empty
    adds nothing. *)
Definition HTTPStatusError_message (status_code : Z)
    (response_text : option string) : string :=
  let message := "HTTP Status Error: " +:+ decimal status_code +:+ "." in
  match response_text with
  | Some (String _ _ as response_text) => message +:+ " " +:+ response_text
  | Some "" | None => message
  end.

(** The characters a JSON value can start with. *)
Definition is_json_start (c : ascii) : bool :=
  is_digit c
  || existsb (Ascii.eqb c)
       [ DQUOTE; "{"; "["; "-"; "n"; "t"; "f"; "N"; "I" ]%char.

(** The operating system lets every directory on the way to [p] be made,
    [p] included. *)
Definition may_make_directories (env : Env) (p : Path) : Prop :=
  forall tick q, q `prefix_of` p -> mkdir_error env tick q = None.

(** The machine of [plain_env] with an operating system that lets the
    process make no directory. *)
Definition read_only_env : Env :=
  {| web_server := web_server plain_env;
     completion_service := completion_service plain_env;
     posix_time := posix_time plain_env;
     utc_offset := utc_offset plain_env;
     urandom16 := urandom16 plain_env;
     strftime_pads_year := strftime_pads_year plain_env;
     html_parser := html_parser plain_env;
     decode := decode plain_env;
     int_of_unicode := int_of_unicode plain_env;
     int_of_float := int_of_float plain_env;
     lax_date := lax_date plain_env;
     lax_time := lax_time plain_env;
     mkdir_error := fun _ _ => Some PermissionError;
     open_error := open_error plain_env;
     write_error := write_error plain_env |}.

(** Settings that give the snapshot and the calendar one file name. *)
Definition one_file_settings : Settings :=
  {| events_page_url := events_page_url sample_settings;
     openrouter_api_key := openrouter_api_key sample_settings;
     openrouter_model := openrouter_model sample_settings;
     artifacts_dir := artifacts_dir sample_settings;
     ics_file_name := html_file_name sample_settings;
     html_file_name := html_file_name sample_settings;
     scraper_user_agent := scraper_user_agent sample_settings;
     log_level := log_level sample_settings |}.

(** The reply of the spec's example with a title that ends in a lone
    surrogate (written \ud83d in the JSON text, half of an emoji), as the
    inside of a JSON string. *)
Definition surrogate_reply : string :=
  quoted "[{\'date\':\'2025-03-04\',\'title\':\'Market \\ud83d\',\'description\':null,\'start_time\':\'08:00:00\',\'end_time\':\'16:00:00\'}]".


(** * Theorems *)

(** ** Calendar Serializer *)

(** *** Facts on strings *)

Lemma app_String c a b : String c a +:+ b = String c (a +:+ b).
Proof. reflexivity. Qed.

Lemma has_char_app c a b : has_char c (a +:+ b) = has_char c a || has_char c b.
Proof.
  induction a as [|d a IH]; simpl; [reflexivity|].
  rewrite IH. apply orb_assoc.
Qed.

Lemma has_crlf_no_lf s : has_char LF s = false -> has_crlf s = false.
Proof.
  induction s as [|c s IH]; simpl; [reflexivity|].
  intros H. apply orb_false_iff in H as [Hc Hs].
  rewrite (IH Hs), orb_false_r.
  destruct s as [|d s]; simpl in *; [apply andb_false_r|].
  apply orb_false_iff in Hs as [Hd _]. rewrite Hd. apply andb_false_r.
Qed.

(** A prefix without CR does not create a CR LF. *)
Lemma has_crlf_app_no_cr a b :
  has_char CR a = false -> has_crlf (a +:+ b) = has_crlf b.
Proof.
  induction a as [|c a IH]; simpl; [reflexivity|].
  intros H. apply orb_false_iff in H as [Hc Ha].
  rewrite Hc. simpl. apply IH, Ha.
Qed.

Lemma split_crlf_eq c d s :
  split_crlf (String c (String d s)) =
    if is_char c CR && is_char d LF then "" :: split_crlf s
    else match split_crlf (String d s) with
         | l :: ls => String c l :: ls
         | [] => [String c ""]
         end.
Proof. reflexivity. Qed.

Lemma split_crlf_nonempty s : split_crlf s <> [].
Proof.
  destruct s as [|c [|d s]]; [discriminate..|].
  rewrite split_crlf_eq.
  destruct (is_char c CR && is_char d LF); [discriminate|].
  destruct (split_crlf (String d s)); discriminate.
Qed.

Lemma split_crlf_cons c s :
  is_char c CR && starts_with_char LF s = false ->
  split_crlf (String c s) =
    match split_crlf s with
    | l :: ls => String c l :: ls
    | [] => [String c ""]
    end.
Proof.
  destruct s as [|d s]; [reflexivity|].
  intros H. rewrite split_crlf_eq. simpl in H. rewrite H. reflexivity.
Qed.

(** A line without CR LF is a single line. *)
Lemma split_crlf_line l : has_crlf l = false -> split_crlf l = [l].
Proof.
  induction l as [|c l IH]; [reflexivity|].
  intros H. simpl in H. apply orb_false_iff in H as [Hc Hl].
  rewrite split_crlf_cons by exact Hc. rewrite (IH Hl). reflexivity.
Qed.

(** A line without CR LF, followed by CR LF and more text, is the first
    line of the whole. *)
Lemma split_crlf_app l rest :
  has_crlf l = false ->
  split_crlf (l +:+ CRLF +:+ rest) = l :: split_crlf rest.
Proof.
  induction l as [|c l IH]; [reflexivity|].
  intros H. simpl in H. apply orb_false_iff in H as [Hc Hl].
  rewrite app_String, split_crlf_cons.
  - rewrite (IH Hl). reflexivity.
  - destruct l as [|d l]; simpl in *.
    + destruct (is_char c CR); reflexivity.
    + exact Hc.
Qed.

Lemma split_crlf_join ls :
  ls <> [] -> Forall (fun l => has_crlf l = false) ls ->
  split_crlf (join CRLF ls) = ls.
Proof.
  induction ls as [|l ls IH]; [congruence|].
  intros _ H. inversion H as [|? ? Hl Hls]; subst.
  destruct ls as [|l' ls].
  - simpl. apply split_crlf_line, Hl.
  - change (join CRLF (l :: l' :: ls)) with (l +:+ CRLF +:+ join CRLF (l' :: ls)).
    rewrite split_crlf_app by exact Hl. rewrite IH; [reflexivity|discriminate|exact Hls].
Qed.

(** *** The lines of a block contain no line break of their own *)

Lemma digit_not c d : (ord c <? 48) || (57 <? ord c) = true -> is_char (digit d) c = false.
Proof.
  intros Hc. unfold digit.
  assert (Hr : (Z.to_nat (d mod 10) < 10)%nat) by (pose proof (Z.mod_pos_bound d 10); lia).
  destruct (is_char (chr (48 + Z.to_nat (d mod 10))) c) eqn:E; [|reflexivity].
  apply Ascii.eqb_eq in E. subst c. exfalso.
  remember (Z.to_nat (d mod 10)) as k eqn:Hk. clear Hk.
  do 10 (destruct k as [|k]; [vm_compute in Hc; discriminate|]). lia.
Qed.

Lemma digit_not_LF d : is_char (digit d) LF = false.
Proof. apply digit_not. vm_compute. reflexivity. Qed.

Lemma pad2_no_lf n : has_char LF (pad2 n) = false.
Proof. unfold pad2. cbn [has_char]. rewrite !digit_not_LF. reflexivity. Qed.

Lemma strftime_Y_no_lf pads y : has_char LF (strftime_Y pads y) = false.
Proof.
  unfold strftime_Y, unpadded4, pad4, pad2.
  destruct pads; repeat match goal with |- context [if ?b then _ else _] => destruct b end;
    cbn [has_char]; rewrite !digit_not_LF; reflexivity.
Qed.

Lemma strftime_basic_no_lf pads dt : has_char LF (strftime_basic pads dt) = false.
Proof.
  unfold strftime_basic.
  rewrite !has_char_app, strftime_Y_no_lf, !pad2_no_lf. reflexivity.
Qed.

Lemma hex_digit_not_LF d : is_char (hex_digit d) LF = false.
Proof.
  unfold hex_digit.
  assert (Hr : (N.to_nat (d mod 16) < 16)%nat) by (pose proof (N.mod_upper_bound d 16); lia).
  remember (d mod 16)%N as k eqn:Hk. clear Hk.
  destruct (k <? 10)%N eqn:E.
  - apply N.ltb_lt in E. remember (N.to_nat k) as j eqn:Hj.
    assert (j < 10)%nat by lia. clear -H.
    do 10 (destruct j as [|j]; [reflexivity|]). lia.
  - remember (N.to_nat k) as j eqn:Hj. clear -Hr.
    do 16 (destruct j as [|j]; [reflexivity|]). lia.
Qed.

Lemma hex_digits_no_lf n v : has_char LF (hex_digits n v) = false.
Proof.
  induction n as [|n IH]; [reflexivity|].
  simpl. rewrite hex_digit_not_LF, IH. reflexivity.
Qed.

Lemma substring_no_char c n m s :
  has_char c s = false -> has_char c (String.substring n m s) = false.
Proof.
  revert n m. induction s as [|d s IH]; intros n m H.
  - destruct n, m; reflexivity.
  - simpl in H. apply orb_false_iff in H as [Hd Hs].
    destruct n as [|n]; simpl.
    + destruct m as [|m]; [reflexivity|]. simpl. rewrite Hd. apply IH, Hs.
    + apply IH, Hs.
Qed.

Lemma uuid_str_no_lf i : has_char LF (uuid_str i) = false.
Proof.
  unfold uuid_str. cbv zeta.
  rewrite !has_char_app.
  rewrite !substring_no_char by apply hex_digits_no_lf. reflexivity.
Qed.

Lemma replace_lf_no_lf s : has_char LF (replace_char LF "\n" s) = false.
Proof.
  induction s as [|c s IH]; [reflexivity|].
  simpl. destruct (is_char c LF) eqn:E.
  - simpl. exact IH.
  - simpl. rewrite E, IH. reflexivity.
Qed.

Lemma escape_description_no_lf d : has_char LF (escape_description d) = false.
Proof. apply replace_lf_no_lf. Qed.

Lemma event_entry_no_crlf pads k_uid stamp event :
  has_char LF k_uid = false -> has_char LF stamp = false ->
  has_crlf (title event) = false ->
  Forall no_crlf (event_entry pads k_uid stamp event).
Proof.
  intros Hu Hs Ht. unfold event_entry, no_crlf.
  repeat (constructor; [|]); try (constructor; fail); try reflexivity.
  - apply has_crlf_no_lf. rewrite has_char_app, Hu. reflexivity.
  - apply has_crlf_no_lf. rewrite has_char_app, Hs. reflexivity.
  - apply has_crlf_no_lf. rewrite has_char_app, strftime_basic_no_lf. reflexivity.
  - apply has_crlf_no_lf. rewrite has_char_app, strftime_basic_no_lf. reflexivity.
  - rewrite has_crlf_app_no_cr by reflexivity. exact Ht.
  - apply has_crlf_no_lf. rewrite has_char_app, escape_description_no_lf. reflexivity.
Qed.

(** *** The serializer as a function of the clock and the random draws *)

Lemma serializer_loop env stamp events : forall acc w,
  for_each
    (fun event_entries event =>
       uid <- uuid4 ;;
       ret (event_entries ++ event_entry (strftime_pads_year env) uid stamp event))
    acc events env w
  = (Ok (acc ++ event_blocks env stamp (draws w) events),
     add_draws w (length events)).
Proof.
  induction events as [|e es IH]; intros acc w.
  - simpl. unfold ret, add_draws. rewrite app_nil_r, Nat.add_0_r.
    destruct w; reflexivity.
  - simpl. unfold bind at 1. unfold bind at 1. unfold uuid4 at 1. unfold ret at 1.
    rewrite IH. simpl. unfold add_draws, uid_of. simpl.
    rewrite <- app_assoc. do 3 f_equal. lia.
Qed.

Lemma create_ics_from_events_run env w events now :
  civil_of_seconds (posix_time env + utc_offset env) = Some now ->
  create_ics_from_events events env w
  = (Ok (join CRLF (ics_header
                    ++ event_blocks env (local_stamp env now) (draws w) events
                    ++ ics_footer)),
     add_draws w (length events)).
Proof.
  intros Hnow. unfold create_ics_from_events.
  unfold bind at 1. unfold ask at 1. cbv beta iota.
  unfold bind at 1. unfold datetime_now at 1.
  unfold bind at 1. unfold ask at 1. cbv beta iota.
  rewrite Hnow. unfold ret at 1. cbv beta iota.
  unfold bind at 1. rewrite serializer_loop. reflexivity.
Qed.

Lemma create_ics_from_events_out_of_range env w events :
  civil_of_seconds (posix_time env + utc_offset env) = None ->
  create_ics_from_events events env w = (Raise ValueError, w).
Proof.
  intros Hnow. unfold create_ics_from_events, datetime_now, bind, ask.
  rewrite Hnow. reflexivity.
Qed.

Lemma local_stamp_no_lf env now : has_char LF (local_stamp env now) = false.
Proof.
  unfold local_stamp, strftime_basic_Z.
  rewrite has_char_app, strftime_basic_no_lf. reflexivity.
Qed.

Lemma event_blocks_no_crlf env stamp events : forall k,
  has_char LF stamp = false ->
  Forall (fun e => has_crlf (title e) = false) events ->
  Forall no_crlf (event_blocks env stamp k events).
Proof.
  induction events as [|e es IH]; intros k Hs H; [constructor|].
  inversion H; subst. cbn [event_blocks]. apply Forall_app. split.
  - apply event_entry_no_crlf; [apply uuid_str_no_lf|exact Hs|assumption].
  - apply IH; assumption.
Qed.

Lemma count_lines_app l a b :
  count_lines l (a ++ b) = (count_lines l a + count_lines l b)%nat.
Proof. induction a as [|x a IH]; simpl; [reflexivity|]. rewrite IH. lia. Qed.

Lemma count_begin_entry pads uid stamp event :
  count_lines "BEGIN:VEVENT" (event_entry pads uid stamp event) = 1%nat.
Proof. reflexivity. Qed.

Lemma count_end_entry pads uid stamp event :
  count_lines "END:VEVENT" (event_entry pads uid stamp event) = 1%nat.
Proof. reflexivity. Qed.

Lemma count_begin_blocks env stamp events : forall k,
  count_lines "BEGIN:VEVENT" (event_blocks env stamp k events) = length events.
Proof.
  induction events as [|e es IH]; intros k; [reflexivity|].
  cbn [event_blocks length].
  rewrite count_lines_app, IH, count_begin_entry. reflexivity.
Qed.

Lemma count_end_blocks env stamp events : forall k,
  count_lines "END:VEVENT" (event_blocks env stamp k events) = length events.
Proof.
  induction events as [|e es IH]; intros k; [reflexivity|].
  cbn [event_blocks length].
  rewrite count_lines_app, IH, count_end_entry. reflexivity.
Qed.

Lemma join_cons sep l l' ls :
  join sep (l :: l' :: ls) = l +:+ sep +:+ join sep (l' :: ls).
Proof. reflexivity. Qed.

Lemma string_app_assoc (a b c : string) : (a +:+ b) +:+ c = a +:+ b +:+ c.
Proof.
  induction a as [|x a IH]; [reflexivity|].
  change (String x ((a +:+ b) +:+ c) = String x (a +:+ b +:+ c)).
  f_equal. exact IH.
Qed.

(** Joining two non-empty lists of lines. *)
Lemma join_app sep a b :
  a <> [] -> b <> [] -> join sep (a ++ b) = join sep a +:+ sep +:+ join sep b.
Proof.
  induction a as [|x a IH]; [congruence|]. intros _ Hb.
  destruct a as [|y a].
  - destruct b as [|z b]; [congruence|]. reflexivity.
  - change ((x :: y :: a) ++ b) with (x :: (y :: a) ++ b).
    change ((y :: a) ++ b) with (y :: a ++ b) at 1.
    rewrite join_cons. change (y :: a ++ b) with ((y :: a) ++ b).
    rewrite IH by (congruence || exact Hb).
    rewrite join_cons, !string_app_assoc. reflexivity.
Qed.

(** Cutting the text of a call at CR LF gives back the lines it was joined
    from, provided no title brings a CR LF of its own. *)
Lemma split_crlf_calendar env stamp k events :
  has_char LF stamp = false ->
  Forall (fun e => has_crlf (title e) = false) events ->
  split_crlf (join CRLF (ics_header ++ event_blocks env stamp k events ++ ics_footer))
  = ics_header ++ event_blocks env stamp k events ++ ics_footer.
Proof.
  intros Hstamp Htitles.
  apply split_crlf_join; [discriminate|].
  apply Forall_app; split; [repeat constructor|].
  apply Forall_app; split; [|repeat constructor].
  apply event_blocks_no_crlf; [exact Hstamp|exact Htitles].
Qed.

(** C1 (as amended).  For every list of events, a call of
    [create_ics_from_events] returns the text made of the four header lines,
    one nine-line VEVENT block per event in input order and the footer line,
    joined with CR LF: it starts with the header and ends with the footer
    line END:VCALENDAR, whatever the titles hold.  When no title contains the
    sequence CR LF, the lines of the text, cut at CR LF, are exactly those
    lines, so that it holds as many BEGIN:VEVENT and END:VEVENT lines as
    there are events. *)
Theorem create_ics_from_events_layout env w events now :
  civil_of_seconds (posix_time env + utc_offset env) = Some now ->
  exists out,
    create_ics_from_events events env w = (Ok out, add_draws w (length events))
    /\ out = join CRLF (ics_header
                        ++ event_blocks env (local_stamp env now) (draws w) events
                        ++ ics_footer)
    /\ (exists rest, out = join CRLF ics_header +:+ CRLF +:+ rest)
    /\ (exists front, out = front +:+ CRLF +:+ "END:VCALENDAR")
    /\ (Forall (fun e => has_crlf (title e) = false) events ->
        split_crlf out
        = ics_header
          ++ event_blocks env (local_stamp env now) (draws w) events
          ++ ics_footer
        /\ count_lines "BEGIN:VEVENT" (split_crlf out) = length events
        /\ count_lines "END:VEVENT" (split_crlf out) = length events).
Proof.
  intros Hnow.
  set (blocks := event_blocks env (local_stamp env now) (draws w) events).
  exists (join CRLF (ics_header ++ blocks ++ ics_footer)).
  split; [apply create_ics_from_events_run, Hnow|].
  split; [reflexivity|].
  split.
  { exists (join CRLF (blocks ++ ics_footer)).
    apply join_app; [discriminate|]. destruct blocks; discriminate. }
  split.
  { exists (join CRLF (ics_header ++ blocks)).
    rewrite app_assoc. rewrite join_app; [reflexivity| |discriminate].
    discriminate. }
  intros Htitles.
  assert (Hsplit : split_crlf (join CRLF (ics_header ++ blocks ++ ics_footer))
                   = ics_header ++ blocks ++ ics_footer).
  { apply split_crlf_calendar; [apply local_stamp_no_lf|exact Htitles]. }
  split; [exact Hsplit|].
  rewrite Hsplit, !count_lines_app. unfold blocks.
  rewrite count_begin_blocks, count_end_blocks.
  change (count_lines "BEGIN:VEVENT" ics_header) with 0%nat.
  change (count_lines "BEGIN:VEVENT" ics_footer) with 0%nat.
  change (count_lines "END:VEVENT" ics_header) with 0%nat.
  change (count_lines "END:VEVENT" ics_footer) with 0%nat.
  split; lia.
Qed.

(** The layout at two events, and at the event whose title carries line
    breaks: header first and footer last for both. *)
Lemma create_ics_from_events_layout_witness :
  let now := mkDateTime (mkDate 2025 7 1) (mkTime 13 0 0) in
  let events := [market_day; market_day] in
  civil_of_seconds (posix_time plain_env + utc_offset plain_env) = Some now
  /\ Forall (fun e => has_crlf (title e) = false) events
  /\ (exists out,
        create_ics_from_events events plain_env empty_world
        = (Ok out, add_draws empty_world (length events))
        /\ (exists rest, out = join CRLF ics_header +:+ CRLF +:+ rest)
        /\ (exists front, out = front +:+ CRLF +:+ "END:VCALENDAR")
        /\ split_crlf out
           = ics_header
             ++ event_blocks plain_env (local_stamp plain_env now)
                  (draws empty_world) events
             ++ ics_footer
        /\ count_lines "BEGIN:VEVENT" (split_crlf out) = length events
        /\ count_lines "END:VEVENT" (split_crlf out) = length events)
  /\ (exists out,
        create_ics_from_events [injected_event] plain_env empty_world
        = (Ok out, add_draws empty_world 1)
        /\ (exists rest, out = join CRLF ics_header +:+ CRLF +:+ rest)
        /\ (exists front, out = front +:+ CRLF +:+ "END:VCALENDAR")).
Proof.
  intros now events.
  assert (Hnow : civil_of_seconds (posix_time plain_env + utc_offset plain_env)
                 = Some now) by (vm_compute; reflexivity).
  assert (Htitles : Forall (fun e => has_crlf (title e) = false) events)
    by (repeat constructor).
  split; [exact Hnow|]. split; [exact Htitles|]. split.
  - destruct (create_ics_from_events_layout plain_env empty_world events now Hnow)
      as (out & Hrun & _ & Hhead & Hfoot & Hlines).
    exists out. split; [exact Hrun|]. split; [exact Hhead|].
    split; [exact Hfoot|]. exact (Hlines Htitles).
  - destruct (create_ics_from_events_layout plain_env empty_world
                [injected_event] now Hnow)
      as (out & Hrun & _ & Hhead & Hfoot & _).
    exists out. split; [exact Hrun|]. split; [exact Hhead|exact Hfoot].
Defined.

(** C1 (counterexample).  One event whose title carries CR LF and the lines
    END:VEVENT and BEGIN:VEVENT: the text returned holds two VEVENT blocks. *)
Lemma title_with_line_breaks_adds_a_block :
  exists out w',
    create_ics_from_events [injected_event] plain_env empty_world = (Ok out, w')
    /\ count_lines "BEGIN:VEVENT" (split_crlf out) = 2%nat
    /\ count_lines "END:VEVENT" (split_crlf out) = 2%nat
    /\ length [injected_event] = 1%nat.
Proof.
  eexists _, _. split; [vm_compute; reflexivity|].
  vm_compute. repeat split.
Qed.

(** Every block of a call carries the same DTSTAMP line, the local wall-clock
    time of the machine followed by the letter Z. *)
Lemma event_blocks_stamp env stamp events : forall k i,
  (i < length events)%nat ->
  event_blocks env stamp k events !! (9 * i + 2)%nat = Some ("DTSTAMP:" +:+ stamp).
Proof.
  induction events as [|e es IH]; intros k i Hi; [simpl in Hi; lia|].
  destruct i as [|i].
  - reflexivity.
  - simpl in Hi. simpl event_blocks.
    replace (9 * S i + 2)%nat with (9 + (9 * i + 2))%nat by lia.
    unfold event_entry.
    change (?a :: ?b :: ?c :: ?d :: ?e' :: ?f :: ?g :: ?h :: ?j :: [] ++ ?r)
      with ([a; b; c; d; e'; f; g; h; j] ++ r).
    apply IH. lia.
Qed.

(** Apart from the UID line and the DTSTAMP line, a block is a function of
    its event (and of the way the C library prints years). *)
Lemma event_entry_deterministic pads uid1 stamp1 uid2 stamp2 event :
  head (event_entry pads uid1 stamp1 event)
  = head (event_entry pads uid2 stamp2 event)
  /\ drop 3 (event_entry pads uid1 stamp1 event)
     = drop 3 (event_entry pads uid2 stamp2 event).
Proof. split; reflexivity. Qed.

(** C4 (the code at the failing input).  On a machine one hour ahead of UTC,
    at 12:00:00 UTC on 2025-07-01, the only DTSTAMP the call writes is
    20250701T130000Z, the local time marked as UTC; the current UTC time in
    the same format is 20250701T120000Z and appears nowhere. *)
Theorem dtstamp_is_local_time_marked_as_utc :
  exists out w' utc,
    create_ics_from_events [market_day; market_day] plain_env empty_world
    = (Ok out, w')
    /\ utc_offset plain_env = 3600
    /\ datetime_utcnow plain_env empty_world = (Ok utc, empty_world)
    /\ strftime_basic_Z (strftime_pads_year plain_env) utc = "20250701T120000Z"
    /\ count_lines "DTSTAMP:20250701T130000Z" (split_crlf out) = 2%nat
    /\ count_lines "DTSTAMP:20250701T120000Z" (split_crlf out) = 0%nat.
Proof.
  eexists _, _, _. split; [vm_compute; reflexivity|].
  split; [reflexivity|]. split; [vm_compute; reflexivity|].
  vm_compute. repeat split.
Qed.

(** ** Completion Client *)

(** One call of the completion client: one request is recorded, nothing else
    changes, and the result is read off the answer. *)
Lemma get_openrouter_response_run prompt model api_key env w :
  get_openrouter_response prompt model api_key env w
  = (reply_content (service_answer env w prompt model api_key),
     log_action w (completion_request prompt model api_key)).
Proof.
  unfold get_openrouter_response, httpx_post, service_answer, reply_content,
    completion_request, log_action.
  unfold bind, ask, clock_tick, emit, raise_for_status, lift, ret, raise.
  cbv beta iota.
  destruct (completion_service env _ _ _ _) as [response|]; [|reflexivity].
  destruct ((200 <=? status_code response) && (status_code response <=? 299));
    [|reflexivity].
  destruct (response_json response) as [parsed|]; [|reflexivity].
  destruct (getitem parsed "choices") as [choices|]; [|reflexivity].
  destruct (getitem0 choices) as [choice|]; [|reflexivity].
  destruct (getitem choice "message") as [message|]; reflexivity.
Qed.

(** ** Month Resolver *)

Lemma get_events_month_run html api_key model env w :
  get_events_month html api_key model env w
  = (match reply_content (service_answer env w (month_prompt html) model api_key) with
     | Ok ai_response => py_int env ai_response
     | Raise e => Raise e
     end,
     log_action w (completion_request (month_prompt html) model api_key)).
Proof.
  unfold get_events_month.
  unfold bind at 1. unfold ask at 1. cbv beta iota.
  unfold bind at 1. rewrite get_openrouter_response_run.
  destruct (reply_content _); reflexivity.
Qed.

Lemma is_digit_ord c : is_digit c = true -> 48 <= ord c <= 57.
Proof. unfold is_digit. intros H. apply andb_true_iff in H as [H1 H2]. lia. Qed.

Lemma is_digit_not_space c : is_digit c = true -> is_space c = false.
Proof.
  intros H. apply is_digit_ord in H. unfold is_space.
  apply orb_false_iff. split; [apply andb_false_iff; right|]; lia.
Qed.

Lemma all_digits_ascii s : all_digits s = true -> is_ascii_text s = true.
Proof.
  induction s as [|c s IH]; [reflexivity|].
  cbn [all_digits is_ascii_text]. intros H. apply andb_true_iff in H as [Hc Hs].
  apply is_digit_ord in Hc. rewrite (IH Hs), andb_true_r. lia.
Qed.

Lemma all_digits_lstrip s : all_digits s = true -> lstrip s = s.
Proof.
  destruct s as [|c s]; [reflexivity|].
  cbn [all_digits lstrip]. intros H. apply andb_true_iff in H as [Hc _].
  rewrite (is_digit_not_space c Hc). reflexivity.
Qed.

Lemma all_digits_rstrip s : all_digits s = true -> rstrip_space s = s.
Proof.
  induction s as [|c s IH]; [reflexivity|].
  cbn [all_digits rstrip_space]. intros H. apply andb_true_iff in H as [Hc Hs].
  rewrite (IH Hs). destruct s; [|reflexivity].
  rewrite (is_digit_not_space c Hc). reflexivity.
Qed.

Lemma int_digits_all_digits s : forall prev acc count,
  all_digits s = true -> s <> "" \/ prev = true ->
  int_digits s prev acc count = Some (digits_value acc s, (count + String.length s)%nat).
Proof.
  induction s as [|c s IH]; intros prev acc count Hs Hne.
  - destruct Hne as [Hne| ->]; [congruence|].
    cbn. rewrite Nat.add_0_r. reflexivity.
  - cbn [all_digits] in Hs. apply andb_true_iff in Hs as [Hc Hs].
    cbn [int_digits digits_value String.length]. rewrite Hc.
    rewrite IH by (exact Hs || (right; reflexivity)).
    do 2 f_equal. lia.
Qed.

(** A reply made of decimal digits is read as the number they write. *)
Lemma int_of_str_digits env s :
  all_digits s = true -> s <> "" -> (String.length s <= int_max_str_digits)%nat ->
  int_of_str env s = Ok (digits_value 0 s).
Proof.
  intros Hs Hne Hlen. unfold int_of_str.
  rewrite (all_digits_ascii s Hs). cbn [negb].
  rewrite (all_digits_lstrip s Hs), (all_digits_rstrip s Hs).
  destruct s as [|c s]; [congruence|].
  assert (Hc : 48 <= ord c <= 57).
  { cbn [all_digits] in Hs. apply andb_true_iff in Hs as [Hc _].
    apply is_digit_ord, Hc. }
  replace (ord c =? 45) with false by (symmetry; apply Z.eqb_neq; lia).
  replace (ord c =? 43) with false by (symmetry; apply Z.eqb_neq; lia).
  rewrite (int_digits_all_digits _ false 0 0%nat Hs) by (left; discriminate).
  cbn [Nat.add].
  replace (int_max_str_digits <? String.length (String c s))%nat with false
    by (symmetry; apply Nat.ltb_ge; exact Hlen).
  reflexivity.
Qed.

(** C2 (as amended).  When the completion client hands over the text
    [reply], [get_events_month] returns whatever integer [int] reads from it
    and raises [ValueError] when [int] does; no range is checked.  A reply
    made of digits yields the number they write, be it in [1, 12] or not;
    the reply 7 yields 7 and the reply July raises [ValueError]. *)
Theorem get_events_month_is_int_of_reply env w html api_key model reply w1 :
  get_openrouter_response (month_prompt html) model api_key env w
  = (Ok (JString reply), w1) ->
  get_events_month html api_key model env w = (int_of_str env reply, w1)
  /\ (all_digits reply = true -> reply <> "" ->
      (String.length reply <= int_max_str_digits)%nat ->
      get_events_month html api_key model env w
      = (Ok (digits_value 0 reply), w1))
  /\ (reply = "7" -> get_events_month html api_key model env w = (Ok 7, w1))
  /\ (reply = "July" ->
      get_events_month html api_key model env w = (Raise ValueError, w1)).
Proof.
  intros Hreply.
  assert (Hrun : get_events_month html api_key model env w
                 = (int_of_str env reply, w1)).
  { rewrite get_events_month_run. rewrite get_openrouter_response_run in Hreply.
    injection Hreply as Hcontent Hw. rewrite Hcontent, Hw. reflexivity. }
  split; [exact Hrun|]. split; [|split].
  - intros Hd Hne Hlen. rewrite Hrun, (int_of_str_digits env reply Hd Hne Hlen).
    reflexivity.
  - intros ->. rewrite Hrun. reflexivity.
  - intros ->. rewrite Hrun. reflexivity.
Qed.

(** The month resolver on the reply 7. *)
Lemma get_events_month_is_int_of_reply_witness :
  let env := sample_env page_plain "7" market_day_reply in
  let html := "<table></table>" in
  let w1 := log_action empty_world
              (completion_request (month_prompt html) "some/model" "sk-or-sample") in
  get_openrouter_response (month_prompt html) "some/model" "sk-or-sample"
    env empty_world = (Ok (JString "7"), w1)
  /\ get_events_month html "sk-or-sample" "some/model" env empty_world = (Ok 7, w1).
Proof.
  intros env html w1.
  assert (Hreply : get_openrouter_response (month_prompt html) "some/model"
                     "sk-or-sample" env empty_world = (Ok (JString "7"), w1))
    by (vm_compute; reflexivity).
  split; [exact Hreply|].
  destruct (get_events_month_is_int_of_reply env empty_world html
              "sk-or-sample" "some/model" "7" w1 Hreply) as (_ & _ & H7 & _).
  exact (H7 eq_refl).
Defined.

(** C2 (counterexample).  The reply 13 makes [get_events_month] return 13,
    which is no month. *)
Lemma get_events_month_returns_13 :
  exists w',
    get_events_month "<table></table>" "sk-or-sample" "some/model"
      (sample_env page_plain "13" market_day_reply) empty_world = (Ok 13, w')
    /\ ~ (1 <= 13 <= 12).
Proof.
  eexists. split; [vm_compute; reflexivity|]. lia.
Qed.

(** ** Table Extractor *)

Lemma find_html_events_table_found env w html n attrs contents table :
  find "main" (html_parser env html) = Some (Tag n attrs contents) ->
  find "table" contents = Some table ->
  find_html_events_table html env w = (Ok (decode env table), w).
Proof.
  intros Hmain Htable. unfold find_html_events_table, bind, ask.
  rewrite Hmain, Htable. reflexivity.
Qed.

Lemma find_html_events_table_no_main env w html :
  find "main" (html_parser env html) = None ->
  find_html_events_table html env w = (Raise AttributeError, w).
Proof.
  intros Hmain. unfold find_html_events_table, bind, ask.
  rewrite Hmain. reflexivity.
Qed.

(** A [<main>] without a table: the function returns the text None. *)
Lemma find_html_events_table_no_table env w html n attrs contents :
  find "main" (html_parser env html) = Some (Tag n attrs contents) ->
  find "table" contents = None ->
  find_html_events_table html env w = (Ok "None", w).
Proof.
  intros Hmain Htable. unfold find_html_events_table, bind, ask.
  rewrite Hmain, Htable. reflexivity.
Qed.

(** C3 (the code at the failing input).  For the page
    [<main><p>No events this month</p></main>], which has a [<main>] and no
    table, [find_html_events_table] raises nothing: it returns the four
    letters None.  Without any [<main>] it raises [AttributeError]; with a
    table below the first [<main>] it returns the markup of that table. *)
Theorem find_html_events_table_returns_None_text :
  find_html_events_table page_no_table plain_env empty_world
  = (Ok "None", empty_world)
  /\ find_html_events_table "<div><table></table></div>" plain_env empty_world
     = (Raise AttributeError, empty_world)
  /\ find_html_events_table page_plain plain_env empty_world
     = (Ok "<table><tr><td>Market Day 4 March 8am-4pm</td></tr></table>",
        empty_world).
Proof. vm_compute. repeat split. Qed.

(** ** Event Extractor *)

(** The model of [formatmonth] prints the twelve months of 2025 as CPython
    does. *)
Lemma formatmonth_2025_table :
  map (formatmonth 2025) (zrange 1 12) = map Ok calendars_2025.
Proof. vm_compute. reflexivity. Qed.

Lemma formatmonth_2025 month :
  1 <= month <= 12 ->
  formatmonth 2025 month = Ok (nth (Z.to_nat (month - 1)) calendars_2025 "").
Proof.
  intros Hm.
  assert (H : month = 1 \/ month = 2 \/ month = 3 \/ month = 4 \/ month = 5
              \/ month = 6 \/ month = 7 \/ month = 8 \/ month = 9
              \/ month = 10 \/ month = 11 \/ month = 12) by lia.
  repeat (destruct H as [-> | H]; [vm_compute; reflexivity|]).
  subst month. vm_compute. reflexivity.
Qed.

Lemma create_events_from_html_run html month api_key model env w :
  create_events_from_html html month api_key model env w
  = match formatmonth 2025 month with
    | Raise e => (Raise e, w)
    | Ok month_cal =>
        (match reply_content
                 (service_answer env w (events_prompt month_cal html) model api_key) with
         | Raise e => Raise e
         | Ok ai_response => events_of_reply env ai_response
         end,
         log_action w (completion_request (events_prompt month_cal html) model api_key))
    end.
Proof.
  unfold create_events_from_html.
  unfold bind at 1. unfold ask at 1. cbv beta iota.
  unfold bind at 1. unfold lift at 1.
  destruct (formatmonth 2025 month) as [month_cal|]; [|reflexivity].
  unfold bind at 1. rewrite get_openrouter_response_run.
  destruct (reply_content _) as [ai_response|]; [|reflexivity].
  unfold events_of_reply, bind, lift.
  destruct (json_loads_value ai_response) as [parsed|]; [|reflexivity].
  destruct (py_iter parsed); reflexivity.
Qed.

(** The prompt is the fixed head, the calendar, and the tail with the
    table. *)
Lemma events_prompt_parts month_cal html :
  events_prompt month_cal html
  = events_prompt_head +:+ month_cal +:+ events_prompt_tail html.
Proof.
  unfold events_prompt, events_prompt_head, events_prompt_tail, unlines.
  cbn [join]. rewrite !string_app_assoc. reflexivity.
Qed.

(** C10.  For a month of [1, 12], whatever the table, the clock and the rest
    of the environment, the one request [create_events_from_html] sends
    carries the prompt in which the calendar is the text calendar of that
    month of the year 2025: the grid CPython prints for
    [formatmonth(2025, month)]. *)
Theorem create_events_from_html_embeds_calendar_of_2025
    env w html month api_key model :
  1 <= month <= 12 ->
  exists month_cal outcome,
    formatmonth 2025 month = Ok month_cal
    /\ month_cal = nth (Z.to_nat (month - 1)) calendars_2025 ""
    /\ create_events_from_html html month api_key model env w
       = (outcome,
          log_action w
            (completion_request
               (events_prompt_head +:+ month_cal +:+ events_prompt_tail html)
               model api_key)).
Proof.
  intros Hm. pose proof (formatmonth_2025 month Hm) as Hcal.
  eexists _, _. split; [exact Hcal|]. split; [reflexivity|].
  rewrite create_events_from_html_run, Hcal, events_prompt_parts. reflexivity.
Qed.

(** The prompt for March, on a machine whose clock reads July. *)
Lemma create_events_from_html_embeds_calendar_of_2025_witness :
  1 <= 3 <= 12
  /\ exists month_cal outcome,
       formatmonth 2025 3 = Ok month_cal
       /\ month_cal = nth (Z.to_nat (3 - 1)) calendars_2025 ""
       /\ create_events_from_html "<table></table>" 3 "sk-or-sample" "some/model"
            plain_env empty_world
          = (outcome,
             log_action empty_world
               (completion_request
                  (events_prompt_head +:+ month_cal
                   +:+ events_prompt_tail "<table></table>")
                  "some/model" "sk-or-sample")).
Proof.
  assert (Hm : 1 <= 3 <= 12) by lia.
  split; [exact Hm|].
  exact (create_events_from_html_embeds_calendar_of_2025 plain_env empty_world
           "<table></table>" 3 "sk-or-sample" "some/model" Hm).
Defined.

(** Escaping of a description. *)
Lemma escape_description_absent : escape_description None = "".
Proof. reflexivity. Qed.

Lemma replace_char_app c by_ a b :
  replace_char c by_ (a +:+ b) = replace_char c by_ a +:+ replace_char c by_ b.
Proof.
  induction a as [|d a IH]; [reflexivity|].
  change (String d a +:+ b) with (String d (a +:+ b)).
  cbn [replace_char]. rewrite IH. destruct (is_char d c).
  - rewrite string_app_assoc. reflexivity.
  - reflexivity.
Qed.

(** A line break inside a description becomes a backslash and the letter n. *)
Lemma escape_description_newline a b :
  escape_description (Some (a +:+ NL +:+ b))
  = escape_description (Some a) +:+ "\n" +:+ escape_description (Some b).
Proof.
  change (replace_char LF "\n" (a +:+ NL +:+ b)
          = replace_char LF "\n" a +:+ "\n" +:+ replace_char LF "\n" b).
  rewrite !replace_char_app. reflexivity.
Qed.

(** A description without line feed is written as it is. *)
Lemma escape_description_plain s :
  has_char LF s = false -> escape_description (Some s) = s.
Proof.
  unfold escape_description. change (default "" (Some s)) with s.
  induction s as [|c s IH]; [reflexivity|].
  cbn [has_char replace_char]. intros H. apply orb_false_iff in H as [Hc Hs].
  rewrite Hc, (IH Hs). reflexivity.
Qed.

(** The seventh line of the block of an event is its DESCRIPTION line. *)
Lemma event_blocks_description env stamp events : forall k i event,
  events !! i = Some event ->
  event_blocks env stamp k events !! (9 * i + 6)%nat
  = Some ("DESCRIPTION:" +:+ escape_description (description event)).
Proof.
  induction events as [|e es IH]; intros k i event Hi; [discriminate|].
  destruct i as [|i].
  - injection Hi as ->. reflexivity.
  - cbn [event_blocks].
    replace (9 * S i + 6)%nat with (9 + (9 * i + 6))%nat by lia.
    unfold event_entry at 1.
    change (?a :: ?b :: ?c :: ?d :: ?e' :: ?f :: ?g :: ?h :: ?j :: [] ++ ?r)
      with ([a; b; c; d; e'; f; g; h; j] ++ r).
    apply IH. exact Hi.
Qed.

(** C9.  When the completion client hands over the JSON array with the one
    element of the example, [create_events_from_html] returns the single
    event 2025-03-04, Market Day, no description, 08:00:00 to 16:00:00; and
    [create_ics_from_events] on that list writes exactly one VEVENT block,
    with the lines DTSTART:20250304T080000, DTEND:20250304T160000 and an empty
    DESCRIPTION: line.  For every list of events whose titles hold no CR LF,
    the seventh line of the block of each event is DESCRIPTION: followed by
    the description as the serializer escapes it: nothing when the
    description is absent, the description itself when it holds no line
    feed, and with a backslash and the letter n in the place of every line
    feed otherwise, so that no line feed is left in the line. *)
Theorem market_day_example env w html month api_key model month_cal w1 :
  formatmonth 2025 month = Ok month_cal ->
  get_openrouter_response (events_prompt month_cal html) model api_key env w
  = (Ok (JString market_day_json), w1) ->
  create_events_from_html html month api_key model env w = (Ok [market_day], w1)
  /\ (forall w2 now,
        civil_of_seconds (posix_time env + utc_offset env) = Some now ->
        exists out,
          create_ics_from_events [market_day] env w2 = (Ok out, add_draws w2 1)
          /\ count_lines "BEGIN:VEVENT" (split_crlf out) = 1%nat
          /\ count_lines "END:VEVENT" (split_crlf out) = 1%nat
          /\ count_lines "DTSTART:20250304T080000" (split_crlf out) = 1%nat
          /\ count_lines "DTEND:20250304T160000" (split_crlf out) = 1%nat
          /\ count_lines "DESCRIPTION:" (split_crlf out) = 1%nat)
  /\ (forall w2 now events i event,
        civil_of_seconds (posix_time env + utc_offset env) = Some now ->
        Forall (fun e => has_crlf (title e) = false) events ->
        events !! i = Some event ->
        exists out,
          create_ics_from_events events env w2
          = (Ok out, add_draws w2 (length events))
          /\ split_crlf out !! (4 + (9 * i + 6))%nat
             = Some ("DESCRIPTION:" +:+ escape_description (description event)))
  /\ escape_description None = ""
  /\ (forall s, has_char LF s = false -> escape_description (Some s) = s)
  /\ (forall a b,
        escape_description (Some (a +:+ NL +:+ b))
        = escape_description (Some a) +:+ "\n" +:+ escape_description (Some b))
  /\ (forall d, has_char LF (escape_description d) = false).
Proof.
  intros Hcal Hreply. split; [|split; [|split; [|split; [|split; [|split]]]]].
  - rewrite create_events_from_html_run, Hcal.
    rewrite get_openrouter_response_run in Hreply.
    injection Hreply as Hcontent Hw. rewrite Hcontent, Hw.
    assert (events_of_reply env (JString market_day_json) = Ok [market_day])
      as -> by (vm_compute; reflexivity).
    reflexivity.
  - intros w2 now Hnow. eexists.
    split; [exact (create_ics_from_events_run env w2 [market_day] now Hnow)|].
    rewrite split_crlf_calendar
      by (first [apply local_stamp_no_lf | repeat constructor]).
    cbn [event_blocks].
    generalize (uid_of env (draws w2)) (local_stamp env now). intros uid stamp.
    destruct (strftime_pads_year env); vm_compute; repeat split.
  - intros w2 now events i event Hnow Htitles Hi. eexists.
    split; [exact (create_ics_from_events_run env w2 events now Hnow)|].
    rewrite split_crlf_calendar by (apply local_stamp_no_lf || exact Htitles).
    change (ics_header ++ ?r) with ("BEGIN:VCALENDAR" :: "VERSION:2.0"
      :: "PRODID:-//MyPythonScript//EN" :: "CALSCALE:GREGORIAN" :: r).
    cbn [Nat.add lookup list_lookup].
    apply lookup_app_l_Some, event_blocks_description, Hi.
  - reflexivity.
  - apply escape_description_plain.
  - apply escape_description_newline.
  - apply escape_description_no_lf.
Qed.

(** The example, with the completion service of [plain_env]. *)
Lemma market_day_example_witness :
  let html := "<table></table>" in
  let w1 := log_action empty_world
              (completion_request (events_prompt march_2025 html)
                 "some/model" "sk-or-sample") in
  formatmonth 2025 3 = Ok march_2025
  /\ get_openrouter_response (events_prompt march_2025 html) "some/model"
       "sk-or-sample" plain_env empty_world = (Ok (JString market_day_json), w1)
  /\ create_events_from_html html 3 "sk-or-sample" "some/model" plain_env
       empty_world = (Ok [market_day], w1).
Proof.
  intros html w1.
  assert (Hcal : formatmonth 2025 3 = Ok march_2025) by (vm_compute; reflexivity).
  assert (Hreply : get_openrouter_response (events_prompt march_2025 html)
                     "some/model" "sk-or-sample" plain_env empty_world
                   = (Ok (JString market_day_json), w1))
    by (vm_compute; reflexivity).
  split; [exact Hcal|]. split; [exact Hreply|].
  exact (proj1 (market_day_example plain_env empty_world html 3 "sk-or-sample"
                  "some/model" march_2025 w1 Hcal Hreply)).
Defined.

(** ** Change Detector *)

Lemma file_content_matches_existing_missing p content env w :
  stat w p = None ->
  file_content_matches_existing p content env w = (Ok false, w).
Proof.
  intros Hstat. unfold file_content_matches_existing, path_exists.
  unfold bind, get_world, ret. cbv beta iota. rewrite Hstat. reflexivity.
Qed.

(** With a regular file at the path, the answer compares the content given
    with the text of the file AFTER the translation of its line ends. *)
Lemma file_content_matches_existing_file p content existing env w :
  stat w p = Some (File existing) ->
  file_content_matches_existing p content env w
  = (Ok (String.eqb (universal_newlines existing) content),
     log_action w (ReadText p)).
Proof.
  intros Hstat. unfold file_content_matches_existing, path_exists, read_text.
  unfold bind, get_world, ret, emit. cbv beta iota. rewrite Hstat.
  cbn [negb]. cbv beta iota. rewrite Hstat. reflexivity.
Qed.

Lemma file_content_matches_existing_directory p content env w :
  stat w p = Some Dir ->
  file_content_matches_existing p content env w
  = (Raise IsADirectoryError, log_action w (ReadText p)).
Proof.
  intros Hstat. unfold file_content_matches_existing, path_exists, read_text.
  unfold bind, get_world, ret, emit. cbv beta iota. rewrite Hstat.
  cbn [negb]. cbv beta iota. rewrite Hstat. reflexivity.
Qed.

(** A text without CR is read back as it is. *)
Lemma universal_newlines_no_cr s :
  has_char CR s = false -> universal_newlines s = s.
Proof.
  induction s as [|c s IH]; [reflexivity|].
  cbn [has_char universal_newlines]. intros H.
  apply orb_false_iff in H as [Hc Hs]. rewrite Hc, (IH Hs). reflexivity.
Qed.

(** For a file without CR the answer is the comparison of the claim. *)
Lemma file_content_matches_existing_no_cr p content existing env w :
  stat w p = Some (File existing) -> has_char CR existing = false ->
  exists b,
    file_content_matches_existing p content env w = (Ok b, log_action w (ReadText p))
    /\ (b = true <-> existing = content).
Proof.
  intros Hstat Hcr. eexists. split.
  - apply file_content_matches_existing_file, Hstat.
  - rewrite (universal_newlines_no_cr existing Hcr). apply String.eqb_eq.
Qed.

(** C8 (the code at the failing input).  The file holds a table with a CR LF
    inside a cell and the content given is that very text: the answer is false.
    The file holds [a CR LF b] and the content given is [a LF b], another
    text: the answer is true.  With nothing at the path the answer is
    false. *)
Theorem file_content_matches_existing_translates_line_ends :
  file_at (world_after_a_run table_crlf) snapshot_path = Some table_crlf
  /\ file_content_matches_existing snapshot_path table_crlf plain_env
       (world_after_a_run table_crlf)
     = (Ok false, log_action (world_after_a_run table_crlf) (ReadText snapshot_path))
  /\ "a" +:+ CRLF +:+ "b" <> "a" +:+ NL +:+ "b"
  /\ file_content_matches_existing snapshot_path ("a" +:+ NL +:+ "b") plain_env
       (world_after_a_run ("a" +:+ CRLF +:+ "b"))
     = (Ok true,
        log_action (world_after_a_run ("a" +:+ CRLF +:+ "b")) (ReadText snapshot_path))
  /\ file_content_matches_existing snapshot_path table_crlf plain_env empty_world
     = (Ok false, empty_world).
Proof.
  split; [vm_compute; reflexivity|].
  split; [vm_compute; reflexivity|].
  split; [discriminate|].
  split; vm_compute; reflexivity.
Qed.

(** ** Orchestrator *)

(** [main] is its two halves one after the other. *)
Lemma main_split settings env w :
  main settings env w
  = match change_detection settings env w with
    | (Ok None, w1) => (Ok tt, w1)
    | (Ok (Some events_table_html), w1) => regenerate settings events_table_html env w1
    | (Raise e, w1) => (Raise e, w1)
    end.
Proof.
  unfold main, change_detection, bind.
  destruct (mkdir (artifacts_dir settings) env w) as [[[]|e] w0]; [|reflexivity].
  destruct (get_page_html EVENTS_PAGE None env w0) as [[html|e] w1]; [|reflexivity].
  destruct (find_html_events_table html env w1) as [[table|e] w2]; [|reflexivity].
  destruct (file_content_matches_existing _ table env w2) as [[[|]|e] w3];
    [| |reflexivity].
  - unfold logger_info, emit, ret. reflexivity.
  - destruct (write_text _ table env w3) as [[[]|e] w4]; reflexivity.
Qed.

(** Either call of the completion service records one request and touches
    neither a file nor the random source. *)
Lemma get_events_month_frame html api_key model env w r w' :
  get_events_month html api_key model env w = (r, w') ->
  w' = log_action w (completion_request (month_prompt html) model api_key).
Proof. rewrite get_events_month_run. intros H. injection H as _ <-. reflexivity. Qed.

Lemma create_events_from_html_frame html month api_key model env w r w' :
  create_events_from_html html month api_key model env w = (r, w') ->
  fs w' = fs w /\ filter is_write (new_actions w w') = [].
Proof.
  rewrite create_events_from_html_run.
  destruct (formatmonth 2025 month) as [month_cal|]; intros H; injection H as _ <-.
  - split; [reflexivity|]. unfold new_actions, log_action. cbn [trace].
    rewrite drop_app_length. reflexivity.
  - split; [reflexivity|]. unfold new_actions. rewrite drop_all. reflexivity.
Qed.

Lemma new_actions_log w e : new_actions w (log_action w e) = [e].
Proof. unfold new_actions, log_action. cbn [trace]. apply drop_app_length. Qed.

(** When the month or the events cannot be had, the second half of [main]
    raises and leaves the files as it found them, without a write. *)
Lemma regenerate_failure settings fragment env w1 e :
  (exists w2,
     get_events_month fragment (openrouter_api_key settings)
       (openrouter_model settings) env w1 = (Raise e, w2))
  \/ (exists month w2 w3,
        get_events_month fragment (openrouter_api_key settings)
          (openrouter_model settings) env w1 = (Ok month, w2)
        /\ create_events_from_html fragment month (openrouter_api_key settings)
             (openrouter_model settings) env w2 = (Raise e, w3)) ->
  exists w',
    regenerate settings fragment env w1 = (Raise e, w')
    /\ fs w' = fs w1
    /\ filter is_write (new_actions w1 w') = [].
Proof.
  intros [(w2 & Hmonth) | (month & w2 & w3 & Hmonth & Hevents)].
  - exists w2. unfold regenerate. unfold bind at 1. rewrite Hmonth.
    apply get_events_month_frame in Hmonth. subst w2.
    split; [reflexivity|]. split; [reflexivity|].
    rewrite new_actions_log. reflexivity.
  - exists w3. unfold regenerate. unfold bind at 1. rewrite Hmonth.
    unfold bind at 1. rewrite Hevents.
    apply get_events_month_frame in Hmonth. subst w2.
    rewrite create_events_from_html_run in Hevents.
    destruct (formatmonth 2025 month) as [month_cal|];
      injection Hevents as _ <-;
      (split; [reflexivity|]); (split; [reflexivity|]).
    + unfold new_actions, log_action. cbn [trace].
      rewrite <- app_assoc, drop_app_length. reflexivity.
    + rewrite new_actions_log. reflexivity.
Qed.

(** ** What a run can change

    The monadic code is followed once, for an arbitrary relation [R] between
    the world before and the world after that every primitive step respects.
    The two instances below take for [R] the actions added to the trace and
    the files left alone. *)

Create HintDb preserves.

Section Preserves.

Variable R : World -> World -> Prop.
Variable okE : io_event -> Prop.
Variable okP : Path -> Prop.

Hypothesis R_refl : forall w, R w w.
Hypothesis R_trans : forall w1 w2 w3, R w1 w2 -> R w2 w3 -> R w1 w3.
Hypothesis R_emit : forall w e, okE e -> R w (log_action w e).
Hypothesis R_write : forall w p data,
  okP p -> R w (mkWorld (<[p := File data]> (fs w)) (trace w) (draws w)).
Hypothesis R_mkdir : forall w p,
  fs w !! p = None -> R w (mkWorld (<[p := Dir]> (fs w)) (trace w) (draws w)).
Hypothesis R_draw : forall w, R w (mkWorld (fs w) (trace w) (S (draws w))).

Lemma preserves_ret {A} (a : A) : preserves R (ret a).
Proof. intros env w r w' H. injection H as _ <-. apply R_refl. Qed.

Lemma preserves_raise {A} e : preserves R (@raise A e).
Proof. intros env w r w' H. injection H as _ <-. apply R_refl. Qed.

Lemma preserves_lift {A} (x : result A) : preserves R (lift x).
Proof. intros env w r w' H. injection H as _ <-. apply R_refl. Qed.

Lemma preserves_ask : preserves R ask.
Proof. intros env w r w' H. injection H as _ <-. apply R_refl. Qed.

Lemma preserves_get_world : preserves R get_world.
Proof. intros env w r w' H. injection H as _ <-. apply R_refl. Qed.

Lemma preserves_clock_tick : preserves R clock_tick.
Proof. intros env w r w' H. injection H as _ <-. apply R_refl. Qed.

Lemma preserves_bind {A B} (m : M A) (k : A -> M B) :
  preserves R m -> (forall a, preserves R (k a)) -> preserves R (bind m k).
Proof.
  intros Hm Hk env w r w' H. unfold bind in H.
  destruct (m env w) as [[a|e] w1] eqn:E.
  - eapply R_trans; [eapply Hm, E|eapply Hk, H].
  - injection H as _ <-. eapply Hm, E.
Qed.

Lemma preserves_try_except {A} (m : M A) (handler : exn -> M A) :
  preserves R m -> (forall e, preserves R (handler e)) ->
  preserves R (try_except m handler).
Proof.
  intros Hm Hh env w r w' H. unfold try_except in H.
  destruct (m env w) as [[a|e] w1] eqn:E.
  - injection H as _ <-. eapply Hm, E.
  - eapply R_trans; [eapply Hm, E|eapply Hh, H].
Qed.

Lemma preserves_if {A} (b : bool) (m1 m2 : M A) :
  preserves R m1 -> preserves R m2 -> preserves R (if b then m1 else m2).
Proof. destruct b; auto. Qed.

Lemma preserves_emit e : okE e -> preserves R (emit e).
Proof. intros He env w r w' H. injection H as _ <-. apply R_emit, He. Qed.

Lemma preserves_uuid4 : preserves R uuid4.
Proof. intros env w r w' H. injection H as _ <-. apply R_draw. Qed.

Lemma preserves_for_each {A B} (body : B -> A -> M B) xs :
  (forall acc x, preserves R (body acc x)) ->
  forall acc, preserves R (for_each body acc xs).
Proof.
  intros Hbody. induction xs as [|x xs IH]; intros acc; cbn [for_each].
  - apply preserves_ret.
  - apply preserves_bind; [apply Hbody|exact IH].
Qed.

#[local] Hint Resolve preserves_ret preserves_raise preserves_lift preserves_ask
  preserves_get_world preserves_clock_tick preserves_emit preserves_uuid4
  : preserves.

Ltac preserves_step :=
  first
    [ apply preserves_bind; [|intros ?]
    | apply preserves_if
    | solve [auto with preserves] ].

Lemma preserves_datetime_now : preserves R datetime_now.
Proof.
  unfold datetime_now. preserves_step; [preserves_step|].
  destruct (civil_of_seconds _); preserves_step.
Qed.

Lemma preserves_create_ics_from_events events :
  preserves R (create_ics_from_events events).
Proof.
  unfold create_ics_from_events.
  preserves_step; [preserves_step|].
  preserves_step; [apply preserves_datetime_now|].
  preserves_step; [|preserves_step].
  apply preserves_for_each. intros acc x. repeat preserves_step.
Qed.

Lemma preserves_get_openrouter_response prompt model api_key :
  okE (completion_request prompt model api_key) ->
  preserves R (get_openrouter_response prompt model api_key).
Proof.
  intros Hok env w r w' H. rewrite get_openrouter_response_run in H.
  injection H as _ <-. apply R_emit, Hok.
Qed.

Lemma preserves_get_events_month html api_key model :
  (forall prompt, okE (completion_request prompt model api_key)) ->
  preserves R (get_events_month html api_key model).
Proof.
  intros Hok. unfold get_events_month.
  preserves_step; [preserves_step|].
  preserves_step; [apply preserves_get_openrouter_response, Hok|preserves_step].
Qed.

Lemma preserves_create_events_from_html html month api_key model :
  (forall prompt, okE (completion_request prompt model api_key)) ->
  preserves R (create_events_from_html html month api_key model).
Proof.
  intros Hok. unfold create_events_from_html.
  preserves_step; [preserves_step|].
  preserves_step; [preserves_step|].
  preserves_step; [apply preserves_get_openrouter_response, Hok|].
  repeat preserves_step.
Qed.

Lemma preserves_find_html_events_table html :
  preserves R (find_html_events_table html).
Proof.
  unfold find_html_events_table. preserves_step; [preserves_step|].
  destruct (find "main" _) as [[n attrs contents| |]|]; preserves_step.
Qed.

Lemma preserves_get_page_html url :
  okE (HttpGet url []) -> preserves R (get_page_html url None).
Proof.
  intros Hok. unfold get_page_html, httpx_get, raise_for_status.
  preserves_step.
  - preserves_step; [preserves_step|].
    preserves_step; [preserves_step|].
    preserves_step; [preserves_step|].
    destruct (web_server _ _ _ _); preserves_step.
  - preserves_step; [|preserves_step].
    destruct (_ && _); preserves_step.
Qed.

Lemma preserves_path_exists p : preserves R (path_exists p).
Proof. unfold path_exists. repeat preserves_step. Qed.

Lemma preserves_is_dir p : preserves R (is_dir p).
Proof. unfold is_dir. repeat preserves_step. Qed.

Lemma preserves_read_text p : okE (ReadText p) -> preserves R (read_text p).
Proof.
  intros Hok. unfold read_text.
  preserves_step; [preserves_step|].
  preserves_step; [preserves_step|].
  destruct (stat _ p) as [[|content]|]; preserves_step.
Qed.

Lemma preserves_file_content_matches_existing p content :
  okE (ReadText p) -> preserves R (file_content_matches_existing p content).
Proof.
  intros Hok. unfold file_content_matches_existing.
  preserves_step; [apply preserves_path_exists|].
  preserves_step; [preserves_step|].
  preserves_step; [apply preserves_read_text, Hok|preserves_step].
Qed.

Lemma preserves_write_text p data :
  okE (WriteText p data) -> okP p -> preserves R (write_text p data).
Proof.
  intros HokE HokP env w r w' H. unfold write_text in H.
  unfold bind, ask, get_world, emit, set_fs, raise in H. cbv beta iota in H.
  eapply R_trans; [apply (R_emit w (WriteText p data) HokE)|].
  fold (log_action w (WriteText p data)) in H.
  destruct (stat w p) as [[|old]|], (stat w (parent p)) as [[|other]|];
    try (injection H as _ <-; apply R_refl);
    (destruct (open_error env (length (trace w)) p) as [e|];
       [injection H as _ <-; apply R_refl|]);
    (destruct (has_surrogate data);
       [injection H as _ <-;
        apply (R_write (log_action w (WriteText p data)) p "" HokP)|]);
    (destruct (write_error env (length (trace w)) p data) as [[e written]|];
       injection H as _ <-;
       apply (R_write (log_action w (WriteText p data)) p _ HokP)).
Qed.

Lemma stat_none w p : stat w p = None -> fs w !! p = None.
Proof. unfold stat. destruct (is_anchor p); [discriminate|auto]. Qed.

Lemma preserves_os_mkdir p : preserves R (os_mkdir p).
Proof.
  intros env w r w' H. unfold os_mkdir in H.
  unfold bind, ask, get_world in H. cbv beta iota in H.
  destruct (stat w p) as [node|] eqn:Hp.
  - injection H as _ <-. apply R_refl.
  - destruct (stat w (parent p)) as [[|other]|];
      try (injection H as _ <-; apply R_refl).
    destruct (mkdir_error env (length (trace w)) p) as [e|];
      injection H as _ <-;
      first [apply R_refl | apply R_mkdir, stat_none, Hp].
Qed.

Lemma preserves_mkdir_parents fuel : forall p, preserves R (mkdir_parents fuel p).
Proof.
  induction fuel as [|fuel IH]; intros p; cbn [mkdir_parents];
    (apply preserves_try_except; [apply preserves_os_mkdir|]);
    intros e.
  - destruct e; try (solve [preserves_step]);
      (preserves_step; [apply preserves_is_dir|]); repeat preserves_step.
  - destruct e;
      try ((preserves_step; [apply preserves_is_dir|]); repeat preserves_step).
    preserves_step; [apply IH|].
    apply preserves_try_except; [apply preserves_os_mkdir|].
    intros e'. preserves_step; [apply preserves_is_dir|]. repeat preserves_step.
Qed.

Lemma preserves_mkdir p : okE (MkDir p) -> preserves R (mkdir p).
Proof.
  intros Hok. unfold mkdir. preserves_step; [preserves_step|].
  apply preserves_mkdir_parents.
Qed.

Variable settings : Settings.

Let html_path := joinpath (artifacts_dir settings) (html_file_name settings).
Let ics_path := joinpath (artifacts_dir settings) (ics_file_name settings).

Hypothesis ok_mkdir : okE (MkDir (artifacts_dir settings)).
Hypothesis ok_fetch : okE (HttpGet EVENTS_PAGE []).
Hypothesis ok_read : okE (ReadText html_path).
Hypothesis ok_snapshot : forall data, okE (WriteText html_path data).
Hypothesis ok_log : forall message, okE (LogInfo message).
Hypothesis ok_snapshot_path : okP html_path.

Lemma preserves_change_detection : preserves R (change_detection settings).
Proof.
  unfold change_detection, logger_info.
  preserves_step; [apply preserves_mkdir, ok_mkdir|].
  preserves_step; [apply preserves_get_page_html, ok_fetch|].
  preserves_step; [apply preserves_find_html_events_table|].
  preserves_step; [apply preserves_file_content_matches_existing, ok_read|].
  preserves_step.
  - preserves_step; [apply preserves_emit, ok_log|preserves_step].
  - preserves_step; [|preserves_step].
    apply preserves_write_text; [apply ok_snapshot|apply ok_snapshot_path].
Qed.

Hypothesis ok_request : forall prompt model api_key,
  okE (completion_request prompt model api_key).
Hypothesis ok_calendar : forall data, okE (WriteText ics_path data).
Hypothesis ok_calendar_path : okP ics_path.

Lemma preserves_regenerate fragment : preserves R (regenerate settings fragment).
Proof.
  unfold regenerate, logger_info.
  preserves_step; [apply preserves_get_events_month; intros; apply ok_request|].
  preserves_step;
    [apply preserves_create_events_from_html; intros; apply ok_request|].
  preserves_step; [apply preserves_create_ics_from_events|].
  preserves_step; [|apply preserves_emit, ok_log].
  apply preserves_write_text; [apply ok_calendar|apply ok_calendar_path].
Qed.

Lemma preserves_main : preserves R (main settings).
Proof.
  intros env w r w' H. rewrite main_split in H.
  destruct (change_detection settings env w) as [[[fragment|]|e] w1] eqn:E.
  - eapply R_trans; [eapply preserves_change_detection, E|].
    eapply preserves_regenerate, H.
  - injection H as _ <-. eapply preserves_change_detection, E.
  - injection H as _ <-. eapply preserves_change_detection, E.
Qed.

End Preserves.

(** *** First instance: the actions of a run *)

Lemma extends_by_refl P w : extends_by P w w.
Proof. exists []. split; [symmetry; apply app_nil_r|constructor]. Qed.

Lemma extends_by_trans P w1 w2 w3 :
  extends_by P w1 w2 -> extends_by P w2 w3 -> extends_by P w1 w3.
Proof.
  intros (l1 & H1 & F1) (l2 & H2 & F2). exists (l1 ++ l2). split.
  - rewrite H2, H1. symmetry. apply app_assoc.
  - apply Forall_app. split; assumption.
Qed.

Lemma extends_by_emit P w e : P e -> extends_by P w (log_action w e).
Proof. intros He. exists [e]. split; [reflexivity|]. repeat constructor. exact He. Qed.

Lemma extends_by_same_trace P w w' : trace w' = trace w -> extends_by P w w'.
Proof. intros H. exists []. split; [rewrite H; symmetry; apply app_nil_r|constructor]. Qed.

Lemma extends_by_new_actions P w w' :
  extends_by P w w' -> Forall P (new_actions w w').
Proof.
  intros (l & H & F). unfold new_actions. rewrite H, drop_app_length. exact F.
Qed.

(** Whatever the settings, the environment and the outcome, every action of
    [main] is one of: making the artifacts directory, fetching the fixed
    address without any header, reading the snapshot, writing the snapshot or
    the calendar, posting to the completion service, logging. *)
Lemma main_actions settings env w r w' :
  main settings env w = (r, w') ->
  Forall (orchestrator_action settings) (new_actions w w').
Proof.
  intros H. apply extends_by_new_actions.
  eapply (preserves_main (extends_by (orchestrator_action settings))
            (orchestrator_action settings) (fun _ => True));
    [ apply extends_by_refl
    | apply extends_by_trans
    | apply extends_by_emit
    | intros; apply extends_by_same_trace; reflexivity
    | intros; apply extends_by_same_trace; reflexivity
    | intros; apply extends_by_same_trace; reflexivity
    | reflexivity
    | split; reflexivity
    | reflexivity
    | intros; left; reflexivity
    | intros; exact I
    | exact I
    | intros; reflexivity
    | intros; right; reflexivity
    | exact I
    | exact H ].
Qed.

(** *** Second instance: the files of a run *)

Lemma same_files_but_refl E w : same_files_but E w w.
Proof. intros q _. reflexivity. Qed.

Lemma same_files_but_trans E w1 w2 w3 :
  same_files_but E w1 w2 -> same_files_but E w2 w3 -> same_files_but E w1 w3.
Proof. intros H1 H2 q Hq. rewrite (H2 q Hq). apply H1, Hq. Qed.

Lemma same_files_but_write (E : Path -> Prop) w p data :
  E p -> same_files_but E w (mkWorld (<[p := File data]> (fs w)) (trace w) (draws w)).
Proof.
  intros Hp q Hq. unfold file_at. cbn [fs].
  rewrite lookup_insert_ne; [reflexivity|]. intros ->. exact (Hq Hp).
Qed.

Lemma same_files_but_mkdir (E : Path -> Prop) w (p : list string) :
  fs w !! p = None ->
  same_files_but E w (mkWorld (<[p := Dir]> (fs w)) (trace w) (draws w)).
Proof.
  intros Hp q _. unfold file_at. cbn [fs].
  destruct (decide (p = q)) as [<-|Hne].
  - rewrite lookup_insert_eq, Hp. reflexivity.
  - rewrite lookup_insert_ne by exact Hne. reflexivity.
Qed.

(** The first half of [main] changes no regular file but the snapshot. *)
Lemma same_files_but_emit (E : Path -> Prop) w e :
  same_files_but E w (log_action w e).
Proof. intros q _. reflexivity. Qed.

Lemma same_files_but_draw (E : Path -> Prop) w :
  same_files_but E w (mkWorld (fs w) (trace w) (S (draws w))).
Proof. intros q _. reflexivity. Qed.

Lemma change_detection_files settings env w r w1 :
  change_detection settings env w = (r, w1) ->
  same_files_but
    (fun q => q = joinpath (artifacts_dir settings) (html_file_name settings)) w w1.
Proof.
  intros H.
  eapply (preserves_change_detection
            (same_files_but
               (fun q => q = joinpath (artifacts_dir settings) (html_file_name settings)))
            (fun _ => True)
            (fun q => q = joinpath (artifacts_dir settings) (html_file_name settings)));
    [ apply same_files_but_refl
    | apply same_files_but_trans
    | intros; apply same_files_but_emit
    | apply same_files_but_write
    | apply same_files_but_mkdir
    | exact I | exact I | exact I
    | intros; exact I
    | intros; exact I
    | reflexivity
    | exact H ].
Qed.

(** [main] changes no regular file but the snapshot and the calendar. *)
Lemma main_files settings env w r w' :
  main settings env w = (r, w') ->
  same_files_but
    (fun q => q = joinpath (artifacts_dir settings) (html_file_name settings)
              \/ q = joinpath (artifacts_dir settings) (ics_file_name settings))
    w w'.
Proof.
  intros H.
  eapply (preserves_main
            (same_files_but
               (fun q => q = joinpath (artifacts_dir settings) (html_file_name settings)
                         \/ q = joinpath (artifacts_dir settings) (ics_file_name settings)))
            (fun _ => True)
            (fun q => q = joinpath (artifacts_dir settings) (html_file_name settings)
                      \/ q = joinpath (artifacts_dir settings) (ics_file_name settings)));
    [ apply same_files_but_refl
    | apply same_files_but_trans
    | intros; apply same_files_but_emit
    | apply same_files_but_write
    | apply same_files_but_mkdir
    | apply same_files_but_draw
    | exact I | exact I | exact I
    | intros; exact I
    | intros; exact I
    | left; reflexivity
    | intros; exact I
    | intros; exact I
    | right; reflexivity
    | exact H ].
Qed.

(** C7.  Take a run that is past change detection, with the new table stored
    as the snapshot (world [w1]).  If month resolution raises, or if event
    extraction raises (the completion call, the JSON decoding or the
    validation of any element), then [main] raises the same exception, no
    write is performed after the snapshot, the file system is the one of
    [w1], and every regular file other than the snapshot is as it was before
    the run: the calendar is not written. *)
Theorem calendar_not_written_when_interpretation_fails
    settings env w fragment w1 e :
  change_detection settings env w = (Ok (Some fragment), w1) ->
  (exists w2,
     get_events_month fragment (openrouter_api_key settings)
       (openrouter_model settings) env w1 = (Raise e, w2))
  \/ (exists month w2 w3,
        get_events_month fragment (openrouter_api_key settings)
          (openrouter_model settings) env w1 = (Ok month, w2)
        /\ create_events_from_html fragment month (openrouter_api_key settings)
             (openrouter_model settings) env w2 = (Raise e, w3)) ->
  exists w',
    main settings env w = (Raise e, w')
    /\ filter is_write (new_actions w1 w') = []
    /\ fs w' = fs w1
    /\ (forall q,
          q <> joinpath (artifacts_dir settings) (html_file_name settings) ->
          file_at w' q = file_at w q).
Proof.
  intros Hdetect Hfail.
  destruct (regenerate_failure settings fragment env w1 e Hfail)
    as (w' & Hrun & Hfs & Hwrites).
  exists w'. split; [rewrite main_split, Hdetect; exact Hrun|].
  split; [exact Hwrites|]. split; [exact Hfs|].
  intros q Hq. unfold file_at. rewrite Hfs.
  exact (change_detection_files settings env w _ w1 Hdetect q Hq).
Qed.

(** A run in which the completion service answers the question for the month
    with the word July. *)
Lemma calendar_not_written_when_interpretation_fails_witness :
  let env := sample_env page_plain "July" market_day_reply in
  let fragment := "<table><tr><td>Market Day 4 March 8am-4pm</td></tr></table>" in
  let w := world_after_a_run "<table></table>" in
  let w1 := (change_detection sample_settings env w).2 in
  let w2 := (get_events_month fragment (openrouter_api_key sample_settings)
               (openrouter_model sample_settings) env w1).2 in
  change_detection sample_settings env w = (Ok (Some fragment), w1)
  /\ get_events_month fragment (openrouter_api_key sample_settings)
       (openrouter_model sample_settings) env w1 = (Raise ValueError, w2)
  /\ exists w',
       main sample_settings env w = (Raise ValueError, w')
       /\ filter is_write (new_actions w1 w') = []
       /\ fs w' = fs w1
       /\ (forall q,
             q <> joinpath (artifacts_dir sample_settings)
                    (html_file_name sample_settings) ->
             file_at w' q = file_at w q).
Proof.
  intros env fragment w w1 w2.
  assert (Hdetect : change_detection sample_settings env w
                    = (Ok (Some fragment), w1)) by (vm_compute; reflexivity).
  assert (Hmonth : get_events_month fragment (openrouter_api_key sample_settings)
                     (openrouter_model sample_settings) env w1
                   = (Raise ValueError, w2)) by (vm_compute; reflexivity).
  split; [exact Hdetect|]. split; [exact Hmonth|].
  exact (calendar_not_written_when_interpretation_fails sample_settings env w
           fragment w1 ValueError Hdetect
           (or_introl (ex_intro _ w2 Hmonth))).
Defined.

(** The fetch of [main] does not depend on the settings. *)
Lemma main_page_fetches settings env w r w' :
  main settings env w = (r, w') ->
  Forall (fun e => is_page_fetch e = true -> e = HttpGet EVENTS_PAGE [])
    (new_actions w w').
Proof.
  intros H. eapply Forall_impl; [apply (main_actions settings env w r w' H)|].
  intros [url headers| | | | |] Hok Hfetch; try discriminate.
  destruct Hok as [-> ->]. reflexivity.
Qed.

(** With a user agent given, the Fetcher does send it. *)
Lemma get_page_html_sends_user_agent url user_agent rest env w :
  exists r,
    get_page_html url (Some (String user_agent rest)) env w
    = (r, log_action w (HttpGet url [("User-Agent", String user_agent rest)])).
Proof.
  unfold get_page_html, httpx_get, raise_for_status.
  unfold bind, ask, clock_tick, emit, ret, raise, log_action. cbv beta iota.
  destruct (web_server env _ _ _) as [response|]; [|eexists; reflexivity].
  destruct (_ && _); eexists; reflexivity.
Qed.

(** C5 (the code at the failing input).  The settings name the page
    https://example.org/whats-on and the user agent KirkgateCalendarBot/1.0;
    the one GET of the run goes to
    https://markets.leeds.gov.uk/whats-kirkgate and carries no header. *)
Theorem main_ignores_configured_url_and_user_agent :
  events_page_url sample_settings = "https://example.org/whats-on"
  /\ scraper_user_agent sample_settings = "KirkgateCalendarBot/1.0"
  /\ (main sample_settings plain_env empty_world).1 = Ok tt
  /\ filter is_page_fetch (trace (main sample_settings plain_env empty_world).2)
     = [ HttpGet "https://markets.leeds.gov.uk/whats-kirkgate" [] ].
Proof. vm_compute. repeat split. Qed.

(** *** Third instance: a run that stops at change detection *)

Lemma quiet_refl w : quiet w w.
Proof. split; [apply extends_by_refl|apply same_files_but_refl]. Qed.

Lemma quiet_trans w1 w2 w3 : quiet w1 w2 -> quiet w2 w3 -> quiet w1 w3.
Proof.
  intros [H1 F1] [H2 F2].
  split; [eapply extends_by_trans|eapply same_files_but_trans]; eassumption.
Qed.

Lemma quiet_emit w e :
  is_write e = false /\ is_completion_call e = false -> quiet w (log_action w e).
Proof. intros He. split; [apply extends_by_emit, He|apply same_files_but_emit]. Qed.

Lemma quiet_mkdir w (p : list string) :
  fs w !! p = None -> quiet w (mkWorld (<[p := Dir]> (fs w)) (trace w) (draws w)).
Proof.
  intros Hp. split; [apply extends_by_same_trace; reflexivity|].
  apply same_files_but_mkdir, Hp.
Qed.

(** When change detection finds the snapshot unchanged, [main] ends
    successfully there: it has fetched the page, it has called the completion
    service not once, it has written nothing, and every regular file is as it
    was. *)
Lemma main_stops_when_unchanged settings env w w1 :
  change_detection settings env w = (Ok None, w1) ->
  main settings env w = (Ok tt, w1)
  /\ filter is_completion_call (new_actions w w1) = []
  /\ filter is_write (new_actions w w1) = []
  /\ (forall q, file_at w1 q = file_at w q).
Proof.
  intros Hdetect. split; [rewrite main_split, Hdetect; reflexivity|].
  assert (Hquiet : quiet w w1).
  { revert Hdetect. unfold change_detection, bind.
    destruct (mkdir (artifacts_dir settings) env w) as [[[]|e] w0] eqn:E0;
      [|discriminate].
    destruct (get_page_html EVENTS_PAGE None env w0) as [[html|e] wa] eqn:E1;
      [|discriminate].
    destruct (find_html_events_table html env wa) as [[table|e] wb] eqn:E2;
      [|discriminate].
    destruct (file_content_matches_existing _ table env wb) as [[[|]|e] wc] eqn:E3;
      [| |discriminate].
    - unfold logger_info, emit, ret. intros H. injection H as <-.
      eapply quiet_trans;
        [eapply (preserves_mkdir quiet _ quiet_refl quiet_trans quiet_emit
                   quiet_mkdir), E0; split; reflexivity|].
      eapply quiet_trans;
        [eapply (preserves_get_page_html quiet _ quiet_refl quiet_trans quiet_emit),
           E1; split; reflexivity|].
      eapply quiet_trans;
        [eapply (preserves_find_html_events_table quiet quiet_refl quiet_trans), E2|].
      eapply quiet_trans;
        [eapply (preserves_file_content_matches_existing quiet _ quiet_refl
                   quiet_trans quiet_emit), E3; split; reflexivity|].
      apply quiet_emit. split; reflexivity.
    - destruct (write_text _ table env wc) as [[[]|e] wd]; discriminate. }
  destruct Hquiet as [Hactions Hfiles].
  apply extends_by_new_actions in Hactions.
  split; [|split].
  - induction Hactions as [|e l [_ He] _ IH]; [reflexivity|].
    cbn [filter]. unfold filter in IH |- *. cbn. rewrite He. exact IH.
  - induction Hactions as [|e l [He _] _ IH]; [reflexivity|].
    unfold filter in IH |- *. cbn. rewrite He. exact IH.
  - intros q. apply Hfiles. tauto.
Qed.

(** C6 (the code at the failing input).  The page is unchanged since the
    last run and its table has CR LF line ends: the table cut out of the page
    is, byte for byte, the content of the snapshot file.  The run none the
    less writes the snapshot again, calls the completion service twice and
    writes a new calendar. *)
Theorem unchanged_table_with_crlf_is_processed_again :
  let w := world_after_a_run table_crlf in
  let run := main sample_settings crlf_env w in
  find_html_events_table page_crlf crlf_env w = (Ok table_crlf, w)
  /\ file_at w snapshot_path = Some table_crlf
  /\ run.1 = Ok tt
  /\ length (filter is_page_fetch (new_actions w run.2)) = 1%nat
  /\ length (filter is_completion_call (new_actions w run.2)) = 2%nat
  /\ map (fun e => match e with WriteText p _ => p | _ => [] end)
       (filter is_write (new_actions w run.2))
     = [ snapshot_path; calendar_path ]
  /\ file_at w calendar_path = Some "BEGIN:VCALENDAR"
  /\ file_at run.2 calendar_path <> file_at w calendar_path.
Proof.
  vm_compute. repeat split. discriminate.
Qed.

(** * Further properties *)

(** ** Fetcher *)

(** The headers [get_page_html] sends. *)
Lemma get_page_html_run url user_agent env w :
  let headers := match user_agent with
                 | Some (String _ _ as ua) => [("User-Agent", ua)]
                 | Some "" | None => []
                 end in
  get_page_html url user_agent env w
  = (match web_server env (length (trace w)) url headers with
     | NetFailure => Raise TransportError
     | Replied response =>
         if (200 <=? status_code response) && (status_code response <=? 299)
         then Ok (text response)
         else Raise (HTTPStatusError (status_code response) (text response))
     end, log_action w (HttpGet url headers)).
Proof.
  intros headers. unfold get_page_html. fold headers.
  unfold httpx_get, raise_for_status.
  unfold bind, ask, clock_tick, emit, ret, raise, log_action. cbv beta iota.
  destruct (web_server env _ _ _) as [response|]; [|reflexivity].
  destruct (_ && _); reflexivity.
Qed.

(** X1.  One call of [get_page_html]: one GET is recorded, with the User-Agent
    header when a user agent is given and is not the empty text, and without
    any header otherwise; nothing else changes.  The body is returned when
    the status lies in [200, 299]; any other status, a redirect included
    (nothing follows it), raises [HTTPStatusError] with the status and the
    body of the reply. *)
Theorem get_page_html_outcome url user_agent env w :
  exists headers r,
    get_page_html url user_agent env w = (r, log_action w (HttpGet url headers))
    /\ ((headers = [] /\ (user_agent = None \/ user_agent = Some ""))
        \/ (exists ua, user_agent = Some ua /\ ua <> ""
                       /\ headers = [("User-Agent", ua)]))
    /\ match web_server env (length (trace w)) url headers with
       | NetFailure => r = Raise TransportError
       | Replied response =>
           (200 <= status_code response <= 299 /\ r = Ok (text response))
           \/ (~ 200 <= status_code response <= 299
               /\ r = Raise (HTTPStatusError (status_code response) (text response)))
       end.
Proof.
  pose proof (get_page_html_run url user_agent env w) as Hrun. cbv zeta in Hrun.
  eexists _, _. split; [exact Hrun|]. split.
  - destruct user_agent as [[|c rest]|].
    + left. split; [reflexivity|right; reflexivity].
    + right. eexists. repeat split. discriminate.
    + left. split; [reflexivity|left; reflexivity].
  - destruct (web_server env _ _ _) as [response|]; [|reflexivity].
    destruct ((200 <=? status_code response) && (status_code response <=? 299)) eqn:E.
    + left. apply andb_true_iff in E. split; [lia|reflexivity].
    + right. apply andb_false_iff in E. split; [lia|reflexivity].
Qed.

(** ** Table Extractor *)

Lemma list_find_app {A} (f : A -> bool) (a b : list A) :
  List.find f (a ++ b)
  = match List.find f a with
    | Some x => Some x
    | None => List.find f b
    end.
Proof.
  induction a as [|x a IH]; [reflexivity|].
  cbn [app List.find]. destruct (f x); [reflexivity|exact IH].
Qed.

Lemma find_in_first name : forall e,
  find_in name e = List.find (is_tag_named name) (self_and_descendants e).
Proof.
  fix IH 1. intros [n attrs contents| |]; [|reflexivity|reflexivity].
  cbn [find_in self_and_descendants List.find is_tag_named].
  destruct (String.eqb n name); [reflexivity|].
  induction contents as [|e es IHes]; [reflexivity|].
  rewrite IH. rewrite list_find_app. destruct (List.find _ (self_and_descendants e)); [reflexivity|].
  exact IHes.
Qed.

Lemma find_first name contents :
  find name contents = List.find (is_tag_named name) (descendants contents).
Proof.
  induction contents as [|e es IH]; [reflexivity|].
  cbn [find descendants]. rewrite find_in_first, list_find_app.
  destruct (List.find _ (self_and_descendants e)); [reflexivity|exact IH].
Qed.

(** X2.  [find_html_events_table] walks the document in document order: it stops
    at the first tag called main, and below it at the first tag called table,
    whose markup it returns.  Tables that are not below that first main are
    never returned; without a table below it the text None is returned, and
    without any main [AttributeError] is raised.  The world is not touched. *)
Theorem find_html_events_table_document_order html env w :
  find_html_events_table html env w
  = (match List.find (is_tag_named "main") (descendants (html_parser env html)) with
     | Some (Tag _ _ contents) =>
         Ok (match List.find (is_tag_named "table") (descendants contents) with
             | Some table => decode env table
             | None => "None"
             end)
     | _ => Raise AttributeError
     end, w).
Proof.
  unfold find_html_events_table, bind, ask. cbv beta iota.
  rewrite find_first.
  destruct (List.find _ (descendants (html_parser env html)))
    as [[n attrs contents| |]|]; try reflexivity.
  rewrite find_first. unfold ret, py_str.
  destruct (List.find _ (descendants contents)); reflexivity.
Qed.

(** ** Completion Client *)

(** X3.  A reply with a 2xx status whose body is a JSON object without the key
    choices (the shape of an error report of the service) raises [KeyError];
    with an empty list of choices it raises [IndexError]; a body that is JSON
    but no object raises [TypeError].  None of them is turned into
    [HTTPStatusError], which is kept for a status outside [200, 299]: then the
    body is not even decoded.  In every case exactly the one request is
    recorded. *)
Theorem get_openrouter_response_errors prompt model api_key env w response :
  service_answer env w prompt model api_key = Replied response ->
  exists r,
    get_openrouter_response prompt model api_key env w
    = (r, log_action w (completion_request prompt model api_key))
    /\ (~ 200 <= status_code response <= 299 ->
        r = Raise (HTTPStatusError (status_code response) (text response)))
    /\ (200 <= status_code response <= 299 ->
        forall parsed, response_json response = Ok parsed ->
          match parsed with
          | JObject members =>
              match dict_get "choices" members with
              | None => r = Raise KeyError
              | Some (JArray []) => r = Raise IndexError
              | Some (JArray (JObject choice :: _)) =>
                  match dict_get "message" choice with
                  | None => r = Raise KeyError
                  | Some (JObject message) =>
                      match dict_get "content" message with
                      | None => r = Raise KeyError
                      | Some content => r = Ok content
                      end
                  | Some _ => r = Raise TypeError
                  end
              | Some (JArray (_ :: _)) => r = Raise TypeError
              | Some (JObject _) => r = Raise KeyError
              | Some (JString "") => r = Raise IndexError
              | Some _ => r = Raise TypeError
              end
          | _ => r = Raise TypeError
          end).
Proof.
  intros Hreply. eexists. split; [apply get_openrouter_response_run|].
  rewrite Hreply. unfold reply_content. split.
  - intros Hstatus.
    destruct ((200 <=? status_code response) && (status_code response <=? 299)) eqn:E;
      [apply andb_true_iff in E; lia|reflexivity].
  - intros Hstatus parsed Hparsed.
    replace ((200 <=? status_code response) && (status_code response <=? 299))
      with true by (symmetry; apply andb_true_iff; lia).
    rewrite Hparsed.
    destruct parsed as [| | | | |items|members]; try reflexivity.
    cbn [getitem]. destruct (dict_get "choices" members) as [choices|]; [|reflexivity].
    destruct choices as [| | | |[|c s]|[|[| | | | | |choice] rest]|]; try reflexivity.
    cbn [getitem0 getitem].
    destruct (dict_get "message" choice) as [message|]; [|reflexivity].
    destruct message as [| | | | | |message]; try reflexivity.
    cbn [getitem]. destruct (dict_get "content" message); reflexivity.
Qed.

(** An error report of the service, sent with status 200. *)
Lemma get_openrouter_response_errors_witness :
  let env :=
    env_answering NetFailure
      (Replied (mkResponse 200
         (quoted "{'error':{'message':'Rate limit exceeded','code':429}}"))) in
  get_openrouter_response "Which month?" "some/model" "sk-or-sample" env empty_world
  = (Raise KeyError,
     log_action empty_world
       (completion_request "Which month?" "some/model" "sk-or-sample")).
Proof.
  intros env.
  destruct (get_openrouter_response_errors "Which month?" "some/model"
              "sk-or-sample" env empty_world
              (mkResponse 200
                 (quoted "{'error':{'message':'Rate limit exceeded','code':429}}"))
              eq_refl) as (r & Hrun & _ & Hok).
  rewrite Hrun. f_equal.
  assert (Hstatus : 200 <= 200 <= 299) by lia.
  exact (Hok Hstatus
           (JObject [("error", JObject [("message", JString "Rate limit exceeded");
                                        ("code", JInt 429)])])
           ltac:(vm_compute; reflexivity)).
Defined.

(** ** Month Resolver and Event Extractor: what is done with the reply *)

(** X4.  When the service puts something else than a text at the place of the
    content (a JSON null, as for a refused request): [get_events_month] raises
    [TypeError] on null, lists and objects, and passes a number through
    unchanged; [create_events_from_html] raises [TypeError] whatever the value
    is. *)
Theorem completion_content_not_a_text env w html month month_cal api_key model
    content w1 w2 :
  (forall s, content <> JString s) ->
  formatmonth 2025 month = Ok month_cal ->
  get_openrouter_response (month_prompt html) model api_key env w
  = (Ok content, w1) ->
  get_openrouter_response (events_prompt month_cal html) model api_key env w
  = (Ok content, w2) ->
  create_events_from_html html month api_key model env w = (Raise TypeError, w2)
  /\ match content with
     | JNull | JArray _ | JObject _ =>
         get_events_month html api_key model env w = (Raise TypeError, w1)
     | JInt n => get_events_month html api_key model env w = (Ok n, w1)
     | _ => True
     end.
Proof.
  intros Hcontent Hcal Hmonth Hevents. split.
  - rewrite create_events_from_html_run, Hcal.
    rewrite get_openrouter_response_run in Hevents.
    injection Hevents as -> ->.
    destruct content; try reflexivity. exfalso. eapply Hcontent. reflexivity.
  - rewrite get_events_month_run.
    rewrite get_openrouter_response_run in Hmonth.
    injection Hmonth as -> ->.
    destruct content; try reflexivity; exact I.
Qed.

Lemma completion_content_not_a_text_witness :
  let env :=
    env_answering NetFailure
      (Replied (mkResponse 200
         (quoted "{'choices':[{'message':{'role':'assistant','content':null}}]}"))) in
  create_events_from_html "<table></table>" 3 "sk-or-sample" "some/model" env
    empty_world
  = (Raise TypeError,
     log_action empty_world
       (completion_request (events_prompt march_2025 "<table></table>")
          "some/model" "sk-or-sample"))
  /\ get_events_month "<table></table>" "sk-or-sample" "some/model" env empty_world
     = (Raise TypeError,
        log_action empty_world
          (completion_request (month_prompt "<table></table>")
             "some/model" "sk-or-sample")).
Proof.
  intros env.
  refine (completion_content_not_a_text env empty_world "<table></table>" 3
            march_2025 "sk-or-sample" "some/model" JNull _ _ _ _ _ _).
  - intros s. discriminate.
  - vm_compute. reflexivity.
  - vm_compute. reflexivity.
  - vm_compute. reflexivity.
Defined.

(** X5.  A month outside [1, 12] stops [create_events_from_html] before anything is
    sent: the calendar of the month cannot be printed, the exception is that
    of [formatmonth] ([IndexError] from 13 on and below -13, where the table
    of month names ends, [IllegalMonthError] from -13 to 0), and the world is
    as it was, without a request. *)
Theorem create_events_from_html_month_out_of_range html month api_key model env w :
  ~ 1 <= month <= 12 ->
  exists e,
    create_events_from_html html month api_key model env w = (Raise e, w)
    /\ (13 <= month \/ month < -13 -> e = IndexError)
    /\ (-13 <= month <= 0 -> e = IllegalMonthError).
Proof.
  intros Hmonth. rewrite create_events_from_html_run. unfold formatmonth.
  destruct ((13 <=? month) || (month <? -13)) eqn:E.
  - eexists. split; [reflexivity|]. split; [reflexivity|].
    apply orb_true_iff in E. lia.
  - replace ((1 <=? month) && (month <=? 12)) with false
      by (symmetry; apply andb_false_iff; lia).
    eexists. split; [reflexivity|]. split; [|reflexivity].
    apply orb_false_iff in E. lia.
Qed.

(** The month 13, which [get_events_month] can return. *)
Lemma create_events_from_html_month_out_of_range_witness :
  create_events_from_html "<table></table>" 13 "sk-or-sample" "some/model"
    plain_env empty_world
  = (Raise IndexError, empty_world).
Proof.
  assert (Hmonth : ~ 1 <= 13 <= 12) by lia.
  destruct (create_events_from_html_month_out_of_range "<table></table>" 13
              "sk-or-sample" "some/model" plain_env empty_world Hmonth)
    as (e & Hrun & Hindex & _).
  rewrite Hrun, Hindex by lia. reflexivity.
Defined.

(** ** Event Extractor: validation *)

Lemma map_result_Forall2 {A B} (f : A -> result B) xs ys :
  map_result f xs = Ok ys <-> Forall2 (fun x y => f x = Ok y) xs ys.
Proof.
  revert ys. induction xs as [|x xs IH]; intros ys; cbn [map_result].
  - split.
    + intros H. injection H as <-. constructor.
    + intros H. inversion H. reflexivity.
  - split.
    + destruct (f x) as [y|e] eqn:Ex; [|discriminate].
      destruct (map_result f xs) as [ys'|e]; [|discriminate].
      intros H. injection H as <-. constructor; [exact Ex|]. apply IH. reflexivity.
    + intros H. inversion H as [|x' y xs' ys' Hx Hrest]; subst.
      rewrite Hx. apply IH in Hrest. rewrite Hrest. reflexivity.
Qed.

Lemma map_result_raises {A B} (f : A -> result B) e0 xs :
  (forall x e, f x = Raise e -> e = e0) ->
  forall x, In x xs -> (forall y, f x <> Ok y) -> map_result f xs = Raise e0.
Proof.
  intros Hf x Hin Hx. induction xs as [|x' xs IH]; [destruct Hin|].
  cbn [map_result]. destruct (f x') as [y|e] eqn:Ex'.
  - destruct Hin as [->|Hin]; [exfalso; eapply Hx, Ex'|].
    rewrite (IH Hin). reflexivity.
  - rewrite (Hf x' e Ex'). reflexivity.
Qed.

Lemma required_raises {A} (validate : json -> result A) field members e :
  required validate field members = Raise e -> e = ValidationError.
Proof.
  unfold required. destruct (dict_get field members) as [v|]; [|congruence].
  destruct (validate v); congruence.
Qed.

(** Whatever is wrong with an element, the exception is [ValidationError]. *)
Lemma model_validate_raises env obj e :
  model_validate env obj = Raise e -> e = ValidationError.
Proof.
  destruct obj as [| | | | | |members]; cbn [model_validate]; try congruence.
  destruct (required (validate_date env) "date" members); [|congruence].
  destruct (required validate_str "title" members); [|congruence].
  destruct (dict_get "description" members) as [[| | | | | |]|];
    try congruence;
    (destruct (required (validate_time env) "start_time" members); [|congruence]);
    (destruct (required (validate_time env) "end_time" members); congruence).
Qed.

(** X6.  The list comprehension of [create_events_from_html] is all or nothing.
    With the reply decoded and walked through as [items], the call returns
    [events] exactly when [events] holds, in the same order and in the same
    number, the validated form of every item; as soon as one item is not
    accepted by [Event.model_validate] the call raises [ValidationError] and
    no event is returned, those of the valid items included. *)
Theorem create_events_from_html_validates_every_element
    env w html month api_key model month_cal reply parsed items w1 :
  formatmonth 2025 month = Ok month_cal ->
  get_openrouter_response (events_prompt month_cal html) model api_key env w
  = (Ok (JString reply), w1) ->
  json_loads reply = Ok parsed ->
  py_iter parsed = Ok items ->
  (forall events,
     create_events_from_html html month api_key model env w = (Ok events, w1)
     <-> Forall2 (fun item event => model_validate env item = Ok event) items events)
  /\ (forall item,
        In item items -> (forall event, model_validate env item <> Ok event) ->
        create_events_from_html html month api_key model env w
        = (Raise ValidationError, w1)).
Proof.
  intros Hcal Hreply Hparsed Hitems.
  rewrite create_events_from_html_run, Hcal.
  rewrite get_openrouter_response_run in Hreply. injection Hreply as -> ->.
  unfold events_of_reply. cbn [json_loads_value]. rewrite Hparsed, Hitems.
  split.
  - intros events. rewrite <- map_result_Forall2. split.
    + intros H. injection H as ->. reflexivity.
    + intros ->. reflexivity.
  - intros item Hin Hbad. f_equal.
    eapply map_result_raises; [apply model_validate_raises|exact Hin|exact Hbad].
Qed.

(** The example of the spec: one item, one event. *)
Lemma create_events_from_html_validates_every_element_witness :
  let html := "<table></table>" in
  let w1 := log_action empty_world
              (completion_request (events_prompt march_2025 html)
                 "some/model" "sk-or-sample") in
  json_loads market_day_json = Ok (JArray [market_day_item])
  /\ create_events_from_html html 3 "sk-or-sample" "some/model" plain_env
       empty_world = (Ok [market_day], w1).
Proof.
  intros html w1.
  assert (Hparsed : json_loads market_day_json = Ok (JArray [market_day_item]))
    by (vm_compute; reflexivity).
  split; [exact Hparsed|].
  refine (proj2 (proj1 (create_events_from_html_validates_every_element plain_env
                          empty_world html 3 "sk-or-sample" "some/model" march_2025
                          market_day_json (JArray [market_day_item])
                          [market_day_item] w1 _ _ Hparsed eq_refl)
                   [market_day]) _).
  - vm_compute. reflexivity.
  - vm_compute. reflexivity.
  - repeat constructor.
Defined.

(** X7.  A reply that is valid JSON but no list.  An object is walked through by
    its keys and a text by its characters, none of which is an event: the
    call raises [ValidationError], except for the empty object and the empty
    text, which give an empty list of events and no error.  A number, a
    truth value or null cannot be walked through: [TypeError]. *)
Theorem create_events_from_html_reply_not_a_list
    env w html month api_key model month_cal reply parsed w1 :
  formatmonth 2025 month = Ok month_cal ->
  get_openrouter_response (events_prompt month_cal html) model api_key env w
  = (Ok (JString reply), w1) ->
  json_loads reply = Ok parsed ->
  match parsed with
  | JArray [] | JObject [] | JString "" =>
      create_events_from_html html month api_key model env w = (Ok [], w1)
  | JArray (_ :: _) => True
  | JObject (_ :: _) | JString (String _ _) =>
      create_events_from_html html month api_key model env w
      = (Raise ValidationError, w1)
  | JNull | JBool _ | JInt _ | JFloat _ =>
      create_events_from_html html month api_key model env w
      = (Raise TypeError, w1)
  end.
Proof.
  intros Hcal Hreply Hparsed.
  rewrite create_events_from_html_run, Hcal.
  rewrite get_openrouter_response_run in Hreply. injection Hreply as -> ->.
  unfold events_of_reply. cbn [json_loads_value]. rewrite Hparsed.
  destruct parsed as [| | | |[|c s]|[|item items]|[|[k v] members]];
    try reflexivity; exact I.
Qed.

(** The reply is the empty object. *)
Lemma create_events_from_html_reply_not_a_list_witness :
  let env :=
    env_answering NetFailure
      (Replied (mkResponse 200
         (quoted "{'choices':[{'message':{'role':'assistant','content':'{}'}}]}"))) in
  create_events_from_html "<table></table>" 3 "sk-or-sample" "some/model" env
    empty_world
  = (Ok [],
     log_action empty_world
       (completion_request (events_prompt march_2025 "<table></table>")
          "some/model" "sk-or-sample")).
Proof.
  intros env.
  refine (create_events_from_html_reply_not_a_list env empty_world
            "<table></table>" 3 "sk-or-sample" "some/model" march_2025 "{}"
            (JObject []) _ _ _ _).
  - vm_compute. reflexivity.
  - vm_compute. reflexivity.
  - vm_compute. reflexivity.
Defined.

(** *** The fields of an event *)

Lemma dict_get_dict_set_ne k k' v members :
  k <> k' -> dict_get k' (dict_set k v members) = dict_get k' members.
Proof.
  intros Hne. induction members as [|[k0 v0] members IH].
  - cbn [dict_set dict_get]. apply String.eqb_neq in Hne. rewrite Hne. reflexivity.
  - cbn [dict_set]. destruct (String.eqb k0 k) eqn:E0.
    + apply String.eqb_eq in E0. subst k0. cbn [dict_get].
      apply String.eqb_neq in Hne. rewrite Hne. reflexivity.
    + cbn [dict_get]. rewrite IH. reflexivity.
Qed.

Lemma dict_get_dict_set_eq k v members :
  dict_get k (dict_set k v members) = Some v.
Proof.
  induction members as [|[k0 v0] members IH].
  - cbn [dict_set dict_get]. rewrite String.eqb_refl. reflexivity.
  - cbn [dict_set]. destruct (String.eqb k0 k) eqn:E0.
    + cbn [dict_get]. rewrite String.eqb_refl. reflexivity.
    + cbn [dict_get]. rewrite E0. exact IH.
Qed.

(** What [Event.model_validate] makes of a dict depends on the five fields
    only. *)
Lemma model_validate_fields env members members' :
  (forall field, In field event_fields ->
                 dict_get field members' = dict_get field members) ->
  model_validate env (JObject members') = model_validate env (JObject members).
Proof.
  intros H. unfold model_validate, required.
  rewrite !H by (unfold event_fields; cbn [In]; tauto). reflexivity.
Qed.

(** X8.  Keys that are no field of [Event] are ignored: an element of the reply
    with one more member, under any other key and with any value, is
    validated to the same event, or refused the same way. *)
Theorem model_validate_ignores_unknown_keys env members k v :
  ~ In k event_fields ->
  model_validate env (JObject (dict_set k v members))
  = model_validate env (JObject members).
Proof.
  intros Hk. apply model_validate_fields. intros field Hfield.
  apply dict_get_dict_set_ne. intros ->. exact (Hk Hfield).
Qed.

(** The element of the example with a location added. *)
Lemma model_validate_ignores_unknown_keys_witness :
  model_validate plain_env
    (JObject [ ("date", JString "2025-03-04");
               ("title", JString "Market Day");
               ("description", JNull);
               ("start_time", JString "08:00:00");
               ("end_time", JString "16:00:00");
               ("location", JString "Hall 2") ])
  = Ok market_day.
Proof.
  assert (Hk : ~ In "location" event_fields).
  { unfold event_fields. cbn [In]. intros H.
    repeat (destruct H as [H|H]; [discriminate H|]). exact H. }
  pose proof (model_validate_ignores_unknown_keys plain_env
                [ ("date", JString "2025-03-04");
                  ("title", JString "Market Day");
                  ("description", JNull);
                  ("start_time", JString "08:00:00");
                  ("end_time", JString "16:00:00") ]
                "location" (JString "Hall 2") Hk) as H.
  etransitivity; [exact H|]. vm_compute. reflexivity.
Defined.

(** The fields are validated one after the other. *)
Lemma model_validate_chain env members :
  model_validate env (JObject members)
  = match required (validate_date env) "date" members with
    | Raise _ => Raise ValidationError
    | Ok d =>
        match required validate_str "title" members with
        | Raise _ => Raise ValidationError
        | Ok t =>
            match validate_description members with
            | Raise _ => Raise ValidationError
            | Ok descr =>
                match required (validate_time env) "start_time" members with
                | Raise _ => Raise ValidationError
                | Ok st =>
                    match required (validate_time env) "end_time" members with
                    | Raise _ => Raise ValidationError
                    | Ok en => Ok (mkEvent d t descr st en)
                    end
                end
            end
        end
    end.
Proof.
  cbn [model_validate]. unfold validate_description.
  destruct (required (validate_date env) "date" members); [|reflexivity].
  destruct (required validate_str "title" members); [|reflexivity].
  destruct (dict_get "description" members) as [[| | | | | |]|];
    try reflexivity;
    (destruct (required (validate_time env) "start_time" members); [|reflexivity]);
    (destruct (required (validate_time env) "end_time" members); reflexivity).
Qed.

(** X9.  Of the five fields only the description may be left out.  Without one of
    date, title, start_time and end_time the element is refused with
    [ValidationError], whatever the other members are; without a description,
    or with null for it, the event has no description; a title that is not a
    text, or a description that is neither a text nor null (a number whole or
    not, a truth value, a list, an object), is refused too.  And an element
    is accepted when it can be: with a date written YYYY-MM-DD, a text for
    the title and times written HH:MM:SS, the event made has that date, that
    title and those times, and for its description the text given, or none
    for null or a missing one; only a description of another kind has the
    element refused then. *)
Theorem model_validate_required_fields env members :
  (forall field,
     In field [ "date"; "title"; "start_time"; "end_time" ] ->
     dict_get field members = None ->
     model_validate env (JObject members) = Raise ValidationError)
  /\ (forall event,
        dict_get "description" members = None
        \/ dict_get "description" members = Some JNull ->
        model_validate env (JObject members) = Ok event ->
        description event = None)
  /\ (forall field v,
        dict_get field members = Some v ->
        (forall s, v <> JString s) ->
        field = "title" \/ (field = "description" /\ v <> JNull) ->
        model_validate env (JObject members) = Raise ValidationError)
  /\ (forall date_text d title_text start_text st end_text en,
        dict_get "date" members = Some (JString date_text) ->
        parse_iso_date date_text = Some d ->
        dict_get "title" members = Some (JString title_text) ->
        dict_get "start_time" members = Some (JString start_text) ->
        parse_iso_time start_text = Some st ->
        dict_get "end_time" members = Some (JString end_text) ->
        parse_iso_time end_text = Some en ->
        model_validate env (JObject members)
        = match dict_get "description" members with
          | None | Some JNull => Ok (mkEvent d title_text None st en)
          | Some (JString s) => Ok (mkEvent d title_text (Some s) st en)
          | Some _ => Raise ValidationError
          end).
Proof.
  rewrite model_validate_chain. unfold validate_description.
  split; [|split; [|split]].
  - intros field Hfield Hnone. cbn [In] in Hfield.
    destruct Hfield as [<-|[<-|[<-|[<-|[]]]]]; unfold required at 1.
    + rewrite Hnone. reflexivity.
    + destruct (dict_get "date" members) as [v|]; [|reflexivity].
      destruct (validate_date env v); [|reflexivity].
      unfold required at 1. rewrite Hnone. reflexivity.
    + destruct (dict_get "date" members) as [v|]; [|reflexivity].
      destruct (validate_date env v); [|reflexivity].
      destruct (required _ "title" members); [|reflexivity].
      destruct (match dict_get "description" members with
                | Some (JString s) => _ | Some JNull => _ | Some _ => _ | None => _
                end); [|reflexivity].
      unfold required at 1. rewrite Hnone. reflexivity.
    + destruct (dict_get "date" members) as [v|]; [|reflexivity].
      destruct (validate_date env v); [|reflexivity].
      destruct (required _ "title" members); [|reflexivity].
      destruct (match dict_get "description" members with
                | Some (JString s) => _ | Some JNull => _ | Some _ => _ | None => _
                end); [|reflexivity].
      destruct (required _ "start_time" members); [|reflexivity].
      unfold required at 1. rewrite Hnone. reflexivity.
  - intros event Hdescr.
    destruct (required _ "date" members); [|discriminate].
    destruct (required _ "title" members); [|discriminate].
    destruct Hdescr as [-> | ->];
      (destruct (required _ "start_time" members); [|discriminate]);
      (destruct (required _ "end_time" members); [|discriminate]);
      intros H; injection H as <-; reflexivity.
  - intros field v Hget Htext Hfield.
    destruct (required _ "date" members); [|reflexivity].
    destruct Hfield as [-> | [-> Hnull]].
    + unfold required at 1. rewrite Hget.
      destruct v; try reflexivity. exfalso. exact (Htext s eq_refl).
    + destruct (required _ "title" members); [|reflexivity].
      rewrite Hget. destruct v; try reflexivity.
      * exfalso. exact (Hnull eq_refl).
      * exfalso. exact (Htext s eq_refl).
  - intros date_text d title_text start_text st end_text en
      Hdate Hd Htitle Hstart Hst Hend Hen.
    unfold required. rewrite Hdate, Htitle, Hstart, Hend.
    cbn [validate_date validate_str validate_time]. rewrite Hd, Hst, Hen.
    destruct (dict_get "description" members) as [[| | | | | |]|]; reflexivity.
Qed.

(** The element of the spec's example is accepted as the event of the
    example; with 1.5 for its title it is refused. *)
Lemma model_validate_required_fields_witness :
  model_validate plain_env market_day_item = Ok market_day
  /\ model_validate plain_env
       (JObject [ ("date", JString "2025-03-04");
                  ("title", JFloat "1.5");
                  ("description", JNull);
                  ("start_time", JString "08:00:00");
                  ("end_time", JString "16:00:00") ])
     = Raise ValidationError.
Proof.
  split.
  - exact (proj2 (proj2 (proj2
             (model_validate_required_fields plain_env
                [ ("date", JString "2025-03-04");
                  ("title", JString "Market Day");
                  ("description", JNull);
                  ("start_time", JString "08:00:00");
                  ("end_time", JString "16:00:00") ])))
             "2025-03-04" (mkDate 2025 3 4) "Market Day"
             "08:00:00" (mkTime 8 0 0) "16:00:00" (mkTime 16 0 0)
             eq_refl eq_refl eq_refl eq_refl eq_refl eq_refl eq_refl).
  - refine (proj1 (proj2 (proj2
              (model_validate_required_fields plain_env
                 [ ("date", JString "2025-03-04");
                   ("title", JFloat "1.5");
                   ("description", JNull);
                   ("start_time", JString "08:00:00");
                   ("end_time", JString "16:00:00") ])))
              "title" (JFloat "1.5") eq_refl _ _).
    + intros s. discriminate.
    + left. reflexivity.
Defined.

(** ** Event Extractor: a reply that is not JSON *)

Lemma scan_once_bad_start c rest fuel :
  is_json_start c = false ->
  scan_once (S fuel) (String c rest) = Raise JSONDecodeError.
Proof.
  destruct c as [[] [] [] [] [] [] [] []]; intros H;
    first [ discriminate H | reflexivity ].
Qed.

Lemma json_loads_bad_start s c rest :
  skip_ws s = String c rest -> is_json_start c = false ->
  json_loads s = Raise JSONDecodeError.
Proof.
  intros Hskip Hstart. unfold json_loads.
  destruct (strip_prefix BOM s); [reflexivity|].
  rewrite Hskip, (scan_once_bad_start c rest _ Hstart). reflexivity.
Qed.

Lemma json_loads_empty s : skip_ws s = "" -> json_loads s = Raise JSONDecodeError.
Proof.
  intros Hskip. unfold json_loads.
  destruct (strip_prefix BOM s); [reflexivity|].
  rewrite Hskip. reflexivity.
Qed.

(** X10.  A reply that does not begin with JSON is refused as a whole.  When the
    first character of the reply after its white space is not one a JSON
    value can start with (a code fence, a word of commentary), or when the
    reply is empty, [create_events_from_html] raises [JSONDecodeError]: the
    JSON that may follow is not looked for. *)
Theorem create_events_from_html_rejects_commentary
    env w html month api_key model month_cal reply w1 :
  formatmonth 2025 month = Ok month_cal ->
  get_openrouter_response (events_prompt month_cal html) model api_key env w
  = (Ok (JString reply), w1) ->
  (forall c rest, skip_ws reply = String c rest -> is_json_start c = false) ->
  create_events_from_html html month api_key model env w
  = (Raise JSONDecodeError, w1).
Proof.
  intros Hcal Hreply Hstart.
  rewrite create_events_from_html_run, Hcal.
  rewrite get_openrouter_response_run in Hreply. injection Hreply as -> ->.
  unfold events_of_reply. cbn [json_loads_value].
  destruct (skip_ws reply) as [|c rest] eqn:Hskip.
  - rewrite (json_loads_empty reply Hskip). reflexivity.
  - rewrite (json_loads_bad_start reply c rest Hskip (Hstart c rest eq_refl)).
    reflexivity.
Qed.

(** The example of the spec inside a code fence. *)
Lemma create_events_from_html_rejects_commentary_witness :
  let env :=
    sample_env page_plain "3"
      ("```json\n" +:+ market_day_reply +:+ "\n```") in
  create_events_from_html "<table></table>" 3 "sk-or-sample" "some/model" env
    empty_world
  = (Raise JSONDecodeError,
     log_action empty_world
       (completion_request (events_prompt march_2025 "<table></table>")
          "some/model" "sk-or-sample")).
Proof.
  intros env.
  refine (create_events_from_html_rejects_commentary env empty_world
            "<table></table>" 3 "sk-or-sample" "some/model" march_2025
            ("```json" +:+ NL +:+ market_day_json +:+ NL +:+ "```") _ _ _ _).
  - vm_compute. reflexivity.
  - vm_compute. reflexivity.
  - intros c rest H. vm_compute in H. injection H as <- _. reflexivity.
Defined.

(** ** From the reply to the calendar lines *)

Lemma ascii_of_ord c : chr (Z.to_nat (ord c)) = c.
Proof. unfold chr, ord. rewrite Nat2Z.id. apply ascii_nat_embedding. Qed.

Lemma ord_inj c d : ord c = ord d -> c = d.
Proof. intros H. rewrite <- (ascii_of_ord c), <- (ascii_of_ord d), H. reflexivity. Qed.

Lemma digit_val_range c : is_digit c = true -> 0 <= digit_val c <= 9.
Proof.
  unfold is_digit, digit_val. intros H. apply andb_true_iff in H as [H1 H2]. lia.
Qed.

(** The digit of a number is the character it was read from. *)
Lemma digit_of_char c x :
  is_digit c = true -> x mod 10 = digit_val c -> digit x = c.
Proof.
  intros Hc Hx. pose proof (digit_val_range c Hc) as Hr.
  unfold digit. rewrite Hx. unfold digit_val in *.
  replace (48 + Z.to_nat (ord c - 48))%nat with (Z.to_nat (ord c)) by lia.
  apply ascii_of_ord.
Qed.

Lemma two_digits_some a b n :
  two_digits a b = Some n ->
  is_digit a = true /\ is_digit b = true /\ n = digit_val a * 10 + digit_val b.
Proof.
  unfold two_digits. destruct (is_digit a), (is_digit b); cbn [andb]; try discriminate.
  intros H. injection H as <-. auto.
Qed.

Lemma pad2_two_digits a b n : two_digits a b = Some n -> pad2 n = String a (String b "").
Proof.
  intros H. apply two_digits_some in H as (Ha & Hb & ->).
  pose proof (digit_val_range a Ha). pose proof (digit_val_range b Hb).
  unfold pad2. f_equal; [|f_equal]; (apply digit_of_char; [assumption|]);
    Z.div_mod_to_equations; lia.
Qed.

Lemma pad4_two_digits a b c d hi lo :
  two_digits a b = Some hi -> two_digits c d = Some lo ->
  pad4 (hi * 100 + lo) = String a (String b (String c (String d ""))).
Proof.
  intros Hhi Hlo.
  apply two_digits_some in Hhi as (Ha & Hb & ->).
  apply two_digits_some in Hlo as (Hc & Hd & ->).
  pose proof (digit_val_range a Ha). pose proof (digit_val_range b Hb).
  pose proof (digit_val_range c Hc). pose proof (digit_val_range d Hd).
  unfold pad4, pad2. repeat f_equal; (apply digit_of_char; [assumption|]);
    Z.div_mod_to_equations; lia.
Qed.

Lemma is_digit_is_not c d :
  is_digit c = true -> (ord d <? 48) || (57 <? ord d) = true -> is_char c d = false.
Proof.
  intros Hc Hd. apply is_digit_ord in Hc. unfold is_char.
  apply Ascii.eqb_neq. intros ->. apply orb_true_iff in Hd. lia.
Qed.

Lemma is_char_ord c n : (ord c =? ord n) = true -> c = n.
Proof. intros H. apply Z.eqb_eq in H. apply ord_inj, H. Qed.

(** A text accepted as an ISO date is made of the digits of the date, with a
    hyphen after the year and after the month. *)
Lemma parse_iso_date_text s d :
  parse_iso_date s = Some d ->
  exists yyyy mm dd,
    s = yyyy +:+ "-" +:+ mm +:+ "-" +:+ dd
    /\ pad4 (year d) = yyyy /\ pad2 (month d) = mm /\ pad2 (day d) = dd
    /\ all_digits yyyy = true /\ all_digits mm = true /\ all_digits dd = true.
Proof.
  unfold parse_iso_date.
  destruct s as [|y1 [|y2 [|y3 [|y4 [|h1 [|m1 [|m2 [|h2 [|d1 [|d2 [|]]]]]]]]]]];
    try discriminate.
  destruct (two_digits y1 y2) as [yh|] eqn:Eyh; [|discriminate].
  destruct (two_digits y3 y4) as [yl|] eqn:Eyl; [|discriminate].
  destruct (two_digits m1 m2) as [m|] eqn:Em; [|discriminate].
  destruct (two_digits d1 d2) as [dd|] eqn:Ed; [|discriminate].
  destruct (_ && _) eqn:E; [|discriminate].
  intros H. injection H as <-. cbn [year month day].
  repeat (apply andb_true_iff in E as [E ?]).
  assert (h1 = "-"%char) as -> by (apply is_char_ord; assumption).
  assert (h2 = "-"%char) as -> by (apply is_char_ord; assumption).
  exists (String y1 (String y2 (String y3 (String y4 "")))),
    (String m1 (String m2 "")), (String d1 (String d2 "")).
  split; [reflexivity|].
  split; [apply pad4_two_digits; assumption|].
  split; [apply pad2_two_digits; assumption|].
  split; [apply pad2_two_digits; assumption|].
  apply two_digits_some in Eyh as (? & ? & _), Eyl as (? & ? & _),
    Em as (? & ? & _), Ed as (? & ? & _).
  cbn [all_digits].
  repeat match goal with H : is_digit _ = true |- _ => rewrite H; clear H end.
  auto.
Qed.

(** The same for a time, with colons. *)
Lemma parse_iso_time_text s t :
  parse_iso_time s = Some t ->
  exists hh mm ss,
    s = hh +:+ ":" +:+ mm +:+ ":" +:+ ss
    /\ pad2 (hour t) = hh /\ pad2 (minute t) = mm /\ pad2 (second t) = ss
    /\ all_digits hh = true /\ all_digits mm = true /\ all_digits ss = true.
Proof.
  unfold parse_iso_time.
  destruct s as [|h1 [|h2 [|c1 [|m1 [|m2 [|c2 [|s1 [|s2 [|]]]]]]]]];
    try discriminate.
  destruct (two_digits h1 h2) as [h|] eqn:Eh; [|discriminate].
  destruct (two_digits m1 m2) as [m|] eqn:Em; [|discriminate].
  destruct (two_digits s1 s2) as [sec|] eqn:Es; [|discriminate].
  destruct (_ && _) eqn:E; [|discriminate].
  intros H. injection H as <-. cbn [hour minute second].
  repeat (apply andb_true_iff in E as [E ?]).
  assert (c1 = ":"%char) as -> by (apply is_char_ord; assumption).
  assert (c2 = ":"%char) as -> by (apply is_char_ord; assumption).
  exists (String h1 (String h2 "")), (String m1 (String m2 "")),
    (String s1 (String s2 "")).
  split; [reflexivity|].
  split; [apply pad2_two_digits; assumption|].
  split; [apply pad2_two_digits; assumption|].
  split; [apply pad2_two_digits; assumption|].
  apply two_digits_some in Eh as (? & ? & _), Em as (? & ? & _), Es as (? & ? & _).
  cbn [all_digits].
  repeat match goal with H : is_digit _ = true |- _ => rewrite H; clear H end.
  auto.
Qed.

Lemma without_char_digits c s :
  (ord c <? 48) || (57 <? ord c) = true -> all_digits s = true ->
  without_char c s = s.
Proof.
  intros Hc. induction s as [|d s IH]; [reflexivity|].
  cbn [all_digits]. intros H. apply andb_true_iff in H as [Hd Hs].
  unfold without_char in *. cbn [replace_char].
  rewrite (is_digit_is_not d c Hd Hc), (IH Hs). reflexivity.
Qed.

Lemma string_app_nil_r (s : string) : s +:+ "" = s.
Proof.
  induction s as [|c s IH]; [reflexivity|].
  change (String c (s +:+ "") = String c s). rewrite IH. reflexivity.
Qed.

Lemma without_char_app c a b :
  without_char c (a +:+ b) = without_char c a +:+ without_char c b.
Proof. apply replace_char_app. Qed.

Lemma without_char_self c : without_char c (String c "") = "".
Proof. unfold without_char. cbn [replace_char]. unfold is_char. rewrite Ascii.eqb_refl. reflexivity. Qed.

Lemma strftime_basic_of_text pads sd st d t :
  parse_iso_date sd = Some d -> parse_iso_time st = Some t ->
  pads = true \/ 1000 <= year d ->
  strftime_basic pads (datetime_combine d t)
  = without_char "-" sd +:+ "T" +:+ without_char ":" st.
Proof.
  intros Hd Ht Hy.
  assert (Hyear : strftime_Y pads (year d) = pad4 (year d)).
  { unfold strftime_Y, unpadded4. destruct Hy as [-> | Hy]; [reflexivity|].
    destruct pads; [reflexivity|].
    replace (year d <? 10) with false by (symmetry; apply Z.ltb_ge; lia).
    replace (year d <? 100) with false by (symmetry; apply Z.ltb_ge; lia).
    replace (year d <? 1000) with false by (symmetry; apply Z.ltb_ge; lia).
    reflexivity. }
  apply parse_iso_date_text in Hd
    as (yyyy & mm & dd & -> & Hyyyy & Hmm & Hdd & Dy & Dm & Dd).
  apply parse_iso_time_text in Ht
    as (hh & mi & ss & -> & Hhh & Hmi & Hss & Dh & Di & Ds).
  unfold strftime_basic, datetime_combine. cbn [dt_date dt_time].
  rewrite Hyear, Hyyyy, Hmm, Hdd, Hhh, Hmi, Hss.
  rewrite !without_char_app, !without_char_self.
  rewrite !without_char_digits by (assumption || reflexivity).
  rewrite <- !string_app_assoc, !string_app_nil_r. reflexivity.
Qed.

(** X11.  The DTSTART and DTEND lines carry the digits of the reply.  For an event
    whose date and times were read from texts in the ISO forms YYYY-MM-DD and
    HH:MM:SS, the block has the line DTSTART: followed by the date text
    without its hyphens, the letter T and the start time text without its
    colons, and the line DTEND: made the same way from the end time.  (Before
    the year 1000 this needs a C library that pads the year.) *)
Theorem event_entry_carries_the_digits_of_the_reply
    pads uid stamp event date_text start_text end_text :
  parse_iso_date date_text = Some (date event) ->
  parse_iso_time start_text = Some (start_time event) ->
  parse_iso_time end_text = Some (end_time event) ->
  pads = true \/ 1000 <= year (date event) ->
  In ("DTSTART:" +:+ without_char "-" date_text +:+ "T"
      +:+ without_char ":" start_text)
     (event_entry pads uid stamp event)
  /\ In ("DTEND:" +:+ without_char "-" date_text +:+ "T"
         +:+ without_char ":" end_text)
        (event_entry pads uid stamp event).
Proof.
  intros Hd Hs He Hy. unfold event_entry.
  rewrite (strftime_basic_of_text pads date_text start_text _ _ Hd Hs Hy).
  rewrite (strftime_basic_of_text pads date_text end_text _ _ Hd He Hy).
  cbn [In]. split; tauto.
Qed.

Lemma event_entry_carries_the_digits_of_the_reply_witness :
  In "DTSTART:20250304T080000" (event_entry false "uid" "stamp" market_day)
  /\ In "DTEND:20250304T160000" (event_entry false "uid" "stamp" market_day).
Proof.
  assert (Hy : false = true \/ 1000 <= year (date market_day))
    by (right; vm_compute; discriminate).
  exact (event_entry_carries_the_digits_of_the_reply false "uid" "stamp" market_day
           "2025-03-04" "08:00:00" "16:00:00" eq_refl eq_refl eq_refl Hy).
Defined.

(** ** The identifiers of the events *)

Lemma uuid4_int_version_bits random j :
  (j < 4)%N ->
  N.testbit (uuid4_int random) (j + 76) = N.testbit 4 j.
Proof.
  intros Hj. unfold uuid4_int. cbv zeta.
  rewrite N.lor_spec, N.ldiff_spec.
  assert (Hcases : j = 0%N \/ j = 1%N \/ j = 2%N \/ j = 3%N) by lia.
  destruct Hcases as [-> | [-> | [-> | ->]]];
    match goal with
    | |- context [N.testbit (N.shiftl 61440 64) ?p] =>
        let b := eval vm_compute in (N.testbit (N.shiftl 61440 64) p) in
        change (N.testbit (N.shiftl 61440 64) p) with b
    end;
    match goal with
    | |- context [N.testbit (N.shiftl 4 76) ?p] =>
        let b := eval vm_compute in (N.testbit (N.shiftl 4 76) p) in
        change (N.testbit (N.shiftl 4 76) p) with b
    end;
    cbn [negb]; rewrite andb_false_r; reflexivity.
Qed.

Lemma uuid4_int_variant_bits random :
  N.testbit (uuid4_int random) 63 = true
  /\ N.testbit (uuid4_int random) 62 = false.
Proof.
  unfold uuid4_int. cbv zeta.
  rewrite !N.lor_spec, !N.ldiff_spec, !N.lor_spec, !N.ldiff_spec.
  change (N.testbit (N.shiftl 4 76) 63) with false.
  change (N.testbit (N.shiftl 4 76) 62) with false.
  change (N.testbit (N.shiftl 61440 64) 63) with false.
  change (N.testbit (N.shiftl 61440 64) 62) with false.
  change (N.testbit (N.shiftl 32768 48) 63) with true.
  change (N.testbit (N.shiftl 32768 48) 62) with false.
  change (N.testbit (N.shiftl 49152 48) 63) with true.
  change (N.testbit (N.shiftl 49152 48) 62) with true.
  cbn [negb]. rewrite !andb_false_r, !orb_false_r, !andb_true_r, orb_true_r.
  split; reflexivity.
Qed.

Lemma nibble_bit x (n j : N) :
  (j < 4)%N -> N.testbit (N.shiftr x n mod 16) j = N.testbit x (j + n).
Proof.
  intros Hj. change 16%N with (2 ^ 4)%N.
  rewrite N.mod_pow2_bits_low by exact Hj. apply N.shiftr_spec. lia.
Qed.

Lemma nibble_cases (v : N) :
  (v < 16)%N ->
  v = 0%N \/ v = 1%N \/ v = 2%N \/ v = 3%N \/ v = 4%N \/ v = 5%N \/ v = 6%N
  \/ v = 7%N \/ v = 8%N \/ v = 9%N \/ v = 10%N \/ v = 11%N \/ v = 12%N
  \/ v = 13%N \/ v = 14%N \/ v = 15%N.
Proof. lia. Qed.

(** The version digit. *)
Lemma uuid4_version_digit random :
  hex_digit (N.shiftr (uuid4_int random) 76) = "4"%char.
Proof.
  unfold hex_digit. cbv zeta.
  set (v := (N.shiftr (uuid4_int random) 76 mod 16)%N).
  assert (Hv : (v < 16)%N) by (apply N.mod_lt; discriminate).
  assert (H0 : N.testbit v 0 = false)
    by (unfold v; rewrite nibble_bit, uuid4_int_version_bits by lia; reflexivity).
  assert (H1 : N.testbit v 1 = false)
    by (unfold v; rewrite nibble_bit, uuid4_int_version_bits by lia; reflexivity).
  assert (H2 : N.testbit v 2 = true)
    by (unfold v; rewrite nibble_bit, uuid4_int_version_bits by lia; reflexivity).
  assert (H3 : N.testbit v 3 = false)
    by (unfold v; rewrite nibble_bit, uuid4_int_version_bits by lia; reflexivity).
  clearbody v.
  destruct (nibble_cases v Hv)
    as [-> | [-> | [-> | [-> | [-> | [-> | [-> | [-> | [-> | [-> | [-> | [->
        | [-> | [-> | [-> | ->]]]]]]]]]]]]]]];
    try discriminate H0; try discriminate H1; try discriminate H2;
    try discriminate H3.
  reflexivity.
Qed.

(** The variant digit. *)
Lemma uuid4_variant_digit random :
  In (hex_digit (N.shiftr (uuid4_int random) 60)) [ "8"; "9"; "a"; "b" ]%char.
Proof.
  unfold hex_digit. cbv zeta.
  set (v := (N.shiftr (uuid4_int random) 60 mod 16)%N).
  assert (Hv : (v < 16)%N) by (apply N.mod_lt; discriminate).
  destruct (uuid4_int_variant_bits random) as [B63 B62].
  assert (H3 : N.testbit v 3 = true)
    by (unfold v; rewrite nibble_bit by lia; exact B63).
  assert (H2 : N.testbit v 2 = false)
    by (unfold v; rewrite nibble_bit by lia; exact B62).
  clearbody v.
  destruct (nibble_cases v Hv)
    as [-> | [-> | [-> | [-> | [-> | [-> | [-> | [-> | [-> | [-> | [-> | [->
        | [-> | [-> | [-> | ->]]]]]]]]]]]]]]];
    try discriminate H2; try discriminate H3; cbn; tauto.
Qed.

(** X12.  Whatever the random bytes, the identifier of an event is a UUID of
    version 4 and of the RFC 4122 variant, written in the form 8-4-4-4-12:
    36 characters, hyphens after the groups, the digit 4 at the head of the
    third group and one of 8, 9, a, b at the head of the fourth. *)
Theorem uid_of_is_a_version_4_uuid env k :
  exists a b c v d e,
    uid_of env k
    = a +:+ "-" +:+ b +:+ "-" +:+ String "4" c +:+ "-" +:+ String v d +:+ "-" +:+ e
    /\ String.length a = 8%nat /\ String.length b = 4%nat
    /\ String.length c = 3%nat /\ String.length d = 3%nat
    /\ String.length e = 12%nat
    /\ In v [ "8"; "9"; "a"; "b" ]%char.
Proof.
  unfold uid_of, uuid_str. cbv zeta.
  set (i := uuid4_int (urandom16 env k)).
  pose proof (uuid4_version_digit (urandom16 env k)) as Hversion.
  pose proof (uuid4_variant_digit (urandom16 env k)) as Hvariant.
  fold i in Hversion, Hvariant.
  cbn [hex_digits]. cbn [String.substring].
  change (4 * N.of_nat 19)%N with 76%N. change (4 * N.of_nat 15)%N with 60%N.
  rewrite Hversion.
  eexists _, _, _, _, _, _. split; [reflexivity|].
  repeat (split; [reflexivity|]). exact Hvariant.
Qed.

(** ** Change Detector: when the answer is yes *)

(** What is read back from a file holds no carriage return. *)
Lemma universal_newlines_has_no_cr s : has_char CR (universal_newlines s) = false.
Proof.
  assert (H : has_char CR (universal_newlines s) = false
              /\ forall c, has_char CR (universal_newlines (String c s)) = false).
  { induction s as [|d s [IH1 IH2]].
    - split; [reflexivity|]. intros c. cbn [universal_newlines].
      destruct (is_char c CR) eqn:E; cbn [has_char]; [reflexivity|].
      rewrite E. reflexivity.
    - split; [apply IH2|]. intros c.
      cbn [universal_newlines]. destruct (is_char c CR) eqn:Ec.
      + destruct (is_char d LF); cbn [has_char];
          change (is_char LF CR) with false; cbn [orb]; [exact IH1|apply IH2].
      + cbn [has_char]. rewrite Ec. cbn [orb]. apply IH2. }
  apply H.
Qed.

Lemma universal_newlines_fixed s :
  universal_newlines s = s <-> has_char CR s = false.
Proof.
  split.
  - intros H. rewrite <- H. apply universal_newlines_has_no_cr.
  - apply universal_newlines_no_cr.
Qed.

(** X13.  [file_content_matches_existing] answers yes exactly when there is a
    regular file at the path whose text, once its line ends are translated,
    is the content given; one read is then recorded.  So the answer is never
    yes for a content that holds a carriage return, whatever the file
    holds. *)
Theorem file_content_matches_existing_answers_true p content env w w' :
  file_content_matches_existing p content env w = (Ok true, w') <->
  (exists existing,
     stat w p = Some (File existing) /\ universal_newlines existing = content)
  /\ has_char CR content = false
  /\ w' = log_action w (ReadText p).
Proof.
  split.
  - destruct (stat w p) as [[|existing]|] eqn:Hstat.
    + rewrite (file_content_matches_existing_directory p content env w Hstat).
      discriminate.
    + rewrite (file_content_matches_existing_file p content existing env w Hstat).
      intros H. injection H as Heq <-. apply String.eqb_eq in Heq.
      split; [exists existing; auto|]. split; [|reflexivity].
      rewrite <- Heq. apply universal_newlines_has_no_cr.
    + rewrite (file_content_matches_existing_missing p content env w Hstat).
      discriminate.
  - intros ((existing & Hstat & Heq) & _ & ->).
    rewrite (file_content_matches_existing_file p content existing env w Hstat).
    apply String.eqb_eq in Heq. rewrite Heq. reflexivity.
Qed.

(** *** Writing and reading back *)

Lemma is_anchor_stat w p : is_anchor p = true -> stat w p = Some Dir.
Proof. unfold stat. intros ->. reflexivity. Qed.

(** The outcomes of [write_text]: the errors that leave the file as it was,
    those that leave it empty or with a part of the data, and the success. *)
Lemma write_text_run p data env w :
  write_text p data env w
  = let store content :=
      mkWorld (<[p := File content]> (fs w)) (trace w ++ [WriteText p data])
        (draws w) in
    match stat w p, stat w (parent p) with
    | Some Dir, _ => (Raise IsADirectoryError, log_action w (WriteText p data))
    | _, None => (Raise FileNotFoundError, log_action w (WriteText p data))
    | _, Some (File _) => (Raise NotADirectoryError, log_action w (WriteText p data))
    | _, Some Dir =>
        match open_error env (length (trace w)) p with
        | Some e => (Raise e, log_action w (WriteText p data))
        | None =>
            if has_surrogate data then (Raise UnicodeEncodeError, store "")
            else
              match write_error env (length (trace w)) p data with
              | Some (e, written) =>
                  (Raise e, store (String.substring 0 written data))
              | None => (Ok tt, store data)
              end
        end
    end.
Proof.
  unfold write_text, bind, ask, get_world, emit, set_fs, raise, log_action.
  cbv beta iota zeta.
  destruct (stat w p) as [[|old]|], (stat w (parent p)) as [[|other]|];
    try reflexivity;
    (destruct (open_error env (length (trace w)) p); [reflexivity|]);
    (destruct (has_surrogate data); [reflexivity|]);
    (destruct (write_error env (length (trace w)) p data) as [[e written]|]);
    reflexivity.
Qed.

(** A write that succeeds: the path was no directory, its parent was one, and
    the file now holds the data as it was given. *)
Lemma write_text_ok p data env w w' :
  write_text p data env w = (Ok tt, w') ->
  w' = mkWorld (<[p := File data]> (fs w)) (trace w ++ [WriteText p data]) (draws w)
  /\ is_anchor p = false /\ stat w (parent p) = Some Dir /\ stat w p <> Some Dir.
Proof.
  rewrite write_text_run. cbv zeta.
  destruct (is_anchor p) eqn:Ha.
  - rewrite (is_anchor_stat w p Ha). discriminate.
  - destruct (stat w p) as [[|old]|], (stat w (parent p)) as [[|other]|];
      try discriminate;
      (destruct (open_error env (length (trace w)) p); [discriminate|]);
      (destruct (has_surrogate data); [discriminate|]);
      (destruct (write_error env (length (trace w)) p data) as [[e written]|];
         [discriminate|]);
      intros H; injection H as <-; repeat split; discriminate.
Qed.

(** A write that fails: either the file is as it was (the opening failed),
    or the path, which was no directory, now holds a file with what was
    written before the failure, nothing or a part of the data. *)
Lemma write_text_raise p data env w e w' :
  write_text p data env w = (Raise e, w') ->
  w' = log_action w (WriteText p data)
  \/ (exists left,
        w' = mkWorld (<[p := File left]> (fs w)) (trace w ++ [WriteText p data])
               (draws w)
        /\ is_anchor p = false /\ stat w p <> Some Dir).
Proof.
  rewrite write_text_run. cbv zeta.
  destruct (is_anchor p) eqn:Ha.
  - rewrite (is_anchor_stat w p Ha). intros H. injection H as _ <-. auto.
  - destruct (stat w p) as [[|old]|], (stat w (parent p)) as [[|other]|];
      try (intros H; injection H as _ <-; left; reflexivity);
      (destruct (open_error env (length (trace w)) p);
         [intros H; injection H as _ <-; left; reflexivity|]);
      (destruct (has_surrogate data);
         [intros H; injection H as _ <-; right; eexists;
          repeat split; discriminate|]);
      (destruct (write_error env (length (trace w)) p data) as [[e' written]|];
         [|discriminate]);
      intros H; injection H as _ <-; right; eexists; repeat split; discriminate.
Qed.

(** Whatever its outcome, a write is one action. *)
Lemma write_text_trace p data env w r w' :
  write_text p data env w = (r, w') -> trace w' = trace w ++ [WriteText p data].
Proof.
  rewrite write_text_run. cbv zeta.
  destruct (stat w p) as [[|old]|], (stat w (parent p)) as [[|other]|];
    try (intros H; injection H as _ <-; reflexivity);
    (destruct (open_error env (length (trace w)) p);
       [intros H; injection H as _ <-; reflexivity|]);
    (destruct (has_surrogate data);
       [intros H; injection H as _ <-; reflexivity|]);
    (destruct (write_error env (length (trace w)) p data) as [[e' written]|]);
    intros H; injection H as _ <-; reflexivity.
Qed.

Lemma stat_after_write w p data tr dr q :
  is_anchor p = false ->
  stat (mkWorld (<[p := File data]> (fs w)) tr dr) q
  = if decide (q = p) then Some (File data) else stat w q.
Proof.
  intros Ha. unfold stat. cbn [fs]. destruct (decide (q = p)) as [->|Hne].
  - rewrite Ha, lookup_insert_eq. reflexivity.
  - rewrite lookup_insert_ne by congruence. reflexivity.
Qed.

(** X14.  Write, then compare.  Once [write_text] has stored [data] at a path,
    [file_content_matches_existing] at that path answers whether [content] is
    [data] with its line ends translated.  For [data] itself the answer is
    yes if and only if [data] holds no carriage return: a table with a
    carriage return never compares equal to its own snapshot. *)
Theorem write_text_then_compare p data content env env' w w1 :
  write_text p data env w = (Ok tt, w1) ->
  file_content_matches_existing p content env' w1
  = (Ok (String.eqb (universal_newlines data) content), log_action w1 (ReadText p))
  /\ (file_content_matches_existing p data env' w1
      = (Ok true, log_action w1 (ReadText p))
      <-> has_char CR data = false).
Proof.
  intros Hwrite. apply write_text_ok in Hwrite as (-> & Ha & _).
  assert (Hstat : forall tr dr,
            stat (mkWorld (<[p := File data]> (fs w)) tr dr) p = Some (File data)).
  { intros tr dr. rewrite stat_after_write by exact Ha.
    destruct (decide (p = p)); [reflexivity|congruence]. }
  split.
  - apply file_content_matches_existing_file, Hstat.
  - rewrite (file_content_matches_existing_file p data data env' _ (Hstat _ _)).
    rewrite <- universal_newlines_fixed. split.
    + intros H. injection H as H. apply String.eqb_eq, H.
    + intros H. apply String.eqb_eq in H. rewrite H. reflexivity.
Qed.

(** The table with CR LF line ends, stored and compared on the next run: the
    answer is no. *)
Lemma write_text_then_compare_witness :
  let w := world_after_a_run "<table></table>" in
  let w1 := (write_text snapshot_path table_crlf plain_env w).2 in
  file_content_matches_existing snapshot_path table_crlf plain_env w1
  = (Ok false, log_action w1 (ReadText snapshot_path)).
Proof.
  intros w w1.
  assert (Hwrite : write_text snapshot_path table_crlf plain_env w = (Ok tt, w1))
    by (vm_compute; reflexivity).
  exact (proj1 (write_text_then_compare snapshot_path table_crlf table_crlf
                  plain_env plain_env w w1 Hwrite)).
Defined.

(** ** The artifacts directory *)

Lemma only_adds_directories_refl w : only_adds_directories w w.
Proof. intros q. destruct (stat w q); auto. Qed.

Lemma only_adds_directories_trans w1 w2 w3 :
  only_adds_directories w1 w2 -> only_adds_directories w2 w3 ->
  only_adds_directories w1 w3.
Proof.
  intros H1 H2 q. specialize (H1 q). specialize (H2 q).
  destruct (stat w1 q) as [n|].
  - rewrite H1 in H2. exact H2.
  - destruct H1 as [H1|H1]; rewrite H1 in H2; auto.
Qed.

Lemma only_adds_directories_mkdir w (p : Path) :
  fs w !! p = None ->
  only_adds_directories w (mkWorld (<[p := Dir]> (fs w)) (trace w) (draws w)).
Proof.
  intros Hp q. unfold stat. cbn [fs]. destruct (is_anchor q); [reflexivity|].
  destruct (decide (p = q)) as [<-|Hne].
  - rewrite Hp, lookup_insert_eq. auto.
  - rewrite lookup_insert_ne by exact Hne. destruct (fs w !! q); auto.
Qed.

(** The outcomes of [os.mkdir]. *)
Lemma os_mkdir_run p env w :
  os_mkdir p env w
  = match stat w p, stat w (parent p) with
    | Some _, _ => (Raise FileExistsError, w)
    | None, None => (Raise FileNotFoundError, w)
    | None, Some (File _) => (Raise NotADirectoryError, w)
    | None, Some Dir =>
        match mkdir_error env (length (trace w)) p with
        | Some e => (Raise e, w)
        | None => (Ok tt, mkWorld (<[p := Dir]> (fs w)) (trace w) (draws w))
        end
    end.
Proof.
  unfold os_mkdir, bind, ask, get_world, set_fs, raise. cbv beta iota.
  destruct (stat w p), (stat w (parent p)) as [[|]|]; try reflexivity.
  destruct (mkdir_error env (length (trace w)) p); reflexivity.
Qed.

Lemma stat_after_mkdir w (p : Path) :
  stat (mkWorld (<[p := Dir]> (fs w)) (trace w) (draws w)) p = Some Dir.
Proof.
  unfold stat. cbn [fs]. destruct (is_anchor p); [reflexivity|].
  apply lookup_insert_eq.
Qed.

Lemma os_mkdir_ok p env w w' :
  os_mkdir p env w = (Ok tt, w') -> stat w' p = Some Dir.
Proof.
  rewrite os_mkdir_run.
  destruct (stat w p), (stat w (parent p)) as [[|]|]; try discriminate.
  destruct (mkdir_error env (length (trace w)) p); [discriminate|].
  intros H. injection H as <-. apply stat_after_mkdir.
Qed.

Lemma exist_ok_handler p (e : exn) env w w' :
  (d <- is_dir p ;; if (d : bool) then ret tt else raise e) env w = (Ok tt, w') ->
  stat w' p = Some Dir.
Proof.
  unfold is_dir, bind, get_world, ret, raise. cbv beta iota.
  destruct (stat w p) as [[|]|] eqn:Hstat; cbv beta iota; try discriminate.
  intros H. injection H as <-. exact Hstat.
Qed.

Lemma mkdir_parents_is_dir fuel p env w w' :
  mkdir_parents fuel p env w = (Ok tt, w') -> stat w' p = Some Dir.
Proof.
  destruct fuel as [|fuel]; cbn [mkdir_parents]; unfold try_except at 1;
    destruct (os_mkdir p env w) as [[[]|e] w0] eqn:E.
  - intros H. injection H as <-. eapply os_mkdir_ok, E.
  - destruct e; try apply exist_ok_handler. discriminate.
  - intros H. injection H as <-. eapply os_mkdir_ok, E.
  - destruct e; try apply exist_ok_handler.
    unfold bind at 1.
    destruct (mkdir_parents fuel (parent p) env w0) as [[[]|e] w1]; [|discriminate].
    unfold try_except.
    destruct (os_mkdir p env w1) as [[[]|e] w2] eqn:E2.
    + intros H. injection H as <-. eapply os_mkdir_ok, E2.
    + apply exist_ok_handler.
Qed.

Lemma mkdir_parents_frame fuel p env w r w' :
  mkdir_parents fuel p env w = (r, w') ->
  only_adds_directories w w' /\ trace w' = trace w /\ draws w' = draws w.
Proof.
  apply (preserves_mkdir_parents
           (fun w w' => only_adds_directories w w' /\ trace w' = trace w
                        /\ draws w' = draws w)).
  - intros w0. split; [apply only_adds_directories_refl|auto].
  - intros w1 w2 w3 (A1 & T1 & D1) (A2 & T2 & D2).
    split; [eapply only_adds_directories_trans; eassumption|].
    split; congruence.
  - intros w0 q Hq. split; [apply only_adds_directories_mkdir, Hq|auto].
Qed.

(** X15.  [settings.artifacts_dir.mkdir(parents=True, exist_ok=True)], whatever
    the file system holds and however the call ends: one action is recorded,
    no entry of the file system is removed or changed and no regular file is
    made (only directories are added); when the call returns, the path is a
    directory. *)
Theorem mkdir_outcome p env w r w' :
  mkdir p env w = (r, w') ->
  trace w' = trace w ++ [MkDir p]
  /\ draws w' = draws w
  /\ only_adds_directories w w'
  /\ (r = Ok tt -> stat w' p = Some Dir).
Proof.
  unfold mkdir, bind, emit. cbv beta iota. intros H.
  pose proof (mkdir_parents_frame _ _ _ _ _ _ H) as (Hadds & Htrace & Hdraws).
  split; [exact Htrace|]. split; [exact Hdraws|]. split; [exact Hadds|].
  intros ->. eapply mkdir_parents_is_dir, H.
Qed.

(** Nothing exists yet: the directory is made. *)
Lemma mkdir_outcome_witness :
  let w' := (mkdir [ "artifacts" ] plain_env empty_world).2 in
  mkdir [ "artifacts" ] plain_env empty_world = (Ok tt, w')
  /\ trace w' = [ MkDir [ "artifacts" ] ]
  /\ stat w' [ "artifacts" ] = Some Dir.
Proof.
  intros w'.
  assert (Hrun : mkdir [ "artifacts" ] plain_env empty_world = (Ok tt, w'))
    by (vm_compute; reflexivity).
  destruct (mkdir_outcome [ "artifacts" ] plain_env empty_world (Ok tt) w' Hrun)
    as (Htrace & _ & _ & Hdir).
  split; [exact Hrun|]. split; [exact Htrace|]. exact (Hdir eq_refl).
Defined.

Lemma parent_prefix (p : Path) : parent p `prefix_of` p.
Proof.
  unfold parent. destruct (decide (p = [])) as [->|Hne].
  - exists []. reflexivity.
  - exists [List.last p ""]. apply app_removelast_last, Hne.
Qed.

Lemma parent_length (p : Path) : p <> [] -> S (length (parent p)) = length p.
Proof.
  intros Hne. unfold parent.
  rewrite (app_removelast_last "" Hne) at 2.
  rewrite length_app. cbn [length]. lia.
Qed.

Lemma no_file_on_the_way_parent w p :
  no_file_on_the_way w p -> no_file_on_the_way w (parent p).
Proof.
  intros H q content Hq. apply H. etransitivity; [exact Hq|apply parent_prefix].
Qed.

Lemma may_make_directories_parent env p :
  may_make_directories env p -> may_make_directories env (parent p).
Proof.
  intros H tick q Hq. apply H. etransitivity; [exact Hq|apply parent_prefix].
Qed.

Lemma stat_none_not_empty w p : stat w p = None -> p <> [].
Proof. intros H ->. discriminate H. Qed.

(** The second attempt of [Path.mkdir], once the parents are there. *)
Lemma mkdir_second_attempt p env w :
  may_make_directories env p ->
  stat w (parent p) = Some Dir ->
  (forall content, stat w p <> Some (File content)) ->
  exists w',
    try_except (os_mkdir p)
      (fun e' => d <- is_dir p ;; if (d : bool) then ret tt else raise e') env w
    = (Ok tt, w').
Proof.
  intros Hos Hparent Hp. unfold try_except. rewrite os_mkdir_run, Hparent.
  destruct (stat w p) as [[|content]|] eqn:E.
  - unfold is_dir, bind, get_world, ret. cbv beta iota. rewrite E.
    eexists. reflexivity.
  - exfalso. eapply Hp. reflexivity.
  - rewrite (Hos _ p) by reflexivity. eexists. reflexivity.
Qed.

Lemma mkdir_parents_succeeds env : forall fuel p w,
  (length p <= fuel)%nat -> may_make_directories env p ->
  no_file_on_the_way w p ->
  exists w', mkdir_parents fuel p env w = (Ok tt, w').
Proof.
  induction fuel as [|fuel IH]; intros p w Hlen Hos Hfiles.
  - destruct p; [|cbn [length] in Hlen; lia].
    cbn [mkdir_parents]. unfold try_except. rewrite os_mkdir_run.
    change (stat w []) with (Some Dir).
    unfold is_dir, bind, get_world, ret. cbv beta iota.
    change (stat w []) with (Some Dir). eexists. reflexivity.
  - cbn [mkdir_parents]. unfold try_except at 1. rewrite os_mkdir_run.
    destruct (stat w p) as [[|content]|] eqn:Ep.
    + unfold is_dir, bind, get_world, ret. cbv beta iota. rewrite Ep.
      eexists. reflexivity.
    + exfalso. eapply (Hfiles p content); [reflexivity|exact Ep].
    + destruct (stat w (parent p)) as [[|content]|] eqn:Epp.
      * rewrite (Hos _ p) by reflexivity. eexists. reflexivity.
      * exfalso. eapply (Hfiles (parent p) content); [apply parent_prefix|exact Epp].
      * pose proof (parent_length p (stat_none_not_empty w p Ep)) as Hl.
        assert (Hl' : (length (parent p) <= fuel)%nat) by lia.
        destruct (IH (parent p) w Hl' (may_make_directories_parent env p Hos)
                    (no_file_on_the_way_parent w p Hfiles))
          as (w1 & Hrec).
        unfold bind at 1. rewrite Hrec.
        pose proof (mkdir_parents_is_dir _ _ _ _ _ Hrec) as Hdir.
        pose proof (mkdir_parents_frame _ _ _ _ _ _ Hrec) as (Hadds & _ & _).
        apply mkdir_second_attempt; [exact Hos|exact Hdir|].
        intros content Hfile. specialize (Hadds p). rewrite Ep in Hadds.
        destruct Hadds as [H|H]; congruence.
Qed.

(** X16.  The directory is made with all the parents it needs: when nothing on the
    way to the path, the path included, is a regular file, and the operating
    system refuses the making of none of these directories, the call returns
    and the path is a directory, were it there before or not. *)
Theorem mkdir_makes_the_parents p env w :
  may_make_directories env p ->
  no_file_on_the_way w p ->
  exists w', mkdir p env w = (Ok tt, w') /\ stat w' p = Some Dir.
Proof.
  intros Hos Hfiles. unfold mkdir, bind, emit. cbv beta iota.
  assert (Hlen : (length p <= length p)%nat) by lia.
  destruct (mkdir_parents_succeeds env (length p) p
              (mkWorld (fs w) (trace w ++ [MkDir p]) (draws w))
              Hlen Hos Hfiles) as (w' & Hrun).
  exists w'. split; [exact Hrun|]. eapply mkdir_parents_is_dir, Hrun.
Qed.

(** Three directories to make, from an empty working directory. *)
Lemma mkdir_makes_the_parents_witness :
  exists w',
    mkdir [ "var"; "data"; "artifacts" ] plain_env empty_world = (Ok tt, w')
    /\ stat w' [ "var"; "data"; "artifacts" ] = Some Dir.
Proof.
  apply mkdir_makes_the_parents; [intros tick q _; reflexivity|].
  intros q content _. unfold stat, empty_world. cbn [fs].
  destruct (is_anchor q); [discriminate|].
  rewrite lookup_empty. discriminate.
Defined.

(** With a directory at the path nothing is made; with a regular file there
    the call raises [FileExistsError]. *)
Lemma mkdir_parents_existing fuel p env w :
  stat w p = Some Dir -> mkdir_parents fuel p env w = (Ok tt, w).
Proof.
  intros Hdir.
  destruct fuel; cbn [mkdir_parents]; unfold try_except;
    rewrite os_mkdir_run, Hdir;
    unfold is_dir, bind, get_world, ret, raise; cbv beta iota;
    rewrite Hdir; reflexivity.
Qed.

Lemma mkdir_existing p env w :
  stat w p = Some Dir -> mkdir p env w = (Ok tt, log_action w (MkDir p)).
Proof.
  intros Hdir. unfold mkdir, bind, emit. cbv beta iota.
  fold (log_action w (MkDir p)).
  apply mkdir_parents_existing. exact Hdir.
Qed.

Lemma mkdir_file_exists p content env w :
  stat w p = Some (File content) ->
  mkdir p env w = (Raise FileExistsError, log_action w (MkDir p)).
Proof.
  intros Hfile. unfold mkdir, bind, emit. cbv beta iota.
  fold (log_action w (MkDir p)).
  assert (Hfile' : stat (log_action w (MkDir p)) p = Some (File content))
    by exact Hfile.
  destruct (length p); cbn [mkdir_parents]; unfold try_except;
    rewrite os_mkdir_run, Hfile';
    unfold is_dir, bind, get_world, ret, raise; cbv beta iota;
    rewrite Hfile'; reflexivity.
Qed.

Lemma mkdir_ok p env w w' :
  mkdir p env w = (Ok tt, w') ->
  stat w' p = Some Dir /\ trace w' = trace w ++ [MkDir p].
Proof.
  unfold mkdir, bind, emit. cbv beta iota. intros H. split.
  - eapply mkdir_parents_is_dir, H.
  - apply mkdir_parents_frame in H as (_ & Htrace & _). exact Htrace.
Qed.

(** An error of the operating system goes through [mkdir] unchanged: with
    the parent in place and nothing at the path, the error the system answers
    the making of the directory with is raised, and nothing is made. *)
Lemma mkdir_refused p e env w :
  stat w p = None -> stat w (parent p) = Some Dir ->
  (forall tick, mkdir_error env tick p = Some e) ->
  mkdir p env w = (Raise e, log_action w (MkDir p)).
Proof.
  intros Hp Hparent Hos. unfold mkdir, bind, emit. cbv beta iota.
  fold (log_action w (MkDir p)). set (w0 := log_action w (MkDir p)).
  assert (Hp0 : stat w0 p = None) by exact Hp.
  assert (Hparent0 : stat w0 (parent p) = Some Dir) by exact Hparent.
  assert (Hattempt : os_mkdir p env w0 = (Raise e, w0))
    by (rewrite os_mkdir_run, Hp0, Hparent0, Hos; reflexivity).
  assert (Hkeep : (d <- is_dir p ;; if (d : bool) then ret tt else raise e) env w0
                  = (Raise e, w0)).
  { unfold is_dir, bind, get_world, ret, raise. cbv beta iota.
    rewrite Hp0. reflexivity. }
  destruct (length p) as [|fuel] eqn:Hlen.
  - destruct p; [discriminate Hp|discriminate Hlen].
  - cbn [mkdir_parents]. unfold try_except at 1. rewrite Hattempt.
    destruct e; try exact Hkeep.
    unfold bind at 1. rewrite (mkdir_parents_existing fuel _ env w0 Hparent0).
    unfold try_except. rewrite Hattempt. exact Hkeep.
Qed.

(** ** Orchestrator: one run after the other *)

Lemma find_html_events_table_pure html env w :
  find_html_events_table html env w = (extracted_table env html, w).
Proof.
  unfold extracted_table, find_html_events_table, bind, ask. cbv beta iota.
  destruct (find "main" (html_parser env html)) as [[n attrs contents| |]|];
    reflexivity.
Qed.

(** The fetch of [main] from a steady server. *)
Lemma fetch_steady env page w :
  steady_page env page ->
  get_page_html EVENTS_PAGE None env w
  = (if (200 <=? status_code page) && (status_code page <=? 299)
     then Ok (text page)
     else Raise (HTTPStatusError (status_code page) (text page)),
     log_action w (HttpGet EVENTS_PAGE [])).
Proof.
  intros Hpage. pose proof (get_page_html_run EVENTS_PAGE None env w) as H.
  cbv zeta in H. rewrite H, Hpage. reflexivity.
Qed.

(** A run that finds the directory in place and, at the snapshot path, a
    file that reads as the table of the page served: four actions, and
    nothing else. *)
Lemma main_unchanged_run settings env w page table existing :
  steady_page env page ->
  200 <= status_code page <= 299 ->
  extracted_table env (text page) = Ok table ->
  stat w (artifacts_dir settings) = Some Dir ->
  stat w (joinpath (artifacts_dir settings) (html_file_name settings))
  = Some (File existing) ->
  universal_newlines existing = table ->
  main settings env w = (Ok tt, after_an_unchanged_run settings w).
Proof.
  intros Hpage Hstatus Htable Hdir Hsnap Hsame.
  rewrite main_split. unfold change_detection.
  unfold bind at 1. rewrite (mkdir_existing _ env w Hdir).
  unfold bind at 1. rewrite (fetch_steady env page _ Hpage).
  replace ((200 <=? status_code page) && (status_code page <=? 299)) with true
    by (symmetry; apply andb_true_iff; lia).
  unfold bind at 1. rewrite find_html_events_table_pure, Htable.
  unfold bind at 1.
  rewrite (file_content_matches_existing_file _ table existing env
             (log_action (log_action w (MkDir (artifacts_dir settings)))
                (HttpGet EVENTS_PAGE [])) Hsnap).
  apply String.eqb_eq in Hsame. rewrite Hsame.
  reflexivity.
Qed.

Lemma stat_log_action w e q : stat (log_action w e) q = stat w q.
Proof. reflexivity. Qed.

(** The world a run is in once it is past change detection with a new
    table: the directory is there and the snapshot holds the table of the
    page. *)
Lemma change_detection_some settings env page w fragment w1 :
  steady_page env page ->
  change_detection settings env w = (Ok (Some fragment), w1) ->
  200 <= status_code page <= 299
  /\ extracted_table env (text page) = Ok fragment
  /\ stat w1 (artifacts_dir settings) = Some Dir
  /\ stat w1 (joinpath (artifacts_dir settings) (html_file_name settings))
     = Some (File fragment).
Proof.
  intros Hpage. unfold change_detection.
  unfold bind at 1.
  destruct (mkdir (artifacts_dir settings) env w) as [[[]|e] w0] eqn:E0;
    [|discriminate].
  apply mkdir_ok in E0 as [Hdir _].
  unfold bind at 1. rewrite (fetch_steady env page _ Hpage).
  destruct ((200 <=? status_code page) && (status_code page <=? 299)) eqn:Es;
    [|discriminate].
  apply andb_true_iff in Es.
  unfold bind at 1. rewrite find_html_events_table_pure.
  destruct (extracted_table env (text page)) as [table|]; [|discriminate].
  set (wa := log_action w0 (HttpGet EVENTS_PAGE [])).
  set (snap := joinpath (artifacts_dir settings) (html_file_name settings)).
  assert (Hfinish : forall wb,
            stat wb (artifacts_dir settings) = Some Dir ->
            (write_text snap table ;;; ret (Some table)) env wb
            = (Ok (Some fragment), w1) ->
            200 <= status_code page <= 299
            /\ Ok table = Ok fragment
            /\ stat w1 (artifacts_dir settings) = Some Dir
            /\ stat w1 snap = Some (File fragment)).
  { intros wb Hdirb. unfold bind.
    destruct (write_text snap table env wb) as [[[]|e] wc] eqn:Ew; [|discriminate].
    apply write_text_ok in Ew as (-> & Ha & _ & Hnodir).
    unfold ret. intros H. injection H as <- <-.
    split; [lia|]. split; [reflexivity|].
    rewrite !stat_after_write by exact Ha.
    split.
    - destruct (decide (artifacts_dir settings = snap)) as [Heq|_]; [|exact Hdirb].
      exfalso. apply Hnodir. rewrite <- Heq. exact Hdirb.
    - destruct (decide (snap = snap)); [reflexivity|congruence]. }
  unfold bind at 1.
  destruct (stat wa snap) as [[|existing]|] eqn:Hsnap.
  - rewrite (file_content_matches_existing_directory snap table env wa Hsnap).
    discriminate.
  - rewrite (file_content_matches_existing_file snap table existing env wa Hsnap).
    destruct (String.eqb (universal_newlines existing) table).
    + unfold bind, logger_info, emit, ret. discriminate.
    + apply Hfinish. exact Hdir.
  - rewrite (file_content_matches_existing_missing snap table env wa Hsnap).
    cbn [negb]. apply Hfinish. exact Hdir.
Qed.

(** The world a run is in when change detection stopped it. *)
Lemma change_detection_none settings env page w w1 :
  steady_page env page ->
  change_detection settings env w = (Ok None, w1) ->
  200 <= status_code page <= 299
  /\ exists table existing,
       extracted_table env (text page) = Ok table
       /\ stat w1 (artifacts_dir settings) = Some Dir
       /\ stat w1 (joinpath (artifacts_dir settings) (html_file_name settings))
          = Some (File existing)
       /\ universal_newlines existing = table.
Proof.
  intros Hpage. unfold change_detection.
  unfold bind at 1.
  destruct (mkdir (artifacts_dir settings) env w) as [[[]|e] w0] eqn:E0;
    [|discriminate].
  apply mkdir_ok in E0 as [Hdir _].
  unfold bind at 1. rewrite (fetch_steady env page _ Hpage).
  destruct ((200 <=? status_code page) && (status_code page <=? 299)) eqn:Es;
    [|discriminate].
  apply andb_true_iff in Es.
  unfold bind at 1. rewrite find_html_events_table_pure.
  destruct (extracted_table env (text page)) as [table|]; [|discriminate].
  set (wa := log_action w0 (HttpGet EVENTS_PAGE [])).
  set (snap := joinpath (artifacts_dir settings) (html_file_name settings)).
  assert (Hwrite : forall wb r w2,
            (write_text snap table ;;; ret (Some table)) env wb = (r, w2) ->
            r <> Ok None).
  { intros wb r w2. unfold bind.
    destruct (write_text snap table env wb) as [[[]|e] wc]; unfold ret;
      intros H; injection H as <- _; discriminate. }
  unfold bind at 1.
  destruct (stat wa snap) as [[|existing]|] eqn:Hsnap.
  - rewrite (file_content_matches_existing_directory snap table env wa Hsnap).
    discriminate.
  - rewrite (file_content_matches_existing_file snap table existing env wa Hsnap).
    destruct (String.eqb (universal_newlines existing) table) eqn:Eq.
    + unfold bind, logger_info, emit, ret. intros H. injection H as <-.
      split; [lia|]. exists table, existing. apply String.eqb_eq in Eq. auto.
    + intros H. exfalso. eapply Hwrite; [exact H|reflexivity].
  - rewrite (file_content_matches_existing_missing snap table env wa Hsnap).
    cbn [negb]. intros H. exfalso. eapply Hwrite; [exact H|reflexivity].
Qed.

Lemma create_ics_from_events_fs events env w r w' :
  create_ics_from_events events env w = (r, w') ->
  fs w' = fs w /\ trace w' = trace w.
Proof.
  destruct (civil_of_seconds (posix_time env + utc_offset env)) as [now|] eqn:E.
  - rewrite (create_ics_from_events_run env w events now E).
    intros H. injection H as _ <-. split; reflexivity.
  - rewrite (create_ics_from_events_out_of_range env w events E).
    intros H. injection H as _ <-. split; reflexivity.
Qed.

Lemma create_events_from_html_trace html month api_key model env w r w' :
  create_events_from_html html month api_key model env w = (r, w') ->
  exists l, trace w' = trace w ++ l.
Proof.
  rewrite create_events_from_html_run.
  destruct (formatmonth 2025 month); intros H; injection H as _ <-.
  - eexists. reflexivity.
  - exists []. symmetry. apply app_nil_r.
Qed.

Lemma filter_some {A} (f : A -> bool) (l : list A) x :
  In x l -> f x = true -> filter f l <> [].
Proof.
  intros Hin Hx. induction l as [|y l IH]; [destruct Hin|].
  rewrite filter_cons. destruct Hin as [->|Hin].
  - destruct (decide (f x)) as [_|Hn]; [discriminate|].
    exfalso. apply Hn. rewrite Hx. exact I.
  - destruct (decide (f y)); [discriminate|]. apply IH, Hin.
Qed.

(** The second half of [main] touches the file system at one place at
    most, the calendar path: nowhere when it raises before the calendar is
    opened; there, after an attempt to write that is among its actions, in
    all other cases. *)
Lemma regenerate_fs settings fragment env w1 r w' :
  regenerate settings fragment env w1 = (r, w') ->
  (exists r', r = Raise r' /\ fs w' = fs w1)
  \/ (exists content,
        fs w' = <[joinpath (artifacts_dir settings) (ics_file_name settings)
                  := File content]> (fs w1)
        /\ is_anchor (joinpath (artifacts_dir settings) (ics_file_name settings))
           = false
        /\ stat w1 (joinpath (artifacts_dir settings) (ics_file_name settings))
           <> Some Dir
        /\ filter is_write (new_actions w1 w') <> []).
Proof.
  unfold regenerate. unfold bind at 1.
  destruct (get_events_month fragment _ _ env w1) as [[month|e] w2] eqn:E2.
  2:{ apply get_events_month_frame in E2. subst w2.
      intros H. injection H as <- <-. left. eexists. split; reflexivity. }
  apply get_events_month_frame in E2.
  unfold bind at 1.
  destruct (create_events_from_html fragment month _ _ env w2)
    as [[events|e] w3] eqn:E3.
  2:{ apply create_events_from_html_frame in E3 as [E3 _].
      intros H. injection H as <- <-. left. eexists.
      split; [reflexivity|]. rewrite E3, E2. reflexivity. }
  pose proof (create_events_from_html_trace _ _ _ _ _ _ _ _ E3) as (l3 & T3).
  apply create_events_from_html_frame in E3 as [E3 _].
  unfold bind at 1.
  destruct (create_ics_from_events events env w3) as [[ics|e] w4] eqn:E4.
  2:{ apply create_ics_from_events_fs in E4 as [E4 _].
      intros H. injection H as <- <-. left. eexists.
      split; [reflexivity|]. rewrite E4, E3, E2. reflexivity. }
  apply create_ics_from_events_fs in E4 as [E4 T4].
  assert (Hfs : fs w4 = fs w1) by (rewrite E4, E3, E2; reflexivity).
  assert (Hstat : forall q, stat w4 q = stat w1 q)
    by (intros q; unfold stat; rewrite Hfs; reflexivity).
  assert (Htrace : exists l, trace w4 = trace w1 ++ l).
  { rewrite T4, T3, E2. unfold log_action. cbn [trace].
    eexists. rewrite <- app_assoc. reflexivity. }
  destruct Htrace as (l4 & Htrace).
  set (calendar := joinpath (artifacts_dir settings) (ics_file_name settings)).
  assert (Hwrites : forall w5 tail,
            trace w5 = trace w4 ++ WriteText calendar ics :: tail ->
            filter is_write (new_actions w1 w5) <> []).
  { intros w5 tail T5. unfold new_actions.
    rewrite T5, Htrace, <- app_assoc, drop_app_length.
    apply (filter_some is_write _ (WriteText calendar ics)); [|reflexivity].
    apply in_or_app. right. left. reflexivity. }
  unfold bind at 1.
  destruct (write_text calendar ics env w4) as [[[]|e] w5] eqn:E5.
  - pose proof (write_text_trace _ _ _ _ _ _ E5) as T5.
    apply write_text_ok in E5 as (Hw5 & Ha & _ & Hnodir).
    unfold logger_info, emit. intros H. injection H as <- <-.
    right. exists ics.
    split; [cbn [fs]; rewrite Hw5; cbn [fs]; rewrite Hfs; reflexivity|].
    split; [exact Ha|]. split; [rewrite <- Hstat; exact Hnodir|].
    apply (Hwrites _ [LogInfo ("ICS file written to path: " +:+ path_str calendar)]).
    cbn [trace]. rewrite T5, <- app_assoc. reflexivity.
  - intros H. injection H as <- <-.
    pose proof (write_text_trace _ _ _ _ _ _ E5) as T5.
    apply write_text_raise in E5 as [Hw5 | (left & Hw5 & Ha & Hnodir)].
    + left. eexists. split; [reflexivity|]. rewrite Hw5. exact Hfs.
    + right. exists left.
      split; [rewrite Hw5; cbn [fs]; rewrite Hfs; reflexivity|].
      split; [exact Ha|]. split; [rewrite <- Hstat; exact Hnodir|].
      apply (Hwrites _ []). exact T5.
Qed.

(** With the calendar stored or begun at its own path, the directory and the
    snapshot are where change detection left them. *)
Lemma stat_beside_the_calendar settings w1 w' content fragment :
  fs w' = <[joinpath (artifacts_dir settings) (ics_file_name settings)
            := File content]> (fs w1) ->
  is_anchor (joinpath (artifacts_dir settings) (ics_file_name settings)) = false ->
  stat w1 (joinpath (artifacts_dir settings) (ics_file_name settings)) <> Some Dir ->
  joinpath (artifacts_dir settings) (html_file_name settings)
  <> joinpath (artifacts_dir settings) (ics_file_name settings) ->
  stat w1 (artifacts_dir settings) = Some Dir ->
  stat w1 (joinpath (artifacts_dir settings) (html_file_name settings))
  = Some (File fragment) ->
  stat w' (artifacts_dir settings) = Some Dir
  /\ stat w' (joinpath (artifacts_dir settings) (html_file_name settings))
     = Some (File fragment).
Proof.
  intros Hfs Ha Hnodir Hpaths Hdir Hsnap.
  assert (Hstat : forall q,
            stat w' q
            = if decide (q = joinpath (artifacts_dir settings)
                               (ics_file_name settings))
              then Some (File content) else stat w1 q).
  { intros q. unfold stat. rewrite Hfs.
    destruct (decide (q = _)) as [->|Hne].
    - rewrite Ha, lookup_insert_eq. reflexivity.
    - rewrite lookup_insert_ne by congruence. reflexivity. }
  split; rewrite Hstat.
  - destruct (decide (artifacts_dir settings = _)) as [Heq|_]; [|exact Hdir].
    exfalso. apply Hnodir. rewrite <- Heq. exact Hdir.
  - destruct (decide (_ = _)) as [Heq|_]; [|exact Hsnap].
    exfalso. exact (Hpaths Heq).
Qed.

(** X17.  After a run that went well, a second run against the same page stops at
    change detection.  The server gives the same page to every fetch, its
    table holds no carriage return, and the snapshot and the calendar have
    different paths; [main] has returned, be it after a new calendar or after
    finding nothing new.  Then the next run returns after four actions (make
    the directory, fetch, read the snapshot, log): no completion call, no
    write, the file system as it was. *)
Theorem second_run_changes_nothing settings env page w w' :
  steady_page env page ->
  (forall table,
     extracted_table env (text page) = Ok table -> has_char CR table = false) ->
  joinpath (artifacts_dir settings) (html_file_name settings)
  <> joinpath (artifacts_dir settings) (ics_file_name settings) ->
  main settings env w = (Ok tt, w') ->
  main settings env w' = (Ok tt, after_an_unchanged_run settings w').
Proof.
  intros Hpage Hcr Hpaths. rewrite main_split.
  destruct (change_detection settings env w) as [[[fragment|]|e] w1] eqn:E1;
    [| |discriminate].
  - apply (change_detection_some settings env page) in E1
      as (Hstatus & Htable & Hdir & Hsnap); [|exact Hpage].
    intros Hrun.
    apply regenerate_fs in Hrun
      as [(r' & Hr & _) | (ics & Hfs & Ha & Hnodir & _)]; [discriminate Hr|].
    destruct (stat_beside_the_calendar settings w1 w' ics fragment
                Hfs Ha Hnodir Hpaths Hdir Hsnap) as [Hdir' Hsnap'].
    apply (main_unchanged_run settings env w' page fragment fragment);
      try assumption.
    apply universal_newlines_no_cr, Hcr, Htable.
  - apply (change_detection_none settings env page) in E1
      as (Hstatus & table & existing & Htable & Hdir & Hsnap & Hsame);
      [|exact Hpage].
    intros H. injection H as <-.
    apply (main_unchanged_run settings env w1 page table existing); assumption.
Qed.

(** Two runs in a row, from nothing. *)
Lemma second_run_changes_nothing_witness :
  let w' := (main sample_settings plain_env empty_world).2 in
  main sample_settings plain_env empty_world = (Ok tt, w')
  /\ main sample_settings plain_env w'
     = (Ok tt, after_an_unchanged_run sample_settings w').
Proof.
  intros w'.
  assert (Hrun : main sample_settings plain_env empty_world = (Ok tt, w'))
    by (vm_compute; reflexivity).
  split; [exact Hrun|].
  refine (second_run_changes_nothing sample_settings plain_env
            (mkResponse 200 page_plain) empty_world w' _ _ _ Hrun).
  - intros tick. reflexivity.
  - intros table Htable. vm_compute in Htable. injection Htable as <-.
    vm_compute. reflexivity.
  - discriminate.
Defined.

(** X18.  A run that fails while the reply is interpreted is not tried again.  The
    snapshot is stored before the completion service is called; so when the
    month or the events cannot be had, or the calendar cannot be written, the
    run raises, and the next run against the same page (with a table free of
    carriage returns) finds the snapshot unchanged and returns after its four
    actions: the calendar of the new table is not made until the page
    changes again.  This holds for every failure that comes before the
    calendar is written to (no write among the actions after the snapshot),
    and for a failing write of the calendar too when the calendar has a path
    of its own: a failing write may leave its file cut short, and with one
    path for both that file is the snapshot. *)
Theorem failed_interpretation_is_not_retried settings env page w fragment w1 e w' :
  steady_page env page ->
  has_char CR fragment = false ->
  change_detection settings env w = (Ok (Some fragment), w1) ->
  regenerate settings fragment env w1 = (Raise e, w') ->
  filter is_write (new_actions w1 w') = []
  \/ joinpath (artifacts_dir settings) (html_file_name settings)
     <> joinpath (artifacts_dir settings) (ics_file_name settings) ->
  main settings env w = (Raise e, w')
  /\ main settings env w' = (Ok tt, after_an_unchanged_run settings w').
Proof.
  intros Hpage Hcr Hdetect Hfail Hcase. split.
  - rewrite main_split, Hdetect. exact Hfail.
  - apply (change_detection_some settings env page) in Hdetect
      as (Hstatus & Htable & Hdir & Hsnap); [|exact Hpage].
    assert (Hleft : stat w' (artifacts_dir settings) = Some Dir
                    /\ stat w' (joinpath (artifacts_dir settings)
                                  (html_file_name settings))
                       = Some (File fragment)).
    { apply regenerate_fs in Hfail
        as [(r' & _ & Hfs) | (left & Hfs & Ha & Hnodir & Hwrites)].
      - unfold stat. rewrite Hfs. split; [exact Hdir|exact Hsnap].
      - destruct Hcase as [Hnone | Hpaths]; [exfalso; exact (Hwrites Hnone)|].
        exact (stat_beside_the_calendar settings w1 w' left fragment
                 Hfs Ha Hnodir Hpaths Hdir Hsnap). }
    destruct Hleft as [Hdir' Hsnap'].
    apply (main_unchanged_run settings env w' page fragment fragment);
      try assumption.
    apply universal_newlines_no_cr, Hcr.
Qed.

(** The service answers July to the question for the month; the run after it
    asks nothing. *)
Lemma failed_interpretation_is_not_retried_witness :
  let env := sample_env page_plain "July" market_day_reply in
  let fragment := "<table><tr><td>Market Day 4 March 8am-4pm</td></tr></table>" in
  let w1 := (change_detection sample_settings env empty_world).2 in
  let w' := (regenerate sample_settings fragment env w1).2 in
  main sample_settings env empty_world = (Raise ValueError, w')
  /\ main sample_settings env w'
     = (Ok tt, after_an_unchanged_run sample_settings w').
Proof.
  intros env fragment w1 w'.
  refine (failed_interpretation_is_not_retried sample_settings env
            (mkResponse 200 page_plain) empty_world fragment w1 ValueError w'
            _ _ _ _ _).
  - intros tick. reflexivity.
  - vm_compute. reflexivity.
  - vm_compute. reflexivity.
  - vm_compute. reflexivity.
  - left. vm_compute. reflexivity.
Defined.

(** Why the calendar needs a path of its own there.  The settings give the
    snapshot and the calendar one file name, and the reply carries a title
    with a lone surrogate.  The run stores the snapshot, interprets the
    reply, opens the same file for the calendar, which empties it, and fails
    at the encoding of the title: [UnicodeEncodeError].  The next run
    against the same page finds an empty snapshot: it does not stop at change
    detection, but calls the completion service twice again. *)
Lemma failed_calendar_write_over_the_snapshot :
  let env := sample_env page_plain "3" surrogate_reply in
  let fragment := "<table><tr><td>Market Day 4 March 8am-4pm</td></tr></table>" in
  let w1 := (change_detection one_file_settings env empty_world).2 in
  let w' := (regenerate one_file_settings fragment env w1).2 in
  steady_page env (mkResponse 200 page_plain)
  /\ has_char CR fragment = false
  /\ change_detection one_file_settings env empty_world = (Ok (Some fragment), w1)
  /\ regenerate one_file_settings fragment env w1 = (Raise UnicodeEncodeError, w')
  /\ main one_file_settings env empty_world = (Raise UnicodeEncodeError, w')
  /\ file_at w1 snapshot_path = Some fragment
  /\ file_at w' snapshot_path = Some ""
  /\ main one_file_settings env w'
     <> (Ok tt, after_an_unchanged_run one_file_settings w')
  /\ length (filter is_completion_call
               (new_actions w' (main one_file_settings env w').2)) = 2%nat.
Proof.
  intros env fragment w1 w'.
  split; [intros tick; reflexivity|].
  vm_compute. repeat split. discriminate.
Qed.

(** *** What a run leaves behind *)

Lemma filter_none {A} (f : A -> bool) (l : list A) :
  Forall (fun x => f x = false) l -> filter f l = [].
Proof.
  induction 1 as [|x l Hx _ IH]; [reflexivity|].
  rewrite filter_cons, IH. destruct (decide (f x)) as [H|_]; [|reflexivity].
  rewrite Hx in H. destruct H.
Qed.

(** The first half of [main] calls the completion service not once. *)
Lemma change_detection_actions settings env w r w1 :
  change_detection settings env w = (r, w1) ->
  extends_by (fun e => is_completion_call e = false) w w1.
Proof.
  intros H.
  eapply (preserves_change_detection
            (extends_by (fun e => is_completion_call e = false))
            (fun e => is_completion_call e = false) (fun _ => True));
    [ apply extends_by_refl
    | apply extends_by_trans
    | apply extends_by_emit
    | intros; apply extends_by_same_trace; reflexivity
    | intros; apply extends_by_same_trace; reflexivity
    | reflexivity
    | reflexivity
    | reflexivity
    | intros; reflexivity
    | intros; reflexivity
    | exact I
    | exact H ].
Qed.

(** When the first half of [main] raises, either it has only made
    directories, fetched, read and logged, with every regular file as it
    was, or it has tried to write the snapshot. *)
Lemma change_detection_raise settings env w e w1 :
  change_detection settings env w = (Raise e, w1) ->
  quiet w w1 \/ filter is_write (new_actions w w1) <> [].
Proof.
  unfold change_detection.
  unfold bind at 1.
  destruct (mkdir (artifacts_dir settings) env w) as [[[]|e0] w0] eqn:E0.
  2:{ intros H. injection H as _ <-. left.
      eapply (preserves_mkdir quiet _ quiet_refl quiet_trans quiet_emit
                quiet_mkdir), E0.
      split; reflexivity. }
  assert (H0 : quiet w w0).
  { eapply (preserves_mkdir quiet _ quiet_refl quiet_trans quiet_emit
              quiet_mkdir), E0.
    split; reflexivity. }
  unfold bind at 1.
  destruct (get_page_html EVENTS_PAGE None env w0) as [[html|e1] wa] eqn:E1.
  2:{ intros H. injection H as _ <-. left. eapply quiet_trans; [exact H0|].
      eapply (preserves_get_page_html quiet _ quiet_refl quiet_trans quiet_emit),
        E1.
      split; reflexivity. }
  assert (Ha : quiet w wa).
  { eapply quiet_trans; [exact H0|].
    eapply (preserves_get_page_html quiet _ quiet_refl quiet_trans quiet_emit),
      E1.
    split; reflexivity. }
  unfold bind at 1. rewrite find_html_events_table_pure.
  destruct (extracted_table env html) as [table|e2].
  2:{ intros H. injection H as _ <-. left. exact Ha. }
  unfold bind at 1.
  destruct (file_content_matches_existing _ table env wa)
    as [[unchanged|e3] wb] eqn:E3.
  2:{ intros H. injection H as _ <-. left. eapply quiet_trans; [exact Ha|].
      eapply (preserves_file_content_matches_existing quiet _ quiet_refl
                quiet_trans quiet_emit), E3.
      split; reflexivity. }
  assert (Hb : quiet w wb).
  { eapply quiet_trans; [exact Ha|].
    eapply (preserves_file_content_matches_existing quiet _ quiet_refl
              quiet_trans quiet_emit), E3.
    split; reflexivity. }
  destruct unchanged.
  - unfold bind, logger_info, emit, ret. discriminate.
  - unfold bind at 1.
    destruct (write_text _ table env wb) as [[[]|e4] wc] eqn:E4.
    + unfold ret. discriminate.
    + intros H. injection H as _ <-. right.
      apply write_text_trace in E4.
      destruct Hb as [(l & Hl & _) _].
      unfold new_actions. rewrite E4, Hl, <- app_assoc, drop_app_length.
      apply (filter_some is_write _
               (WriteText (joinpath (artifacts_dir settings)
                             (html_file_name settings)) table));
        [|reflexivity].
      apply in_or_app. right. left. reflexivity.
Qed.

(** X19.  A run that does not get past change detection, because making the
    directory, the fetch, the search for the table, the comparison or the
    storing of the snapshot raises: [main] raises the same exception and the
    completion service has not been called.  Every regular file but the
    snapshot is as it was before the run; and when the run has not come to
    write the snapshot, every regular file is.  (A write of the snapshot that
    fails may leave the snapshot empty or cut short.) *)
Theorem main_fails_before_the_completion_service settings env w e w1 :
  change_detection settings env w = (Raise e, w1) ->
  main settings env w = (Raise e, w1)
  /\ filter is_completion_call (new_actions w w1) = []
  /\ (forall q,
        q <> joinpath (artifacts_dir settings) (html_file_name settings) ->
        file_at w1 q = file_at w q)
  /\ (filter is_write (new_actions w w1) = [] ->
      forall q, file_at w1 q = file_at w q).
Proof.
  intros Hdetect. split; [rewrite main_split, Hdetect; reflexivity|].
  split; [|split].
  - apply filter_none, extends_by_new_actions.
    eapply change_detection_actions, Hdetect.
  - intros q Hq. eapply change_detection_files; [exact Hdetect|exact Hq].
  - intros Hnone q.
    apply change_detection_raise in Hdetect as [[_ Hfiles] | Hwrites].
    + apply Hfiles. tauto.
    + exfalso. exact (Hwrites Hnone).
Qed.

(** The server answers with status 503. *)
Lemma main_fails_before_the_completion_service_witness :
  let env :=
    env_answering (Replied (mkResponse 503 "Service Unavailable")) NetFailure in
  let w1 := (change_detection sample_settings env empty_world).2 in
  main sample_settings env empty_world
  = (Raise (HTTPStatusError 503 "Service Unavailable"), w1)
  /\ filter is_completion_call (new_actions empty_world w1) = []
  /\ (forall q, q <> snapshot_path -> file_at w1 q = file_at empty_world q)
  /\ (filter is_write (new_actions empty_world w1) = [] ->
      forall q, file_at w1 q = file_at empty_world q).
Proof.
  intros env w1.
  apply (main_fails_before_the_completion_service sample_settings env empty_world).
  vm_compute. reflexivity.
Defined.

(** X20.  With a regular file where the artifacts directory should be, the run
    ends at once with [FileExistsError]: nothing is fetched. *)
Theorem main_artifacts_dir_is_a_file settings env w content :
  stat w (artifacts_dir settings) = Some (File content) ->
  main settings env w
  = (Raise FileExistsError, log_action w (MkDir (artifacts_dir settings))).
Proof.
  intros Hfile. rewrite main_split. unfold change_detection.
  unfold bind at 1. rewrite (mkdir_file_exists _ content env w Hfile).
  reflexivity.
Qed.

Lemma main_artifacts_dir_is_a_file_witness :
  let w := mkWorld (<[ [ "artifacts" ] := File "notes" ]> ∅) [] 0 in
  main sample_settings plain_env w
  = (Raise FileExistsError, log_action w (MkDir [ "artifacts" ])).
Proof.
  intros w.
  exact (main_artifacts_dir_is_a_file sample_settings plain_env w "notes" eq_refl).
Defined.

(** X26.  A failure of the file system goes through [main] unchanged.  With the
    parent of the artifacts directory in place and nothing at the path of the
    artifacts directory, an operating system that refuses to make the
    directory (for want of permission, say) ends the run at once with the
    error it gave: nothing is made, nothing is fetched, and the one action of
    the run is the attempt to make the directory. *)
Theorem main_mkdir_refused settings env w e :
  stat w (artifacts_dir settings) = None ->
  stat w (parent (artifacts_dir settings)) = Some Dir ->
  (forall tick, mkdir_error env tick (artifacts_dir settings) = Some e) ->
  main settings env w = (Raise e, log_action w (MkDir (artifacts_dir settings))).
Proof.
  intros Hnone Hparent Hos. rewrite main_split. unfold change_detection.
  unfold bind at 1. rewrite (mkdir_refused _ e env w Hnone Hparent Hos).
  reflexivity.
Qed.

Lemma main_mkdir_refused_witness :
  main sample_settings read_only_env empty_world
  = (Raise PermissionError, log_action empty_world (MkDir [ "artifacts" ])).
Proof.
  refine (main_mkdir_refused sample_settings read_only_env empty_world
            PermissionError _ _ _).
  - reflexivity.
  - reflexivity.
  - intros tick. reflexivity.
Defined.

(** X21.  Whatever the settings, the answers of the outside and the outcome, a run
    performs no action but these: make the artifacts directory, fetch the
    fixed address without a header, read the snapshot, write the snapshot or
    the calendar, post to the completion service, log.  At every path other
    than those of the snapshot and of the calendar, the regular file that was
    there is there unchanged, and where there was none there is none. *)
Theorem main_stays_within_its_artifacts settings env w r w' :
  main settings env w = (r, w') ->
  Forall (orchestrator_action settings) (new_actions w w')
  /\ (forall q,
        q <> joinpath (artifacts_dir settings) (html_file_name settings) ->
        q <> joinpath (artifacts_dir settings) (ics_file_name settings) ->
        file_at w' q = file_at w q).
Proof.
  intros Hrun. split.
  - eapply main_actions, Hrun.
  - intros q Hsnap Hcal. eapply main_files; [exact Hrun|]. tauto.
Qed.

Lemma main_stays_within_its_artifacts_witness :
  let run := main sample_settings plain_env (world_after_a_run "<table></table>") in
  Forall (orchestrator_action sample_settings)
    (new_actions (world_after_a_run "<table></table>") run.2)
  /\ (forall q,
        q <> snapshot_path -> q <> calendar_path ->
        file_at run.2 q = file_at (world_after_a_run "<table></table>") q).
Proof.
  intros run.
  exact (main_stays_within_its_artifacts sample_settings plain_env
           (world_after_a_run "<table></table>") run.1 run.2
           (surjective_pairing run)).
Defined.

(** X22.  The second half of a run that went well.  Past change detection with
    the table [fragment], a run that returns has asked the completion service
    twice, first for the month of that table and then for its events with the
    calendar of that month of 2025, has drawn one random number per event, has
    stored as the calendar the text [create_ics_from_events] makes of the
    validated events, and has logged the path of the calendar; in this order,
    and nothing else. *)
Theorem main_makes_the_calendar_of_the_reply settings env w fragment w1 w' :
  change_detection settings env w = (Ok (Some fragment), w1) ->
  main settings env w = (Ok tt, w') ->
  exists month month_cal events now ics,
    let key := openrouter_api_key settings in
    let model := openrouter_model settings in
    let calendar := joinpath (artifacts_dir settings) (ics_file_name settings) in
    get_events_month fragment key model env w1
    = (Ok month, log_action w1 (completion_request (month_prompt fragment) model key))
    /\ formatmonth 2025 month = Ok month_cal
    /\ fst (create_events_from_html fragment month key model env
              (log_action w1 (completion_request (month_prompt fragment) model key)))
       = Ok events
    /\ civil_of_seconds (posix_time env + utc_offset env) = Some now
    /\ ics = join CRLF (ics_header
                        ++ event_blocks env (local_stamp env now) (draws w1) events
                        ++ ics_footer)
    /\ new_actions w1 w'
       = [ completion_request (month_prompt fragment) model key;
           completion_request (events_prompt month_cal fragment) model key;
           WriteText calendar ics;
           LogInfo ("ICS file written to path: " +:+ path_str calendar) ]
    /\ file_at w' calendar = Some ics
    /\ draws w' = (draws w1 + length events)%nat.
Proof.
  intros Hdetect. rewrite main_split, Hdetect. unfold regenerate.
  unfold bind at 1.
  destruct (get_events_month fragment _ _ env w1) as [[month|e] w2] eqn:E2;
    [|discriminate].
  pose proof (get_events_month_frame _ _ _ _ _ _ _ E2) as Hw2. subst w2.
  unfold bind at 1.
  destruct (create_events_from_html fragment month _ _ env _)
    as [[events|e] w3] eqn:E3; [|discriminate].
  pose proof E3 as E3'. rewrite create_events_from_html_run in E3'.
  destruct (formatmonth 2025 month) as [month_cal|] eqn:Ecal; [|discriminate].
  injection E3' as _ Hw3. subst w3.
  unfold bind at 1.
  destruct (civil_of_seconds (posix_time env + utc_offset env)) as [now|] eqn:Enow.
  2:{ rewrite (create_ics_from_events_out_of_range env _ events Enow). discriminate. }
  rewrite (create_ics_from_events_run env _ events now Enow).
  unfold bind at 1.
  destruct (write_text _ _ env _) as [[[]|e] w5] eqn:E5; [|discriminate].
  apply write_text_ok in E5 as (-> & Ha & _ & _).
  unfold logger_info, emit. intros H. injection H as <-.
  exists month, month_cal, events, now. eexists. cbv zeta.
  split; [reflexivity|]. split; [exact Ecal|].
  split; [rewrite E3; reflexivity|]. split; [reflexivity|].
  split; [reflexivity|]. split; [|split].
  - unfold new_actions, log_action, add_draws. cbn [trace].
    rewrite <- !app_assoc, drop_app_length. reflexivity.
  - unfold file_at. cbn [fs]. rewrite lookup_insert_eq. reflexivity.
  - reflexivity.
Qed.

(** The run of the spec's example, from nothing. *)
Lemma main_makes_the_calendar_of_the_reply_witness :
  let w1 := (change_detection sample_settings plain_env empty_world).2 in
  let w' := (main sample_settings plain_env empty_world).2 in
  exists ics,
    file_at w' calendar_path = Some ics
    /\ length (new_actions w1 w') = 4%nat.
Proof.
  intros w1 w'.
  destruct (main_makes_the_calendar_of_the_reply sample_settings plain_env
              empty_world
              "<table><tr><td>Market Day 4 March 8am-4pm</td></tr></table>"
              w1 w'
              ltac:(vm_compute; reflexivity) ltac:(vm_compute; reflexivity))
    as (month & month_cal & events & now & ics & _ & _ & _ & _ & _ & Hact & Hfile & _).
  exists ics. split; [exact Hfile|]. rewrite Hact. reflexivity.
Defined.

(** X23.  The snapshot alone decides.  With the artifacts directory in place, a
    page served with a 2xx status and, at the snapshot path, a regular file
    whose text (line ends translated) is the table of that page, the run
    returns after its four actions and leaves the file system as it is,
    whatever is at the calendar path: a calendar that is missing is not made
    again. *)
Theorem matching_snapshot_stops_the_run settings env page table existing w :
  steady_page env page ->
  200 <= status_code page <= 299 ->
  extracted_table env (text page) = Ok table ->
  stat w (artifacts_dir settings) = Some Dir ->
  stat w (joinpath (artifacts_dir settings) (html_file_name settings))
  = Some (File existing) ->
  universal_newlines existing = table ->
  main settings env w = (Ok tt, after_an_unchanged_run settings w)
  /\ fs (after_an_unchanged_run settings w) = fs w
  /\ filter is_completion_call
       (new_actions w (after_an_unchanged_run settings w)) = []
  /\ filter is_write (new_actions w (after_an_unchanged_run settings w)) = [].
Proof.
  intros Hpage Hstatus Htable Hdir Hsnap Hsame.
  split; [eapply main_unchanged_run; eassumption|].
  split; [reflexivity|].
  assert (Hnew : new_actions w (after_an_unchanged_run settings w)
                 = [ MkDir (artifacts_dir settings);
                     HttpGet EVENTS_PAGE [];
                     ReadText (joinpath (artifacts_dir settings)
                                 (html_file_name settings));
                     LogInfo "No changes detected in events HTML. Exiting." ]).
  { unfold new_actions, after_an_unchanged_run, log_action. cbn [trace].
    rewrite <- !app_assoc, drop_app_length. reflexivity. }
  rewrite Hnew. split; reflexivity.
Qed.

(** The snapshot of the page is there, the calendar is not. *)
Lemma matching_snapshot_stops_the_run_witness :
  let w :=
    mkWorld
      (<[ snapshot_path
          := File "<table><tr><td>Market Day 4 March 8am-4pm</td></tr></table>" ]>
         (<[ [ "artifacts" ] := Dir ]> ∅)) [] 0 in
  file_at w calendar_path = None
  /\ main sample_settings plain_env w
     = (Ok tt, after_an_unchanged_run sample_settings w)
  /\ file_at (after_an_unchanged_run sample_settings w) calendar_path = None.
Proof.
  intros w.
  assert (Hstatus : 200 <= status_code (mkResponse 200 page_plain) <= 299)
    by (cbn [status_code]; lia).
  destruct (matching_snapshot_stops_the_run sample_settings plain_env
              (mkResponse 200 page_plain)
              "<table><tr><td>Market Day 4 March 8am-4pm</td></tr></table>"
              "<table><tr><td>Market Day 4 March 8am-4pm</td></tr></table>"
              w (fun tick => eq_refl) Hstatus
              ltac:(vm_compute; reflexivity) ltac:(vm_compute; reflexivity)
              ltac:(vm_compute; reflexivity) ltac:(vm_compute; reflexivity))
    as (Hrun & _ & _ & _).
  split; [vm_compute; reflexivity|]. split; [exact Hrun|].
  vm_compute. reflexivity.
Defined.

(** ** Numbers written and read *)

Lemma ord_chr n : (n < 256)%nat -> ord (chr n) = Z.of_nat n.
Proof. intros H. unfold ord, chr. rewrite nat_ascii_embedding by exact H. reflexivity. Qed.

Lemma digit_val_digit n : digit_val (digit n) = n mod 10.
Proof.
  unfold digit_val, digit.
  pose proof (Z.mod_pos_bound n 10 ltac:(lia)).
  rewrite ord_chr by lia. lia.
Qed.

Lemma is_digit_digit n : is_digit (digit n) = true.
Proof.
  unfold is_digit, digit.
  pose proof (Z.mod_pos_bound n 10 ltac:(lia)).
  rewrite ord_chr by lia. apply andb_true_iff.
  split; apply Z.leb_le; lia.
Qed.

Lemma all_digits_app a b :
  all_digits (a +:+ b) = all_digits a && all_digits b.
Proof.
  induction a as [|c a IH]; [reflexivity|].
  change (String c a +:+ b) with (String c (a +:+ b)).
  cbn [all_digits]. rewrite IH, andb_assoc. reflexivity.
Qed.

Lemma digits_value_app a b : forall acc,
  digits_value acc (a +:+ b) = digits_value (digits_value acc a) b.
Proof.
  induction a as [|c a IH]; intros acc; [reflexivity|].
  change (String c a +:+ b) with (String c (a +:+ b)).
  cbn [digits_value]. apply IH.
Qed.

Lemma decimal_go_S fuel n acc :
  decimal_go (S fuel) n acc
  = if n <? 10 then String (digit n) acc
    else decimal_go fuel (n / 10) (String (digit n) acc).
Proof. reflexivity. Qed.

(** [decimal_go] writes the digits of a number in front of [acc]. *)
Lemma decimal_go_digits : forall fuel n acc,
  0 <= n < 10 ^ Z.of_nat (S fuel) ->
  exists ds,
    decimal_go (S fuel) n acc = ds +:+ acc
    /\ all_digits ds = true /\ ds <> ""
    /\ digits_value 0 ds = n.
Proof.
  induction fuel as [|fuel IH]; intros n acc Hn.
  - rewrite decimal_go_S. change (10 ^ Z.of_nat 1) with 10 in Hn.
    replace (n <? 10) with true by (symmetry; apply Z.ltb_lt; lia).
    exists (String (digit n) ""). split; [reflexivity|].
    cbn [all_digits digits_value]. rewrite is_digit_digit, digit_val_digit.
    split; [reflexivity|]. split; [discriminate|].
    rewrite Z.mod_small by lia. lia.
  - rewrite decimal_go_S. destruct (n <? 10) eqn:E.
    + apply Z.ltb_lt in E.
      exists (String (digit n) ""). split; [reflexivity|].
      cbn [all_digits digits_value]. rewrite is_digit_digit, digit_val_digit.
      split; [reflexivity|]. split; [discriminate|].
      rewrite Z.mod_small by lia. lia.
    + apply Z.ltb_ge in E.
      assert (Hdiv : 0 <= n / 10 < 10 ^ Z.of_nat (S fuel)).
      { split; [apply Z.div_pos; lia|].
        apply Z.div_lt_upper_bound; [lia|].
        replace (Z.of_nat (S (S fuel))) with (Z.succ (Z.of_nat (S fuel))) in Hn
          by lia.
        rewrite Z.pow_succ_r in Hn by lia. lia. }
      destruct (IH (n / 10) (String (digit n) acc) Hdiv)
        as (ds & Hgo & Hdigits & Hne & Hval).
      exists (ds +:+ String (digit n) ""). split; [|split; [|split]].
      * rewrite Hgo, string_app_assoc. reflexivity.
      * rewrite all_digits_app, Hdigits. cbn [all_digits].
        rewrite is_digit_digit. reflexivity.
      * destruct ds; [congruence|discriminate].
      * rewrite digits_value_app, Hval. cbn [digits_value].
        rewrite digit_val_digit. pose proof (Z.div_mod n 10 ltac:(lia)). lia.
Qed.

Lemma decimal_fuel n : 0 <= n -> n < 10 ^ Z.of_nat (S (Z.to_nat (Z.log2 n))).
Proof.
  intros Hn. pose proof (Z.log2_nonneg n) as Hl.
  replace (Z.of_nat (S (Z.to_nat (Z.log2 n)))) with (Z.succ (Z.log2 n)) by lia.
  destruct (Z.eq_dec n 0) as [->|Hne]; [reflexivity|].
  pose proof (Z.log2_spec n ltac:(lia)) as [_ Hup].
  eapply Z.lt_le_trans; [exact Hup|].
  apply Z.pow_le_mono_l. lia.
Qed.

(** [str(n)] of a number that is not negative is made of its digits. *)
Lemma decimal_digits n :
  0 <= n ->
  all_digits (decimal n) = true /\ decimal n <> ""
  /\ digits_value 0 (decimal n) = n.
Proof.
  intros Hn. unfold decimal.
  replace (n <? 0) with false by (symmetry; apply Z.ltb_ge; lia).
  destruct (decimal_go_digits (Z.to_nat (Z.log2 n)) n "" (conj Hn (decimal_fuel n Hn)))
    as (ds & -> & Hdigits & Hne & Hval).
  rewrite string_app_nil_r. auto.
Qed.

(** *** White space around the month *)

Lemma is_space_ascii c : is_space c = true -> (ord c <? 128) = true.
Proof.
  unfold is_space. intros H. apply Z.ltb_lt.
  apply orb_true_iff in H as [H|H].
  - apply andb_true_iff in H as [_ H]. apply Z.leb_le in H. lia.
  - apply Z.eqb_eq in H. lia.
Qed.

Lemma all_space_ascii s : all_space s = true -> is_ascii_text s = true.
Proof.
  induction s as [|c s IH]; [reflexivity|].
  cbn [all_space is_ascii_text]. intros H. apply andb_true_iff in H as [Hc Hs].
  rewrite (is_space_ascii c Hc), (IH Hs). reflexivity.
Qed.

Lemma is_ascii_text_app a b :
  is_ascii_text (a +:+ b) = is_ascii_text a && is_ascii_text b.
Proof.
  induction a as [|c a IH]; [reflexivity|].
  change (String c a +:+ b) with (String c (a +:+ b)).
  cbn [is_ascii_text]. rewrite IH, andb_assoc. reflexivity.
Qed.

Lemma lstrip_app_space pre s : all_space pre = true -> lstrip (pre +:+ s) = lstrip s.
Proof.
  induction pre as [|c pre IH]; [reflexivity|].
  cbn [all_space]. intros H. apply andb_true_iff in H as [Hc Hs].
  change (String c pre +:+ s) with (String c (pre +:+ s)).
  cbn [lstrip]. rewrite Hc. apply IH, Hs.
Qed.

Lemma rstrip_space_all_space post : all_space post = true -> rstrip_space post = "".
Proof.
  induction post as [|c post IH]; [reflexivity|].
  cbn [all_space rstrip_space]. intros H. apply andb_true_iff in H as [Hc Hs].
  rewrite (IH Hs), Hc. reflexivity.
Qed.

Lemma rstrip_space_app s post :
  all_space post = true -> rstrip_space (s +:+ post) = rstrip_space s.
Proof.
  intros Hpost. induction s as [|c s IH]; [apply rstrip_space_all_space, Hpost|].
  change (String c s +:+ post) with (String c (s +:+ post)).
  cbn [rstrip_space]. rewrite IH. reflexivity.
Qed.

(** [int] does not see the white space around the digits. *)
Lemma int_of_str_white_space env pre ds post :
  all_space pre = true -> all_space post = true ->
  all_digits ds = true -> ds <> "" ->
  int_of_str env (pre +:+ ds +:+ post) = int_of_str env ds.
Proof.
  intros Hpre Hpost Hds Hne. unfold int_of_str.
  rewrite !is_ascii_text_app, (all_space_ascii pre Hpre),
    (all_space_ascii post Hpost), (all_digits_ascii ds Hds).
  cbn [andb negb].
  rewrite (lstrip_app_space pre _ Hpre).
  assert (Hl : lstrip (ds +:+ post) = ds +:+ post).
  { destruct ds as [|c ds]; [congruence|].
    cbn [all_digits] in Hds. apply andb_true_iff in Hds as [Hc _].
    change (String c ds +:+ post) with (String c (ds +:+ post)).
    cbn [lstrip]. rewrite (is_digit_not_space c Hc). reflexivity. }
  rewrite Hl, (rstrip_space_app ds post Hpost).
  rewrite (all_digits_lstrip ds Hds). reflexivity.
Qed.

(** X24.  A reply with white space around the number (a line break after it, as
    completion services often send) is read as the number.  When the reply is
    the decimal writing of [m], not negative and of at most 4300 digits,
    between any two runs of ASCII white space, [get_events_month] returns
    [m]. *)
Theorem get_events_month_tolerates_white_space
    env w html api_key model pre post m w1 :
  all_space pre = true -> all_space post = true ->
  0 <= m ->
  (String.length (decimal m) <= int_max_str_digits)%nat ->
  get_openrouter_response (month_prompt html) model api_key env w
  = (Ok (JString (pre +:+ decimal m +:+ post)), w1) ->
  get_events_month html api_key model env w = (Ok m, w1).
Proof.
  intros Hpre Hpost Hm Hlen Hreply.
  destruct (decimal_digits m Hm) as (Hdigits & Hne & Hval).
  rewrite get_events_month_run.
  rewrite get_openrouter_response_run in Hreply. injection Hreply as -> ->.
  cbn [py_int].
  rewrite (int_of_str_white_space env pre (decimal m) post Hpre Hpost Hdigits Hne).
  rewrite (int_of_str_digits env (decimal m) Hdigits Hne Hlen), Hval.
  reflexivity.
Qed.

(** The reply is a space, the digit 3 and a line break. *)
Lemma get_events_month_tolerates_white_space_witness :
  let env := sample_env page_plain " 3\n" market_day_reply in
  get_events_month "<table></table>" "sk-or-sample" "some/model" env empty_world
  = (Ok 3,
     log_action empty_world
       (completion_request (month_prompt "<table></table>")
          "some/model" "sk-or-sample")).
Proof.
  intros env.
  refine (get_events_month_tolerates_white_space env empty_world "<table></table>"
            "sk-or-sample" "some/model" " " NL 3 _ eq_refl eq_refl _ _ _).
  - lia.
  - vm_compute. lia.
  - vm_compute. reflexivity.
Defined.

(** ** The message of [HTTPStatusError] *)

(** [str(n)]: a minus sign for a negative number, then the digits of its
    absolute value. *)
Lemma decimal_shape n :
  exists ds,
    decimal n = (if n <? 0 then "-" else "") +:+ ds
    /\ all_digits ds = true /\ ds <> "" /\ digits_value 0 ds = Z.abs n.
Proof.
  destruct (n <? 0) eqn:E.
  - apply Z.ltb_lt in E. unfold decimal.
    replace (n <? 0) with true by (symmetry; apply Z.ltb_lt; lia).
    assert (Hpos : 0 <= - n) by lia.
    destruct (decimal_go_digits (Z.to_nat (Z.log2 (- n))) (- n) ""
                (conj Hpos (decimal_fuel (- n) Hpos)))
      as (ds & -> & Hdigits & Hne & Hval).
    exists ds. rewrite string_app_nil_r.
    split; [reflexivity|]. split; [exact Hdigits|]. split; [exact Hne|]. lia.
  - apply Z.ltb_ge in E. destruct (decimal_digits n E) as (Hdigits & Hne & Hval).
    exists (decimal n).
    split; [reflexivity|]. split; [exact Hdigits|]. split; [exact Hne|]. lia.
Qed.

Lemma all_digits_has_no c s :
  (ord c <? 48) || (57 <? ord c) = true -> all_digits s = true ->
  has_char c s = false.
Proof.
  intros Hc. induction s as [|d s IH]; [reflexivity|].
  cbn [all_digits has_char]. intros H. apply andb_true_iff in H as [Hd Hs].
  rewrite (is_digit_is_not d c Hd Hc), (IH Hs). reflexivity.
Qed.

Lemma decimal_has_no_dot n : has_char "." (decimal n) = false.
Proof.
  destruct (decimal_shape n) as (ds & -> & Hdigits & _ & _).
  rewrite has_char_app, (all_digits_has_no "." ds eq_refl Hdigits).
  destruct (n <? 0); reflexivity.
Qed.

Lemma decimal_inj a b : decimal a = decimal b -> a = b.
Proof.
  destruct (decimal_shape a) as (da & -> & Ha & Hane & Hva).
  destruct (decimal_shape b) as (db & -> & Hb & Hbne & Hvb).
  destruct (a <? 0) eqn:Ea, (b <? 0) eqn:Eb.
  - intros H. change (String "-" da = String "-" db) in H.
    injection H as H. subst db. apply Z.ltb_lt in Ea, Eb. lia.
  - destruct db as [|c db]; [congruence|]. intros H.
    change (String "-" da = String c db) in H. injection H as <- _.
    cbn [all_digits] in Hb. apply andb_true_iff in Hb as [Hb _]. discriminate Hb.
  - destruct da as [|c da]; [congruence|]. intros H.
    change (String c da = String "-" db) in H. injection H as -> _.
    cbn [all_digits] in Ha. apply andb_true_iff in Ha as [Ha _]. discriminate Ha.
  - intros H. change (da = db) in H. subst db.
    apply Z.ltb_ge in Ea, Eb. lia.
Qed.

(** Two texts are cut at their first occurrence of a character the same
    way. *)
Lemma cut_at_first c : forall a b r1 r2,
  has_char c a = false -> has_char c b = false ->
  a +:+ String c r1 = b +:+ String c r2 -> a = b /\ r1 = r2.
Proof.
  induction a as [|x a IH]; intros [|y b] r1 r2 Ha Hb H.
  - injection H as ->. auto.
  - injection H as <- _. cbn [has_char] in Hb. unfold is_char in Hb.
    rewrite Ascii.eqb_refl in Hb. discriminate.
  - injection H as -> _. cbn [has_char] in Ha. unfold is_char in Ha.
    rewrite Ascii.eqb_refl in Ha. discriminate.
  - change (String x (a +:+ String c r1) = String y (b +:+ String c r2)) in H.
    injection H as -> H.
    cbn [has_char] in Ha, Hb.
    apply orb_false_iff in Ha as [_ Ha]. apply orb_false_iff in Hb as [_ Hb].
    destruct (IH b r1 r2 Ha Hb H) as [-> ->]. auto.
Qed.

Lemma string_app_inv_head p : forall a b : string, p +:+ a = p +:+ b -> a = b.
Proof.
  induction p as [|c p IH]; intros a b H; [exact H|].
  injection H as H. apply IH, H.
Qed.

(** X25.  The message of the exception tells the status and the response text.
    Two [HTTPStatusError] with the same message have the same status code and
    the same response text, a text that is [None] counting as the empty
    text. *)
Theorem HTTPStatusError_message_is_faithful status1 text1 status2 text2 :
  HTTPStatusError_message status1 text1 = HTTPStatusError_message status2 text2 ->
  status1 = status2 /\ default "" text1 = default "" text2.
Proof.
  assert (Hform : forall status text,
    HTTPStatusError_message status text
    = "HTTP Status Error: "
      +:+ (decimal status
           +:+ String "."
                 (match default "" text with
                  | "" => ""
                  | String c t => " " +:+ String c t
                  end))).
  { intros status [[|c t]|]; unfold HTTPStatusError_message; cbn [default];
      rewrite ?string_app_assoc; reflexivity. }
  rewrite !Hform. intros H. apply string_app_inv_head in H.
  apply cut_at_first in H as [Hstatus Hrest]; try apply decimal_has_no_dot.
  split; [apply decimal_inj, Hstatus|].
  destruct (default "" text1) as [|c1 t1], (default "" text2) as [|c2 t2];
    try discriminate; [reflexivity|].
  injection Hrest as -> ->. reflexivity.
Qed.

(** No response text and an empty response text: one message. *)
Lemma HTTPStatusError_message_is_faithful_witness :
  HTTPStatusError_message 404 None = "HTTP Status Error: 404."
  /\ HTTPStatusError_message 404 None = HTTPStatusError_message 404 (Some "")
  /\ 404 = 404 /\ default "" None = default "" (Some "").
Proof.
  split; [vm_compute; reflexivity|].
  assert (H : HTTPStatusError_message 404 None = HTTPStatusError_message 404 (Some ""))
    by (vm_compute; reflexivity).
  split; [exact H|].
  exact (HTTPStatusError_message_is_faithful 404 None 404 (Some "") H).
Defined.
